(** * daily_ai4s_paper: the paper pipeline, embedded and verified

    A shallow embedding of the Python sources

      - [src/data_models.py]  (PaperCandidate, AnalyzedPaper)
      - [src/cache.py]        (the dedup cache)
      - [src/filter.py]       (the relevance filter)
      - [src/analysis.py]     (the paper analyzer)
      - [src/fetcher.py]      (the source fetchers)
      - [src/graph.py]        (the four pipeline nodes)

    Python code that talks to the outside (clock, HTTP, the language model,
    the PDF library, the file system) is written in a small state-and-
    exception monad [Py] over a [World]; everything the outside answers is
    taken from a record [External] of oracles, so every definition below
    evaluates on concrete inputs. *)

From stdpp Require Import gmap strings list fin_maps pretty.
From Stdlib Require Import ZArith Ascii.

Set Warnings "-register-all".

Open Scope string_scope.
Open Scope Z_scope.

(** ** Python strings

    A Python [str] is modelled by a Rocq [string]; a character stands for
    the code point of the same number (U+0000 .. U+00FF). *)

Module PyStr.

(** [bool(s)]: a string is falsy exactly when it is empty. *)
Definition truthy (s : string) : bool :=
  match s with EmptyString => false | String _ _ => true end.

Definition code (c : ascii) : Z := Z.of_nat (nat_of_ascii c).

Definition between (lo hi : Z) (c : ascii) : bool :=
  (lo <=? code c) && (code c <=? hi).

(** Whitespace as [str.strip()] and the regex class [\s] see it. *)
Definition is_space (c : ascii) : bool :=
  between 9 13 c || between 28 32 c || (code c =? 133) || (code c =? 160).

(** The regex class [\w]: alphanumeric characters and the underscore. *)
Definition is_word (c : ascii) : bool :=
  between 48 57 c || between 65 90 c || between 97 122 c || (code c =? 95)
  || (code c =? 170) || (code c =? 178) || (code c =? 179) || (code c =? 181)
  || (code c =? 185) || (code c =? 186) || between 188 190 c
  || between 192 214 c || between 216 246 c || between 248 255 c.

Fixpoint lstrip (s : string) : string :=
  match s with
  | String c s' => if is_space c then lstrip s' else s
  | EmptyString => EmptyString
  end.

Fixpoint rstrip (s : string) : string :=
  match s with
  | String c s' =>
      let r := rstrip s' in
      if is_space c && negb (truthy r) then EmptyString else String c r
  | EmptyString => EmptyString
  end.

(** [s.strip()] *)
Definition strip (s : string) : string := rstrip (lstrip s).

(** [re.sub(r'\s+', ' ', s)]: every maximal run of whitespace becomes one
    space.  [in_run] tells that the previous character was whitespace. *)
Fixpoint sub_spaces (in_run : bool) (s : string) : string :=
  match s with
  | String c s' =>
      if is_space c
      then (if in_run then sub_spaces true s' else String " " (sub_spaces true s'))
      else String c (sub_spaces false s')
  | EmptyString => EmptyString
  end.

(** [s[:n]] *)
Fixpoint take (n : nat) (s : string) : string :=
  match n, s with
  | S n', String c s' => String c (take n' s')
  | _, _ => EmptyString
  end.

(** [len(s)] *)
Definition len (s : string) : Z := Z.of_nat (String.length s).

(** [sep.join(l)] *)
Fixpoint join (sep : string) (l : list string) : string :=
  match l with
  | [] => ""
  | [x] => x
  | x :: l' => x ++ sep ++ join sep l'
  end.

(** [s.split(sep)] for a one-character separator: never the empty list. *)
Fixpoint split (sep : ascii) (s : string) : list string :=
  match s with
  | EmptyString => [""]
  | String c s' =>
      if Ascii.eqb c sep then "" :: split sep s'
      else match split sep s' with
           | w :: ws => String c w :: ws
           | [] => [String c ""]
           end
  end.

(** [l[-1]] of a list that [split] returned. *)
Definition last_item (l : list string) : string := List.last l "".

End PyStr.

(** ** Regular expressions

    The patterns of [analysis.py] use literals, the greedy [?] and the
    greedy [+] over a character class.  [rx_match r s k] is the backtracking
    matcher: it matches [r] at the start of [s] and hands what is left to
    the continuation [k], trying the greedy alternative first. *)

Module Re.

Inductive regex : Type :=
| Lit (s : string)
| Opt (r : regex)
| Plus (cls : ascii -> bool)
| Seq (r1 r2 : regex).

Fixpoint lit (p s : string) : option string :=
  match p, s with
  | EmptyString, _ => Some s
  | String a p', String b s' => if Ascii.eqb a b then lit p' s' else None
  | String _ _, EmptyString => None
  end.

Fixpoint star (cls : ascii -> bool) (s : string)
    (k : string -> option string) : option string :=
  match s with
  | String c s' =>
      if cls c
      then match star cls s' k with
           | Some rest => Some rest
           | None => k s
           end
      else k s
  | EmptyString => k EmptyString
  end.

Fixpoint rx_match (r : regex) (s : string)
    (k : string -> option string) : option string :=
  match r with
  | Lit p => match lit p s with Some rest => k rest | None => None end
  | Opt r' =>
      match rx_match r' s k with
      | Some rest => Some rest
      | None => k s
      end
  | Plus cls =>
      match s with
      | String c s' => if cls c then star cls s' k else None
      | EmptyString => None
      end
  | Seq r1 r2 => rx_match r1 s (fun s1 => rx_match r2 s1 k)
  end.

(** The text matched at the start of [s], if [r] matches there. *)
Definition match_at (r : regex) (s : string) : option string :=
  match rx_match r s Some with
  | Some rest => Some (PyStr.take (String.length s - String.length rest) s)
  | None => None
  end.

(** [re.findall(r, s)] for a pattern without groups: the matches, left
    to right, not overlapping.  [skip] counts the characters still
    covered by the match found last. *)
Fixpoint findall_from (r : regex) (skip : nat) (s : string) : list string :=
  match skip with
  | S n =>
      match s with
      | String _ s' => findall_from r n s'
      | EmptyString => []
      end
  | O =>
      match match_at r s with
      | Some m =>
          m :: match s with
               | String _ s' => findall_from r (Nat.pred (String.length m)) s'
               | EmptyString => []
               end
      | None =>
          match s with
          | String _ s' => findall_from r O s'
          | EmptyString => []
          end
      end
  end.

Definition findall (r : regex) (s : string) : list string := findall_from r O s.

(** [re.search]: the leftmost match. *)
Fixpoint search (r : regex) (s : string) : option string :=
  match match_at r s with
  | Some m => Some m
  | None =>
      match s with
      | String _ s' => search r s'
      | EmptyString => None
      end
  end.

End Re.

(** ** data_models.py *)

(** [PaperCandidate].  The field [id] of the source is spelled [paper_id]
    here ([id] is Rocq's identity function). *)
Record PaperCandidate : Type := {
  paper_id : string;
  url : string;
  pdf_url : string;
  title : string;
  abstract : string;
  authors : list string;
  source : string;
}.

(** [AnalyzedPaper].  [analysis_qa] is a Python dict whose order of
    insertion shows in the report, so it is kept as an association list
    (see [dict_set]); [resource_links] is a dict used as a finite map. *)
Record AnalyzedPaper : Type := {
  metadata : PaperCandidate;
  keywords : list string;
  analysis_qa : list (string * string);
  resource_links : gmap string string;
  summary : string;
}.

(** [d[k] = v] on an insertion-ordered dict: an existing key keeps its
    place and takes the new value, a new key goes last. *)
Fixpoint dict_set (k v : string) (d : list (string * string)) : list (string * string) :=
  match d with
  | [] => [(k, v)]
  | (k', v') :: d' =>
      if String.eqb k' k then (k', v) :: d' else (k', v') :: dict_set k v d'
  end.

(** ** Exceptions and outcomes *)

Inductive PyExn : Type :=
| IOError (msg : string)
| JSONDecodeError (msg : string)
| UnicodeDecodeError (msg : string)
| AttributeError (msg : string)
| TypeError (msg : string)
| KeyError (msg : string)
| RequestError (msg : string)                    (* httpx.RequestError *)
| HTTPStatusError (status_code : Z) (text : string)  (* httpx.HTTPStatusError *)
| InvalidUpdateError (msg : string)              (* langgraph.errors.InvalidUpdateError *)
| OtherError (msg : string).                     (* any other Exception *)

(** [str(e)] *)
Definition exn_str (e : PyExn) : string :=
  match e with
  | IOError m | JSONDecodeError m | UnicodeDecodeError m | AttributeError m
  | TypeError m | KeyError m | RequestError m | InvalidUpdateError m | OtherError m => m
  | HTTPStatusError c t => "HTTP status " ++ pretty c
  end.

(** What a call does: it returns a value or raises. *)
Inductive Outcome (A : Type) : Type :=
| Ret (a : A)
| Raise (e : PyExn).
Arguments Ret {A} a.
Arguments Raise {A} e.

(** ** JSON documents, as [json.load] returns them

    Objects keep their members in file order.  Booleans and numbers with a
    fraction are not part of the model: as members of a Python set they
    coincide with integers, and the cache never writes them. *)

Inductive json : Type :=
| JNull
| JInt (n : Z)
| JStr (s : string)
| JArr (items : list json)
| JObj (members : list (string * json)).

(** The hashable values a set read from a JSON document can hold. *)
Inductive pykey : Type :=
| KNone
| KInt (n : Z)
| KStr (s : string).

#[global] Instance pykey_eq_dec : EqDecision pykey.
Proof. solve_decision. Defined.

#[global] Instance pykey_countable : Countable pykey.
Proof.
  refine (inj_countable'
    (fun k => match k with
              | KNone => inl ()
              | KInt n => inr (inl n)
              | KStr s => inr (inr s)
              end)
    (fun x => match x with
              | inl _ => KNone
              | inr (inl n) => KInt n
              | inr (inr s) => KStr s
              end) _).
  intros []; reflexivity.
Defined.

Module PyJson.

(** The dict built from the members of an object: the last member with a
    given name wins. *)
Fixpoint lookup (k : string) (members : list (string * json)) : option json :=
  match members with
  | [] => None
  | (k', v) :: rest =>
      match lookup k rest with
      | Some v' => Some v'
      | None => if String.eqb k' k then Some v else None
      end
  end.

(** [data.get(k, default)]: only a dict has [get]. *)
Definition get (data : json) (k : string) (default : json) : Outcome json :=
  match data with
  | JObj members =>
      Ret (match lookup k members with Some v => v | None => default end)
  | JArr _ => Raise (AttributeError "'list' object has no attribute 'get'")
  | JStr _ => Raise (AttributeError "'str' object has no attribute 'get'")
  | JInt _ => Raise (AttributeError "'int' object has no attribute 'get'")
  | JNull => Raise (AttributeError "'NoneType' object has no attribute 'get'")
  end.

(** [hash(v)] succeeds on scalars only. *)
Definition key_of (v : json) : Outcome pykey :=
  match v with
  | JNull => Ret KNone
  | JInt n => Ret (KInt n)
  | JStr s => Ret (KStr s)
  | JArr _ => Raise (TypeError "unhashable type: 'list'")
  | JObj _ => Raise (TypeError "unhashable type: 'dict'")
  end.

Fixpoint set_of_items (items : list json) : Outcome (gset pykey) :=
  match items with
  | [] => Ret ∅
  | v :: rest =>
      match key_of v with
      | Raise e => Raise e
      | Ret k =>
          match set_of_items rest with
          | Raise e => Raise e
          | Ret s => Ret ({[ k ]} ∪ s)
          end
      end
  end.

Fixpoint chars (s : string) : list string :=
  match s with
  | EmptyString => []
  | String c s' => String c "" :: chars s'
  end.

(** [set(v)]: the elements of a list, the characters of a string, the
    keys of a dict; nothing else can be iterated. *)
Definition to_set (v : json) : Outcome (gset pykey) :=
  match v with
  | JArr items => set_of_items items
  | JStr s => Ret (list_to_set (KStr <$> chars s))
  | JObj members => Ret (list_to_set (KStr <$> members.*1))
  | JInt _ => Raise (TypeError "'int' object is not iterable")
  | JNull => Raise (TypeError "'NoneType' object is not iterable")
  end.

Definition of_key (k : pykey) : json :=
  match k with
  | KNone => JNull
  | KInt n => JInt n
  | KStr s => JStr s
  end.

End PyJson.

(** ** What the outside answers *)

(** [RelevanceResponse] of filter.py *)
Record RelevanceResponse : Type := {
  is_relevant_flag : bool;   (* the field [is_relevant] *)
  reason : string;
}.

(** [QAResponse] and [AnalysisResult] of analysis.py *)
Record QAResponse : Type := {
  question : string;
  answer : string;
}.

Record AnalysisResult : Type := {
  ar_analysis_qa : list QAResponse;
  ar_keywords : list string;
  ar_summary : string;
}.

(** An HTTP exchange: the request fails ([httpx.RequestError]), or a
    response arrives with a status, a body text, and what reading the body
    ([response.json()], [response.aread()]) gives. *)
Inductive HttpReply (A : Type) : Type :=
| NoResponse (msg : string)
| Response (status : Z) (text : string) (body : Outcome A).
Arguments NoResponse {A} msg.
Arguments Response {A} status text body.

(** One [arxiv.Result]. *)
Record ArxivLink : Type := {
  link_title : option string;
  href : string;
}.

Record ArxivResult : Type := {
  entry_id : string;
  ax_title : string;
  ax_summary : string;
  ax_authors : list string;          (* [author.name] of each author *)
  ax_pdf_url : option string;
  links : list ArxivLink;
  published : Z;                     (* an instant, in microseconds *)
}.

(** One record of the bioRxiv API's [collection].  [rx_date] is the
    posting instant the server knows; the fetcher never reads it. *)
Inductive RxivAuthor : Type :=
| AuthorDict (author : option string)   (* a dict, with or without 'author' *)
| AuthorStr (name : string)
| AuthorOther.

Record RxivPaper : Type := {
  doi : option string;
  version : string;                  (* [str(paper.get('version'))] *)
  rx_title : option string;
  rx_abstract : option string;
  rx_authors : list RxivAuthor;
  rx_date : Z;
}.

(** One hit of the chemRxiv API (the dict under 'item'). *)
Record ChemAuthor : Type := {
  firstName : option string;
  lastName : option string;
}.

Record ChemItem : Type := {
  asset_url : option string;         (* item['asset']['original']['url'] *)
  item_id : option string;
  item_title : option string;
  item_abstract : option string;
  item_authors : list ChemAuthor;
  publishedDate : Z;                 (* never read by the fetcher *)
}.

(** What happened outside, in order. *)
Inductive Event : Type :=
| EvArxivSearch (query : string)
| EvHttpGet (url : string)
| EvRelevanceCall (title abstract : string) (reply : Outcome RelevanceResponse)
| EvAnalysisCall (paper_text questions : string) (reply : Outcome AnalysisResult)
| EvCacheRead
| EvCacheWrite (ids : list pykey)
| EvReportWrite (filename content : string).

(** The cache file, as [load_processed_ids] can find it. *)
Inductive CacheFile : Type :=
| Missing                      (* [CACHE_FILE.exists()] is false *)
| Unreadable (msg : string)    (* [open] raises IOError *)
| NotUtf8 (msg : string)       (* the bytes do not decode as UTF-8 *)
| NotJson (msg : string)       (* [json.load] raises JSONDecodeError *)
| Document (doc : json).

(** How writing the cache file can fail: [open(.., "w")] raises and the
    file stays as it was, or [json.dump] raises after the file was opened
    and leaves [partial] behind. *)
Inductive WriteFault : Type :=
| OpenFails (msg : string)
| DumpFails (msg : string) (partial : CacheFile).

(** The collaborators of the pipeline.  Every answer may depend on all
    that happened before it. *)
Record External : Type := {
  now_utc : list Event -> Z;          (* [datetime.now(timezone.utc)], microseconds *)
  now_local : list Event -> Z;        (* [datetime.now()] *)
  strftime_ymd : Z -> string;         (* [.strftime("%Y-%m-%d")] *)
  arxiv_results : list Event -> string -> Outcome (list ArxivResult);
  rxiv_response : list Event -> string -> HttpReply (list RxivPaper);
  chemrxiv_response : list Event -> Z -> Z -> string -> HttpReply (list ChemItem);
  pdf_response : list Event -> string -> HttpReply string;
  pdf_pages_text : string -> Outcome string;   (* fitz: the pages' text, joined *)
  relevance_llm : list Event -> string -> string -> Outcome RelevanceResponse;
  analysis_llm : list Event -> string -> string -> Outcome AnalysisResult;
  cache_write_fault : list Event -> option WriteFault;
  set_order : list Event -> list pykey;  (* the order [list(s)] takes: see [list_of_set] *)
  make_llm_client : list Event -> Outcome unit;    (* [LLMClient(LLMConfig(..))] *)
  page_budget : nat;                  (* how far the page loop is followed: see
                                         [Fetcher.chemrxiv_pages] *)
  report_write_fault : list Event -> option string;  (* writing the report raises *)
}.

(** ** The world and the [Py] monad *)

Inductive Level : Type := INFO | WARNING | ERROR.

Record World : Type := {
  cache_file : CacheFile;
  reports : gmap string string;       (* the files of the report directory *)
  trace : list Event;
  log : list (Level * string);
}.

Definition Py (A : Type) : Type := World -> Outcome A * World.

Definition ret {A} (a : A) : Py A := fun w => (Ret a, w).

Definition bind {A B} (m : Py A) (k : A -> Py B) : Py B :=
  fun w =>
    match m w with
    | (Ret a, w') => k a w'
    | (Raise e, w') => (Raise e, w')
    end.

Notation "'let*' x ':=' m 'in' k" := (bind m (fun x => k))
  (at level 10, x name, m at level 100, k at level 200).
Notation "m ';;' k" := (bind m (fun _ => k))
  (at level 100, k at level 200, right associativity).

Definition raise {A} (e : PyExn) : Py A := fun w => (Raise e, w).

(** Lift a pure computation that may raise. *)
Definition lift {A} (o : Outcome A) : Py A := fun w => (o, w).

(** [try: body  except C1 as e: h1  except C2 as e: h2 ...]: the first
    clause whose class test accepts the exception handles it; an exception
    that no clause accepts goes on. *)
Fixpoint handle {A} (clauses : list ((PyExn -> bool) * (PyExn -> Py A)))
    (e : PyExn) : Py A :=
  match clauses with
  | [] => fun w => (Raise e, w)
  | (catches, handler) :: rest =>
      if catches e then handler e else handle rest e
  end.

Definition try_except {A} (body : Py A)
    (clauses : list ((PyExn -> bool) * (PyExn -> Py A))) : Py A :=
  fun w =>
    match body w with
    | (Ret a, w') => (Ret a, w')
    | (Raise e, w') => handle clauses e w'
    end.

(** [except Exception] *)
Definition any_exception (e : PyExn) : bool := true.

Definition logging (lvl : Level) (msg : string) : Py unit :=
  fun w => (Ret tt, {| cache_file := cache_file w; reports := reports w;
                       trace := trace w; log := log w ++ [(lvl, msg)] |}).

Definition emit (ev : Event) : Py unit :=
  fun w => (Ret tt, {| cache_file := cache_file w; reports := reports w;
                       trace := trace w ++ [ev]; log := log w |}).

(** Ask an oracle, showing it the history so far. *)
Definition ask {A} (oracle : list Event -> A) : Py A :=
  fun w => (Ret (oracle (trace w)), w).

(** A call to the outside: the oracle answers from the history, the
    exchange is recorded, and the call returns or raises as answered. *)
Definition call {A} (oracle : list Event -> Outcome A)
    (record : Outcome A -> Event) : Py A :=
  fun w =>
    let reply := oracle (trace w) in
    (reply, {| cache_file := cache_file w; reports := reports w;
               trace := trace w ++ [record reply]; log := log w |}).

(** [client.get(url)], [raise_for_status()] and reading the body. *)
Definition is_success (status : Z) : bool := (200 <=? status) && (status <=? 299).

Definition read_response {A} (r : HttpReply A) : Outcome A :=
  match r with
  | NoResponse msg => Raise (RequestError msg)
  | Response status text body =>
      if is_success status then body else Raise (HTTPStatusError status text)
  end.

Definition http_get {A} (oracle : list Event -> HttpReply A) (url : string) : Py A :=
  call (fun h => read_response (oracle h)) (fun _ => EvHttpGet url).

(** [LLMClient(LLMConfig(temperature=..))]: making the client may raise. *)
Definition new_llm_client (ext : External) : Py unit :=
  fun w => (make_llm_client ext (trace w), w).

(** The line feed. *)
Definition nl : string := String (ascii_of_nat 10) "".

(** [str(b)] of a bool *)
Definition str_bool (b : bool) : string := if b then "True" else "False".

Definition read_cache_file : Py CacheFile :=
  fun w => (Ret (cache_file w), w).

Definition write_cache_file (f : CacheFile) : Py unit :=
  fun w => (Ret tt, {| cache_file := f; reports := reports w;
                       trace := trace w; log := log w |}).

Definition write_report_file (name content : string) : Py unit :=
  fun w => (Ret tt, {| cache_file := cache_file w;
                       reports := <[name := content]> (reports w);
                       trace := trace w; log := log w |}).

(** [asyncio.gather]: the event loop interleaves the tasks at their
    awaits; here they run one after the other, in list order, which is one
    of its schedules.  The results come back in list order under every
    schedule. *)
Fixpoint run_all {A} (tasks : list (Py A)) (w : World) : list (Outcome A) * World :=
  match tasks with
  | [] => ([], w)
  | t :: rest =>
      let '(o, w1) := t w in
      let '(os, w2) := run_all rest w1 in
      (o :: os, w2)
  end.

Fixpoint all_returned {A} (os : list (Outcome A)) : Outcome (list A) :=
  match os with
  | [] => Ret []
  | Raise e :: _ => Raise e
  | Ret a :: rest =>
      match all_returned rest with
      | Ret l => Ret (a :: l)
      | Raise e => Raise e
      end
  end.

(** [await asyncio.gather] of the tasks *)
Definition gather {A} (tasks : list (Py A)) : Py (list A) :=
  fun w => let '(os, w') := run_all tasks w in (all_returned os, w').

(** [await asyncio.gather] of the tasks with [return_exceptions=True] *)
Definition gather_return_exceptions {A} (tasks : list (Py A)) : Py (list (Outcome A)) :=
  fun w => let '(os, w') := run_all tasks w in (Ret os, w').

(** [list(s)] of a set: its elements, each once.  Python does not fix
    their order, which follows the hashes of the elements and the way the
    set was built.  [order] stands for the choice of the interpreter: the
    elements it names come first, as it names them, then the others. *)
Definition list_of_set (order : list pykey) (s : gset pykey) : list pykey :=
  (filter (fun k => k ∈ s) (remove_dups order)
   ++ filter (fun k => k ∉ order) (elements s))%list.

(** ** cache.py *)

Module Cache.

Definition CACHE_FILE : string := "processed_papers_cache.json".

(** [except (json.JSONDecodeError, IOError)] *)
Definition json_or_io_error (e : PyExn) : bool :=
  match e with
  | JSONDecodeError _ | IOError _ => true
  | _ => false
  end.

(** [except IOError] *)
Definition io_error (e : PyExn) : bool :=
  match e with
  | IOError _ => true
  | _ => false
  end.

(** [with open(CACHE_FILE, "r", encoding="utf-8") as f: json.load(f)] *)
Definition json_load (f : CacheFile) : Outcome json :=
  match f with
  | Missing => Raise (IOError "No such file or directory")
  | Unreadable msg => Raise (IOError msg)
  | NotUtf8 msg => Raise (UnicodeDecodeError msg)
  | NotJson msg => Raise (JSONDecodeError msg)
  | Document doc => Ret doc
  end.

Definition exists_ (f : CacheFile) : bool :=
  match f with Missing => false | _ => true end.

Definition load_processed_ids : Py (gset pykey) :=
  let* f := read_cache_file in
  if negb (exists_ f) then ret ∅
  else
    try_except
      (emit EvCacheRead ;;
       let* data := lift (json_load f) in
       let* ids := lift (PyJson.get data "processed_ids" (JArr [])) in
       lift (PyJson.to_set ids))
      [(json_or_io_error, fun e =>
          logging WARNING ("Could not read cache file at " ++ CACHE_FILE ++ ": "
                           ++ exn_str e ++ ". Starting with an empty cache.") ;;
          ret ∅)].

(** [json.dump({"processed_ids": ids}, f, indent=4)]: the document that
    ends up in the file, for the list [ids] that [list(updated_ids)]
    gave. *)
Definition cache_document (ids : list pykey) : json :=
  JObj [("processed_ids", JArr (PyJson.of_key <$> ids))].

Definition save_processed_ids (ext : External) (new_ids : gset string) : Py unit :=
  let* existing_ids := load_processed_ids in
  let updated_ids : gset pykey := existing_ids ∪ set_map KStr new_ids in
  try_except
    (let* fault := ask (cache_write_fault ext) in
     let* order := ask (set_order ext) in
     let ids := list_of_set order updated_ids in
     match fault with
     | Some (OpenFails msg) => raise (IOError msg)
     | Some (DumpFails msg partial) =>
         emit (EvCacheWrite ids) ;;
         write_cache_file partial ;;
         raise (IOError msg)
     | None =>
         emit (EvCacheWrite ids) ;;
         write_cache_file (Document (cache_document ids)) ;;
         logging INFO ("Successfully saved " ++ pretty (size new_ids)
                       ++ " new IDs to the cache. Total cached IDs: "
                       ++ pretty (size updated_ids) ++ ".")
     end)
    [(io_error, fun e =>
        logging ERROR ("Failed to save cache file at " ++ CACHE_FILE ++ ": " ++ exn_str e))].

End Cache.

(** ** filter.py *)

Module Filter.

(** [RelevanceFilter.is_relevant] *)
Definition is_relevant (ext : External) (paper : PaperCandidate) : Py bool :=
  try_except
    (let* response :=
       call (fun h => relevance_llm ext h (title paper) (abstract paper))
            (EvRelevanceCall (title paper) (abstract paper)) in
     logging INFO ("Paper '" ++ title paper ++ "' relevance check: "
                   ++ str_bool (is_relevant_flag response)
                   ++ ". Reason: " ++ reason response) ;;
     ret (is_relevant_flag response))
    [(any_exception, fun e =>
        logging ERROR ("Error classifying paper " ++ paper_id paper ++ ": " ++ exn_str e) ;;
        ret false)].

(** [[paper for paper, is_relevant in zip(papers, results) if is_relevant]] *)
Definition keep_relevant (papers : list PaperCandidate) (results : list bool)
    : list PaperCandidate :=
  (filter (fun pr => snd pr = true) (zip papers results)).*1.

(** [RelevanceFilter.filter_papers] *)
Definition filter_papers (ext : External) (papers : list PaperCandidate)
    : Py (list PaperCandidate) :=
  logging INFO ("Starting relevance filtering for " ++ pretty (length papers) ++ " papers.") ;;
  let relevance_tasks := is_relevant ext <$> papers in
  let* results := gather relevance_tasks in
  let relevant_papers := keep_relevant papers results in
  logging INFO ("Found " ++ pretty (length relevant_papers) ++ " relevant papers.") ;;
  ret relevant_papers.

End Filter.

(** ** analysis.py *)

Module Analysis.

Definition ANALYTICAL_QUESTIONS : list string := [
  "1. What is the main research question or problem the paper addresses?";
  "2. What is the key innovation or contribution of this paper?";
  "3. What is the methodology or approach used in this paper?";
  "4. What were the main results of the experiments or analysis?";
  "5. What are the main limitations of the work described in the paper?";
  "6. How does this work compare to previous research in the field?";
  "7. What are the potential future directions for this research?";
  "8. What are the practical applications or implications of this work?";
  "9. What datasets were used in this study, and are they publicly available?";
  "10. Is the code or software used in this study available, and if so, where?"
].

(** [except httpx.RequestError] *)
Definition request_error (e : PyExn) : bool :=
  match e with
  | RequestError _ => true
  | _ => false
  end.

(** The local function [parse_text]: the text of all pages, whitespace
    runs collapsed to one space, stripped. *)
Definition parse_text (ext : External) (content : string) : Outcome string :=
  match pdf_pages_text ext content with
  | Ret text => Ret (PyStr.strip (PyStr.sub_spaces false text))
  | Raise e => Raise e
  end.

(** [PaperAnalysisAgent._download_and_parse_pdf] *)
Definition _download_and_parse_pdf (ext : External) (pdf_url : string) : Py string :=
  logging INFO ("Downloading and parsing PDF from: " ++ pdf_url) ;;
  try_except
    (let* pdf_content := http_get (fun h => pdf_response ext h pdf_url) pdf_url in
     let* text := lift (parse_text ext pdf_content) in
     logging INFO ("Successfully parsed PDF. Text length: "
                   ++ pretty (PyStr.len text) ++ " characters.") ;;
     ret text)
    [(request_error, fun e =>
        logging ERROR ("Failed to download PDF from " ++ pdf_url ++ ": " ++ exn_str e) ;;
        ret "");
     (any_exception, fun e =>
        logging ERROR ("Failed to parse PDF from " ++ pdf_url ++ ": " ++ exn_str e) ;;
        ret "")].

(** The class [[\w\-]] *)
Definition word_or_dash (c : ascii) : bool :=
  PyStr.is_word c || Ascii.eqb c "-".

(** [https?://(?:www\.)?github\.com/[\w\-]+/[\w\-]+] *)
Definition github_pattern : Re.regex :=
  Re.Seq (Re.Lit "http") (Re.Seq (Re.Opt (Re.Lit "s")) (Re.Seq (Re.Lit "://")
    (Re.Seq (Re.Opt (Re.Lit "www.")) (Re.Seq (Re.Lit "github.com/")
      (Re.Seq (Re.Plus word_or_dash) (Re.Seq (Re.Lit "/") (Re.Plus word_or_dash))))))).

(** [https?://(?:www\.)?huggingface\.co/[\w\-]+] *)
Definition huggingface_pattern : Re.regex :=
  Re.Seq (Re.Lit "http") (Re.Seq (Re.Opt (Re.Lit "s")) (Re.Seq (Re.Lit "://")
    (Re.Seq (Re.Opt (Re.Lit "www.")) (Re.Seq (Re.Lit "huggingface.co/")
      (Re.Plus word_or_dash))))).

(** [PaperAnalysisAgent._extract_resource_links] *)
Definition _extract_resource_links (text : string) : Py (gmap string string) :=
  let links : gmap string string :=
    <["github" := ""]> (<["huggingface" := ""]> (<["project_page" := ""]> ∅)) in
  let github_matches := Re.findall github_pattern text in
  let huggingface_matches := Re.findall huggingface_pattern text in
  let* links :=
    match github_matches with
    | m :: _ =>
        logging INFO ("Found GitHub link: " ++ m) ;;
        ret (<["github" := m]> links)
    | [] => ret links
    end in
  let* links :=
    match huggingface_matches with
    | m :: _ =>
        logging INFO ("Found Hugging Face link: " ++ m) ;;
        ret (<["huggingface" := m]> links)
    | [] => ret links
    end in
  ret links.

Definition max_text_length : Z := 30000.

(** [{item.question: item.answer for item in analysis_result.analysis_qa}] *)
Definition qa_dict (items : list QAResponse) : list (string * string) :=
  foldl (fun d item => dict_set (question item) (answer item) d) [] items.

(** [PaperAnalysisAgent.analyze_paper] *)
Definition analyze_paper (ext : External) (paper : PaperCandidate)
    : Py (option AnalyzedPaper) :=
  logging INFO ("Starting analysis for paper: " ++ title paper) ;;
  let* paper_text := _download_and_parse_pdf ext (pdf_url paper) in
  if negb (PyStr.truthy paper_text) then ret None
  else
    let* resource_links := _extract_resource_links paper_text in
    let* paper_text :=
      if PyStr.len paper_text >? max_text_length
      then
        logging WARNING ("Paper text is too long (" ++ pretty (PyStr.len paper_text)
                         ++ " chars). Truncating to " ++ pretty max_text_length ++ ".") ;;
        ret (PyStr.take (Z.to_nat max_text_length) paper_text)
      else ret paper_text in
    try_except
      (logging INFO ("Invoking LLM for deep analysis for paper: " ++ title paper) ;;
       let questions := PyStr.join nl ANALYTICAL_QUESTIONS in
       let* analysis_result :=
         call (fun h => analysis_llm ext h paper_text questions)
              (EvAnalysisCall paper_text questions) in
       let analysis_qa_dict := qa_dict (ar_analysis_qa analysis_result) in
       let analyzed_paper := {|
         metadata := paper;
         analysis_qa := analysis_qa_dict;
         keywords := ar_keywords analysis_result;
         summary := ar_summary analysis_result;
         resource_links := resource_links
       |} in
       logging INFO ("Successfully completed analysis for paper: " ++ title paper) ;;
       ret (Some analyzed_paper))
      [(any_exception, fun e =>
          logging ERROR ("An error occurred during LLM analysis for paper "
                         ++ paper_id paper ++ ": " ++ exn_str e) ;;
          ret None)].

End Analysis.

(** ** fetcher.py *)

Module Fetcher.

(** [timedelta(days=1)], in microseconds *)
Definition one_day : Z := 86400000000.

Definition arxiv_categories : list string :=
  ["cs.AI"; "cs.LG"; "cs.CL"; "cs.CV"; "cs.NE"; "stat.ML"].

(** The two servers of [self.biorxiv_servers]. *)
Inductive RxivServer : Type := biorxiv | medrxiv.

Definition biorxiv_servers : list RxivServer := [biorxiv; medrxiv].

Definition server_name (server : RxivServer) : string :=
  match server with biorxiv => "biorxiv" | medrxiv => "medrxiv" end.

(** [server.capitalize()] *)
Definition capitalize (server : RxivServer) : string :=
  match server with biorxiv => "Biorxiv" | medrxiv => "Medrxiv" end.

Definition default_sources : list string := ["arXiv"; "bioRxiv"; "chemRxiv"].

(** [str(l)] of a list of strings *)
Definition str_list (l : list string) : string :=
  "[" ++ PyStr.join ", " ((fun s => "'" ++ s ++ "'") <$> l) ++ "]".

Definition truthy_opt (o : option string) : bool :=
  match o with Some s => PyStr.truthy s | None => false end.

(** [result.pdf_url or next((link.href for link in result.links
    if link.title == 'pdf'), None)] *)
Definition arxiv_pdf_url (result : ArxivResult) : option string :=
  if truthy_opt (ax_pdf_url result) then ax_pdf_url result
  else href <$> head (filter (fun link => link_title link = Some "pdf") (links result)).

Definition arxiv_candidate (result : ArxivResult) (pdf : string) : PaperCandidate := {|
  paper_id := PyStr.last_item (PyStr.split "/" (entry_id result));
  url := entry_id result;
  pdf_url := pdf;
  title := ax_title result;
  abstract := ax_summary result;
  authors := ax_authors result;
  source := "arXiv"
|}.

(** The [for result in results] loop of [search_arxiv]. *)
Fixpoint arxiv_loop (yesterday : Z) (results : list ArxivResult)
    : Py (list PaperCandidate) :=
  match results with
  | [] => ret []
  | result :: rest =>
      if published result >? yesterday
      then
        let pdf := arxiv_pdf_url result in
        if negb (truthy_opt pdf)
        then
          logging WARNING ("Could not find PDF URL for arXiv paper: " ++ ax_title result) ;;
          arxiv_loop yesterday rest
        else
          let* candidates := arxiv_loop yesterday rest in
          ret (arxiv_candidate result (default "" pdf) :: candidates)
      else arxiv_loop yesterday rest
  end.

(** The local function [search_arxiv]. *)
Definition search_arxiv (ext : External) : Py (list PaperCandidate) :=
  let* now := ask (now_utc ext) in
  let yesterday := now - one_day in
  let query := PyStr.join " OR " ((fun cat => "cat:" ++ cat) <$> arxiv_categories) in
  let* results := call (fun h => arxiv_results ext h query) (fun _ => EvArxivSearch query) in
  logging INFO ("Found " ++ pretty (length results) ++ " results from arXiv.") ;;
  arxiv_loop yesterday results.

(** [PaperFetcher._fetch_from_arxiv] *)
Definition _fetch_from_arxiv (ext : External) : Py (list PaperCandidate) :=
  logging INFO ("Fetching papers from arXiv for categories: " ++ str_list arxiv_categories) ;;
  try_except
    (let* candidates := search_arxiv ext in
     logging INFO ("Filtered to " ++ pretty (length candidates)
                   ++ " arXiv candidates from the last 24 hours.") ;;
     ret candidates)
    [(any_exception, fun e =>
        logging ERROR ("An error occurred while fetching from arXiv: " ++ exn_str e) ;;
        ret [])].

(** The inner loop over [paper.get('authors', [])]. *)
Definition rxiv_author_names (l : list RxivAuthor) : list string :=
  omap (fun author_data =>
          match author_data with
          | AuthorDict (Some name) => Some name
          | AuthorStr name => Some name
          | _ => None
          end) l.

(** One turn of the loop over [data.get('collection', [])]: [None] is
    the [continue] of a record without a DOI. *)
Definition rxiv_candidate (server : RxivServer) (paper : RxivPaper) : option PaperCandidate :=
  if negb (truthy_opt (doi paper)) then None
  else
    let d := default "" (doi paper) in
    let paper_url := "https://www.biorxiv.org/content/" ++ d in
    let pdf := paper_url ++ "v" ++ version paper ++ ".full.pdf" in
    let names := PyStr.split ";" (PyStr.join "" (rxiv_author_names (rx_authors paper))) in
    Some {|
      paper_id := d;
      url := paper_url;
      pdf_url := pdf;
      title := default "" (rx_title paper);
      abstract := default "" (rx_abstract paper);
      authors := names;
      source := capitalize server
    |}.

(** [PaperFetcher._fetch_from_rxiv] *)
Definition _fetch_from_rxiv (ext : External) (server : RxivServer) (from_date : string)
    : Py (list PaperCandidate) :=
  logging INFO ("Fetching papers from " ++ server_name server ++ " from date: " ++ from_date) ;;
  let* now := ask (now_utc ext) in
  let to_date := strftime_ymd ext now in
  let api_url := "https://api.biorxiv.org/details/" ++ server_name server
                 ++ "/" ++ from_date ++ "/" ++ to_date in
  try_except
    (let* collection := http_get (fun h => rxiv_response ext h api_url) api_url in
     let candidates := omap (rxiv_candidate server) collection in
     logging INFO ("Fetched " ++ pretty (length candidates) ++ " candidates from "
                   ++ capitalize server ++ ".") ;;
     ret candidates)
    [(Analysis.request_error, fun e =>
        logging ERROR ("Failed to fetch data from " ++ server_name server ++ ": " ++ exn_str e) ;;
        ret [])].

(** [except KeyError] *)
Definition key_error (e : PyExn) : bool :=
  match e with KeyError _ => true | _ => false end.

(** [except httpx.HTTPStatusError] *)
Definition http_status_error (e : PyExn) : bool :=
  match e with HTTPStatusError _ _ => true | _ => false end.

(** [item['id']], [item['title']] *)
Definition subscript (field : option string) (key : string) : Py string :=
  match field with
  | Some v => ret v
  | None => raise (KeyError ("'" ++ key ++ "'"))
  end.

Definition chem_author_name (author : ChemAuthor) : string :=
  PyStr.strip (default "" (firstName author) ++ " " ++ default "" (lastName author)).

(** [PaperFetcher._scrape_and_create_chemrxiv_candidate]; a missing
    abstract makes the constructor of [PaperCandidate] raise.  The log
    line of the KeyError ends, in the source, with a rendering of the
    whole item, which is left out here. *)
Definition _scrape_and_create_chemrxiv_candidate (item : ChemItem)
    : Py (option PaperCandidate) :=
  try_except
    (let pdf := asset_url item in
     if negb (truthy_opt pdf)
     then
       logging WARNING ("Could not find PDF URL for ChemRxiv paper: "
                        ++ default "None" (item_title item)) ;;
       ret None
     else
       let* id1 := subscript (item_id item) "id" in
       let page_url := "https://chemrxiv.org/engage/chemrxiv/article-details/" ++ id1 in
       let names := chem_author_name <$> item_authors item in
       let* id2 := subscript (item_id item) "id" in
       let* title_ := subscript (item_title item) "title" in
       match item_abstract item with
       | None => raise (OtherError "1 validation error for PaperCandidate")
       | Some abstract_ =>
           ret (Some {|
             paper_id := id2;
             url := page_url;
             pdf_url := default "" pdf;
             title := title_;
             abstract := abstract_;
             authors := names;
             source := "chemRxiv"
           |})
       end)
    [(key_error, fun e =>
        logging ERROR ("Failed to parse ChemRxiv API item due to missing key: "
                       ++ exn_str e ++ ".") ;;
        ret None);
     (any_exception, fun e =>
        logging ERROR ("An unexpected error occurred while creating a chemRxiv candidate: "
                       ++ exn_str e) ;;
        ret None)].

Definition page_size : Z := 50.

(** A reply whose body, if it has one, holds no hits. *)
Definition without_hits (r : HttpReply (list ChemItem)) : HttpReply (list ChemItem) :=
  match r with
  | Response status text (Ret _) => Response status text (Ret [])
  | _ => r
  end.

(** The [while True] loop over the pages: a page is requested, and the
    loop ends when it comes back without hits or the request raises;
    else its hits are added and the next page is requested.  The source
    puts no bound on the loop, which goes on for as long as the API
    serves hits.  The model follows it over the [pages] pages of
    [page_budget]; what is stated about the loop is stated of runs that
    end within them.  Past them the model requests one page more and
    takes it for a page without hits. *)
Fixpoint chemrxiv_pages (ext : External) (pages : nat) (page : Z)
    (start_date_str : string) (all_items : list ChemItem) : Py (list ChemItem) :=
  match pages with
  | O =>
      let* _ :=
        http_get (fun h => without_hits
                             (chemrxiv_response ext h page_size (page * page_size)
                                start_date_str))
                 "https://chemrxiv.org/engage/chemrxiv/public-api/v1/items" in
      ret all_items
  | S pages' =>
      let* item_hits :=
        http_get (fun h => chemrxiv_response ext h page_size (page * page_size) start_date_str)
                 "https://chemrxiv.org/engage/chemrxiv/public-api/v1/items" in
      match item_hits with
      | [] => ret all_items
      | _ => chemrxiv_pages ext pages' (page + 1) start_date_str (all_items ++ item_hits)%list
      end
  end.

(** [[c for c in candidates if isinstance(c, PaperCandidate)]] *)
Definition only_candidates (results : list (Outcome (option PaperCandidate)))
    : list PaperCandidate :=
  omap (fun res => match res with Ret (Some c) => Some c | _ => None end) results.

(** [PaperFetcher._fetch_from_chemrxiv] *)
Definition _fetch_from_chemrxiv (ext : External) : Py (list PaperCandidate) :=
  logging INFO "Fetching papers from ChemRxiv Public API." ;;
  let* now := ask (now_utc ext) in
  let yesterday := now - one_day in
  let start_date_str := strftime_ymd ext yesterday in
  try_except
    (let* all_items := chemrxiv_pages ext (page_budget ext) 0 start_date_str [] in
     let scrape_tasks := _scrape_and_create_chemrxiv_candidate <$> all_items in
     let* candidates := gather_return_exceptions scrape_tasks in
     let final_candidates := only_candidates candidates in
     logging INFO ("Fetched " ++ pretty (length final_candidates) ++ " candidates from ChemRxiv.") ;;
     ret final_candidates)
    [(http_status_error, fun e =>
        logging ERROR ("HTTP error occurred while fetching from ChemRxiv API: "
                       ++ match e with
                          | HTTPStatusError status_code text => pretty status_code ++ " - " ++ text
                          | _ => exn_str e
                          end) ;;
        ret []);
     (any_exception, fun e =>
        logging ERROR ("An error occurred while fetching from ChemRxiv: " ++ exn_str e) ;;
        ret [])].

(** The [for result in results] loop of [fetch_papers]. *)
Fixpoint collect (results : list (Outcome (list PaperCandidate)))
    (all_candidates : list PaperCandidate) : Py (list PaperCandidate) :=
  match results with
  | [] => ret all_candidates
  | Ret l :: rest => collect rest (all_candidates ++ l)%list
  | Raise e :: rest =>
      logging ERROR ("An error occurred in a fetcher task: " ++ exn_str e) ;;
      collect rest all_candidates
  end.

(** [PaperFetcher.fetch_papers], for a fetcher built with [sources]. *)
Definition fetch_papers (ext : External) (sources : list string)
    : Py (list PaperCandidate) :=
  let* now := ask (now_utc ext) in
  let yesterday_str := strftime_ymd ext (now - one_day) in
  let tasks :=
    ((if bool_decide ("arXiv" ∈ sources) then [_fetch_from_arxiv ext] else [])
     ++ (if bool_decide ("bioRxiv" ∈ sources)
         then (fun server => _fetch_from_rxiv ext server yesterday_str) <$> biorxiv_servers
         else [])
     ++ (if bool_decide ("chemRxiv" ∈ sources) then [_fetch_from_chemrxiv ext] else []))%list in
  let* results := gather_return_exceptions tasks in
  let* all_candidates := collect results [] in
  logging INFO ("Fetched a total of " ++ pretty (length all_candidates)
                ++ " paper candidates from all sources.") ;;
  ret all_candidates.

End Fetcher.

(** ** synthesizer.py

    The synthesizer is used by graph.py and by tests/test_synthesizer.py;
    its own file is not among the sources.  The node of graph.py takes a
    synthesizer as an argument, so the nodes below are stated for any
    value of [MarkdownSynthesizer]; [Synthesizer.markdown] is the one the
    specification describes. *)

(** Modelled from the spec: the interface of the class [MarkdownSynthesizer]
    (src/synthesizer.py, missing): [synthesize] is "pure, deterministic,
    synchronous", [save_report_async] persists a document under a file
    name and may fail. *)
Record MarkdownSynthesizer : Type := {
  synthesize : list AnalyzedPaper -> string;
  save_report_async : string -> string -> Py unit;
}.

Module Synthesizer.

(** Modelled from the spec: the fixed sentence of the empty-state
    document (src/synthesizer.py, missing; the sentence is the one
    tests/test_synthesizer.py looks for). *)
Definition NO_PAPERS_MESSAGE : string := "No relevant papers found today".

(** Modelled from the spec: the title of the report (src/synthesizer.py,
    missing; tests/test_synthesizer.py looks for "AI4Science Daily Paper
    Report"). *)
Definition REPORT_TITLE : string := "# AI4Science Daily Paper Report".

(** Modelled from the spec: "empty input produces a fixed 'no relevant
    papers found' document, not an empty string" (src/synthesizer.py,
    missing). *)
Definition empty_report : string :=
  REPORT_TITLE ++ nl ++ nl ++ NO_PAPERS_MESSAGE ++ "." ++ nl.

(** Modelled from the spec: "a resources line listing only the non-empty
    resource links (omitted entirely if all three are empty)"
    (src/synthesizer.py, missing; the label is the one of the test). *)
Definition resource_entry (links : gmap string string) (key label : string)
    : list string :=
  match links !! key with
  | Some link => if PyStr.truthy link then ["[" ++ label ++ "](" ++ link ++ ")"] else []
  | None => []
  end.

(** Modelled from the spec: the resources line, "omitted entirely if all
    three are empty" (src/synthesizer.py, missing). *)
Definition resources_line (links : gmap string string) : list string :=
  let entries := app (resource_entry links "github" "GitHub")
                   (app (resource_entry links "huggingface" "Hugging Face")
                        (resource_entry links "project_page" "Project Page")) in
  match entries with
  | [] => []
  | _ => ["**Resources:** " ++ PyStr.join " | " entries; ""]
  end.

(** Modelled from the spec: one question/answer pair of the collapsible
    block (src/synthesizer.py, missing; the test expects "**Q:** " and
    "**A:** "). *)
Definition qa_lines (qa : string * string) : list string :=
  ["**Q:** " ++ fst qa; ""; "**A:** " ++ snd qa; ""].

(** Modelled from the spec: the heading of the section of a paper, "one
    numbered section per paper, in input order, each containing: title
    as sub-heading" (src/synthesizer.py, missing; the test expects
    "## 1. A Test Paper on AI for Science"). *)
Definition section_heading (number : nat) (paper : AnalyzedPaper) : string :=
  "## " ++ pretty number ++ ". " ++ title (metadata paper).

(** Modelled from the spec: what follows the heading, "authors line, a
    source/PDF link line, a resources line [...], a keywords line
    (comma-joined), a summary paragraph, and a collapsible block
    containing every question/answer pair" (src/synthesizer.py, missing;
    the wording of the lines is the one of the test). *)
Definition section_body (paper : AnalyzedPaper) : list string :=
  let m := metadata paper in
  let authors_line := "**Authors:** *" ++ PyStr.join ", " (authors m) ++ "*" in
  let source_line := "**Source:** [" ++ source m ++ "](" ++ url m
                     ++ ") | **PDF:** [Link](" ++ pdf_url m ++ ")" in
  let keywords_line := "**Keywords:** `" ++ PyStr.join ", " (keywords paper) ++ "`" in
  app [""; authors_line; ""; source_line; ""]
    (app (resources_line (resource_links paper))
      (app [keywords_line; ""; "### Summary"; summary paper; ""; "<details>"; ""]
        (app (concat (qa_lines <$> analysis_qa paper))
             ["</details>"; ""]))).

(** Modelled from the spec: the text of lines, each ended by a line feed
    (src/synthesizer.py, missing). *)
Definition unlines (lines : list string) : string :=
  foldr (fun line rest => line ++ nl ++ rest) "" lines.

(** Modelled from the spec: the section of one paper, heading first
    (src/synthesizer.py, missing). *)
Definition format_paper (number : nat) (paper : AnalyzedPaper) : string :=
  unlines (section_heading number paper :: section_body paper).

(** Modelled from the spec: "one numbered section per paper, in input
    order" (src/synthesizer.py, missing): the sections of the papers,
    numbered from [first]. *)
Fixpoint format_papers (first : nat) (papers : list AnalyzedPaper) : list string :=
  match papers with
  | [] => []
  | paper :: rest => format_paper first paper :: format_papers (S first) rest
  end.

(** Modelled from the spec: "a title/date header" (src/synthesizer.py,
    missing).  The date is the one the synthesizer was made with. *)
Definition report_header (date : string) : string :=
  unlines [REPORT_TITLE ++ " - " ++ date; ""].

(** Modelled from the spec: [synthesize] of section 4.5
    (src/synthesizer.py, missing). *)
Definition synthesize_markdown (date : string) (analyzed : list AnalyzedPaper) : string :=
  match analyzed with
  | [] => empty_report
  | _ => report_header date ++ PyStr.join "" (format_papers 1 analyzed)
  end.

(** Modelled from the spec: [save(document, filename)] of section 4.5,
    "open, write, guaranteed close, with failure surfaced"
    (src/synthesizer.py, missing). *)
Definition save_markdown (ext : External) (content filename : string) : Py unit :=
  let* fault := ask (report_write_fault ext) in
  match fault with
  | Some msg => raise (IOError msg)
  | None =>
      emit (EvReportWrite filename content) ;;
      write_report_file filename content
  end.

(** Modelled from the spec: the synthesizer made of the two operations
    above (src/synthesizer.py, missing). *)
Definition markdown (ext : External) (date : string) : MarkdownSynthesizer := {|
  synthesize := synthesize_markdown date;
  save_report_async := save_markdown ext
|}.

End Synthesizer.

(** ** graph.py *)

Module Graph.

(** [GraphState].  [report_filename] is the key the last node adds. *)
Record GraphState : Type := {
  paper_candidates : list PaperCandidate;
  relevant_papers : list PaperCandidate;
  analyzed_papers : list AnalyzedPaper;
  markdown_report : string;
  error : option string;
  report_filename : option string;
}.

(** [{**state, "error": e}] and the other updates of one key. *)
Definition with_error (state : GraphState) (e : option string) : GraphState := {|
  paper_candidates := paper_candidates state;
  relevant_papers := relevant_papers state;
  analyzed_papers := analyzed_papers state;
  markdown_report := markdown_report state;
  error := e;
  report_filename := report_filename state
|}.

Definition with_paper_candidates (state : GraphState) (l : list PaperCandidate)
    : GraphState := {|
  paper_candidates := l;
  relevant_papers := relevant_papers state;
  analyzed_papers := analyzed_papers state;
  markdown_report := markdown_report state;
  error := error state;
  report_filename := report_filename state
|}.

Definition with_relevant_papers (state : GraphState) (l : list PaperCandidate)
    : GraphState := {|
  paper_candidates := paper_candidates state;
  relevant_papers := l;
  analyzed_papers := analyzed_papers state;
  markdown_report := markdown_report state;
  error := error state;
  report_filename := report_filename state
|}.

Definition with_analyzed_papers (state : GraphState) (l : list AnalyzedPaper)
    : GraphState := {|
  paper_candidates := paper_candidates state;
  relevant_papers := relevant_papers state;
  analyzed_papers := l;
  markdown_report := markdown_report state;
  error := error state;
  report_filename := report_filename state
|}.

Definition with_report (state : GraphState) (content filename : string)
    : GraphState := {|
  paper_candidates := paper_candidates state;
  relevant_papers := relevant_papers state;
  analyzed_papers := analyzed_papers state;
  markdown_report := content;
  error := error state;
  report_filename := Some filename
|}.

(** The truth value of [state.get("error")]: set means a string that is
    not empty. *)
Definition error_set (state : GraphState) : bool :=
  match error state with
  | Some reason => PyStr.truthy reason
  | None => false
  end.

(** The truth value of a list. *)
Definition nonempty {A} (l : list A) : bool :=
  match l with [] => false | _ :: _ => true end.

(** [fetch_papers_node] *)
Definition fetch_papers_node (ext : External) (state : GraphState) : Py GraphState :=
  logging INFO "--- Running Fetch Papers Node ---" ;;
  try_except
    (let* candidates := Fetcher.fetch_papers ext Fetcher.default_sources in
     ret (with_error (with_paper_candidates state candidates) None))
    [(any_exception, fun e =>
        logging ERROR ("Error in fetch_papers_node: " ++ exn_str e) ;;
        ret (with_error state (Some "Failed to fetch papers.")))].

(** [[paper for paper in relevant_papers if paper.id not in processed_ids]] *)
Definition not_processed (processed_ids : gset pykey) (papers : list PaperCandidate)
    : list PaperCandidate :=
  filter (fun paper => KStr (paper_id paper) ∉ processed_ids) papers.

(** [filter_papers_node] *)
Definition filter_papers_node (ext : External) (state : GraphState) : Py GraphState :=
  logging INFO "--- Running Filter Papers Node ---" ;;
  if error_set state then ret state
  else
    try_except
      (new_llm_client ext ;;
       let candidates := paper_candidates state in
       let* relevant_papers := Filter.filter_papers ext candidates in
       let* processed_ids := Cache.load_processed_ids in
       let* relevant_papers :=
         if bool_decide (processed_ids ≠ ∅)
         then
           logging INFO ("Loaded " ++ pretty (size processed_ids)
                         ++ " processed paper IDs from cache.") ;;
           let papers_to_analyze := not_processed processed_ids relevant_papers in
           let num_skipped :=
             Z.of_nat (length relevant_papers) - Z.of_nat (length papers_to_analyze) in
           (if num_skipped >? 0
            then logging INFO ("Skipping " ++ pretty num_skipped
                               ++ " papers already present in the cache.")
            else ret tt) ;;
           ret papers_to_analyze
         else
           logging INFO "No cache found or cache is empty. Processing all relevant papers." ;;
           ret relevant_papers in
       ret (with_relevant_papers state relevant_papers))
      [(any_exception, fun e =>
          logging ERROR ("Error in filter_papers_node: " ++ exn_str e) ;;
          ret (with_error state (Some "Failed to filter papers for relevance.")))].

(** [[res for res in results if isinstance(res, AnalyzedPaper)]] *)
Definition analyzed_of (results : list (Outcome (option AnalyzedPaper)))
    : list AnalyzedPaper :=
  omap (fun res => match res with Ret (Some paper) => Some paper | _ => None end) results.

(** [[res for res in results if isinstance(res, Exception)]] *)
Definition errors_of {A} (results : list (Outcome A)) : list PyExn :=
  omap (fun res => match res with Raise e => Some e | Ret _ => None end) results.

(** [for err in errors: logging.error(err)] *)
Fixpoint log_errors (errors : list PyExn) : Py unit :=
  match errors with
  | [] => ret tt
  | err :: rest => logging ERROR (exn_str err) ;; log_errors rest
  end.

(** [analyze_papers_node] *)
Definition analyze_papers_node (ext : External) (state : GraphState) : Py GraphState :=
  logging INFO "--- Running Analyze Papers Node ---" ;;
  if error_set state || negb (nonempty (relevant_papers state)) then ret state
  else
    try_except
      (new_llm_client ext ;;
       let relevant_papers := relevant_papers state in
       let analysis_tasks := Analysis.analyze_paper ext <$> relevant_papers in
       let* results := gather_return_exceptions analysis_tasks in
       let analyzed_papers := analyzed_of results in
       let errors := errors_of results in
       (if nonempty errors
        then
          logging ERROR ("Encountered " ++ pretty (length errors)
                         ++ " errors during paper analysis.") ;;
          log_errors errors
        else ret tt) ;;
       let successfully_analyzed_ids : gset string :=
         list_to_set ((fun paper => paper_id (metadata paper)) <$> analyzed_papers) in
       (if bool_decide (successfully_analyzed_ids ≠ ∅)
        then Cache.save_processed_ids ext successfully_analyzed_ids
        else ret tt) ;;
       ret (with_analyzed_papers state analyzed_papers))
      [(any_exception, fun e =>
          logging ERROR ("Error in analyze_papers_node: " ++ exn_str e) ;;
          ret (with_error state (Some "Failed during paper analysis.")))].

(** [synthesize_report_node] *)
Definition synthesize_report_node (ext : External) (state : GraphState)
    (synthesizer : MarkdownSynthesizer) : Py GraphState :=
  logging INFO "--- Running Synthesize Report Node ---" ;;
  if error_set state then ret state
  else
    try_except
      (let analyzed_papers := analyzed_papers state in
       let report_content := synthesize synthesizer analyzed_papers in
       let* today := ask (now_local ext) in
       let report_filename := "AI4Science_Report_" ++ strftime_ymd ext today ++ ".md" in
       save_report_async synthesizer report_content report_filename ;;
       logging INFO ("Report has been successfully synthesized and saved to "
                     ++ report_filename) ;;
       ret (with_report state report_content report_filename))
      [(any_exception, fun e =>
          logging ERROR ("Error in synthesize_report_node: " ++ exn_str e) ;;
          ret (with_error state (Some "Failed to synthesize and save the report.")))].

(** What the graph does with the value a node function returns.  The
    three nodes that are coroutine functions are awaited and their state
    is the update.  A plain function is called and what it returns is
    taken for the update: a coroutine object is no state, and the graph
    raises [InvalidUpdateError] without running it. *)
Inductive NodeResult : Type :=
| Update (state : GraphState)
| Coroutine (name : string) (body : Py GraphState).

Definition apply_update (result : NodeResult) : Py GraphState :=
  match result with
  | Update state => ret state
  | Coroutine name _ =>
      raise (InvalidUpdateError ("Expected dict, got <coroutine object " ++ name ++ ">"))
  end.

(** [lambda state: synthesize_report_node(state, synthesizer)], the
    function [get_graph] registers as the node "synthesize_report": it
    calls the coroutine function and returns the coroutine it gets,
    without awaiting it. *)
Definition synthesize_report_lambda (ext : External) (synthesizer : MarkdownSynthesizer)
    (state : GraphState) : NodeResult :=
  Coroutine "synthesize_report_node" (synthesize_report_node ext state synthesizer).

(** The edges of [get_graph] after the entry node: filter_papers, then
    analyze_papers, then synthesize_report, then END. *)
Definition after_fetch (ext : External) (synthesizer : MarkdownSynthesizer)
    (state : GraphState) : Py GraphState :=
  let* state := filter_papers_node ext state in
  let* state := analyze_papers_node ext state in
  apply_update (synthesize_report_lambda ext synthesizer state).

(** [get_graph().ainvoke(initial_state)]: the entry node, then the
    edges. *)
Definition ainvoke (ext : External) (synthesizer : MarkdownSynthesizer)
    (initial_state : GraphState) : Py GraphState :=
  let* state := fetch_papers_node ext initial_state in
  after_fetch ext synthesizer state.

End Graph.

(** ** Notions used in the statements *)

(** The world after one more line in the log: nothing else differs. *)
Definition logged (lvl : Level) (msg : string) (w : World) : World :=
  {| cache_file := cache_file w; reports := reports w;
     trace := trace w; log := log w ++ [(lvl, msg)] |}.

(** Two worlds that differ at most in their logs: same cache file, same
    report files, same exchanges with the outside. *)
Definition same_but_log (w w' : World) : Prop :=
  cache_file w' = cache_file w /\ reports w' = reports w /\ trace w' = trace w.

(** A node that passes its state through: it returns the state it was
    given and leaves the world as it was, its entry line in the log apart. *)
Definition passthrough (state : Graph.GraphState) (w : World) (entry : string)
    (r : Outcome Graph.GraphState * World) : Prop :=
  r = (Ret state, logged INFO entry w).

(** What a reply of the language model means to the filter: a reply that
    could not be had counts as "not relevant". *)
Definition said_true (reply : Outcome RelevanceResponse) : bool :=
  match reply with
  | Ret response => is_relevant_flag response
  | Raise _ => false
  end.

Definition relevance_event (paper : PaperCandidate) (reply : Outcome RelevanceResponse)
    : Event :=
  EvRelevanceCall (title paper) (abstract paper) reply.

(** The replies of the language model to one relevance call per paper, in
    the order of the list, the first call being made after history [h]. *)
Fixpoint relevance_replies (ext : External) (h : list Event)
    (papers : list PaperCandidate) : list (Outcome RelevanceResponse) :=
  match papers with
  | [] => []
  | paper :: rest =>
      let reply := relevance_llm ext h (title paper) (abstract paper) in
      reply :: relevance_replies ext (h ++ [relevance_event paper reply]) rest
  end.

(** What [load_processed_ids] answers when it finds the cache file [f]:
    the answer of the code itself, run in a world that holds [f] and
    nothing else. *)
Definition world_with (f : CacheFile) : World :=
  {| cache_file := f; reports := ∅; trace := []; log := [] |}.

Definition loaded (f : CacheFile) : Outcome (gset pykey) :=
  (Cache.load_processed_ids (world_with f)).1.

(** Writing the cache file never fails. *)
Definition cache_writable (ext : External) : Prop :=
  forall h, cache_write_fault ext h = None.

(** The list a cache file holds under ["processed_ids"]; no list when
    the file holds no such document. *)
Definition stored_ids (f : CacheFile) : list json :=
  match f with
  | Document doc =>
      match PyJson.get doc "processed_ids" (JArr []) with
      | Ret (JArr items) => items
      | _ => []
      end
  | _ => []
  end.

(** What downloading and parsing the document at [url] gives after
    history [h]: the text of [parse_text], or the exception of the
    request, of the status check, of reading the body or of the parser. *)
Definition extracted_text (ext : External) (h : list Event) (url : string)
    : Outcome string :=
  match read_response (pdf_response ext h url) with
  | Ret content => Analysis.parse_text ext content
  | Raise e => Raise e
  end.

(** The same collaborators, but every request for a document fails on
    the network. *)
Definition network_down (ext : External) (msg : string) : External := {|
  now_utc := now_utc ext;
  now_local := now_local ext;
  strftime_ymd := strftime_ymd ext;
  arxiv_results := arxiv_results ext;
  rxiv_response := rxiv_response ext;
  chemrxiv_response := chemrxiv_response ext;
  pdf_response := fun _ _ => NoResponse msg;
  pdf_pages_text := pdf_pages_text ext;
  relevance_llm := relevance_llm ext;
  analysis_llm := analysis_llm ext;
  cache_write_fault := cache_write_fault ext;
  set_order := set_order ext;
  make_llm_client := make_llm_client ext;
  page_budget := page_budget ext;
  report_write_fault := report_write_fault ext
|}.

(** The three keys of [resource_links]. *)
Definition LINK_KEYS : gset string := {[ "github"; "huggingface"; "project_page" ]}.





(** [needle in hay] *)
Definition occurs_in (needle hay : string) : Prop :=
  exists before after, hay = before ++ needle ++ after.

(** The suffixes of a text, from the whole text to the empty one: the
    places where a match can start, in source order. *)
Fixpoint suffixes (s : string) : list string :=
  s :: match s with
       | String _ s' => suffixes s'
       | EmptyString => []
       end.

(** A text of whitespace only. *)
Fixpoint blank (s : string) : bool :=
  match s with
  | String c s' => PyStr.is_space c && blank s'
  | EmptyString => true
  end.

(** A computation that returns a value in every world. *)
Definition never_raises {A} (m : Py A) : Prop :=
  forall w, exists a w', m w = (Ret a, w').

(** A computation whose returned values all satisfy [P]. *)
Definition returns_only {A} (m : Py A) (P : A -> Prop) : Prop :=
  forall w a w', m w = (Ret a, w') -> P a.

(** The error marker of a state is absent or a reason that is not empty. *)
Definition marker_ok (state : Graph.GraphState) : Prop :=
  Graph.error state <> Some "".

(** The resource links [_extract_resource_links] finds in a text: the
    answer of the code itself, run in an empty world. *)
Definition extracted_links (text : string) : gmap string string :=
  match (Analysis._extract_resource_links text (world_with Missing)).1 with
  | Ret links => links
  | Raise _ => ∅
  end.

(** The text [analyze_paper] hands to the language model. *)
Definition sent_text (text : string) : string :=
  if PyStr.len text >? Analysis.max_text_length
  then PyStr.take (Z.to_nat Analysis.max_text_length) text
  else text.

(** [c in s] for a character. *)
Fixpoint has_char (c : ascii) (s : string) : bool :=
  match s with
  | String c' s' => Ascii.eqb c' c || has_char c s'
  | EmptyString => false
  end.

(** A text whose only whitespace is single spaces between other
    characters; [after_space] tells that the character before was a
    space (or that the text starts here and may not start with one). *)
Fixpoint tidy (after_space : bool) (s : string) : bool :=
  match s with
  | String c s' =>
      if PyStr.is_space c
      then Ascii.eqb c " " && negb after_space && tidy true s'
      else tidy false s'
  | EmptyString => true
  end.

(** The [AnalyzedPaper] that [analyze_paper] assembles from a candidate,
    the whole text of its document and the result of the language model. *)
Definition assembled (paper : PaperCandidate) (text : string) (result : AnalysisResult)
    : AnalyzedPaper := {|
  metadata := paper;
  analysis_qa := Analysis.qa_dict (ar_analysis_qa result);
  keywords := ar_keywords result;
  summary := ar_summary result;
  resource_links := extracted_links text
|}.

(** What the analyses of a batch give, one paper after the other in the
    order of the list, the first being started after history [h]: the
    paper assembled from the text of the document and the result of the
    language model, or nothing when the document gave no text or the
    model failed. *)
Fixpoint analysis_results (ext : External) (h : list Event)
    (papers : list PaperCandidate) : list (option AnalyzedPaper) :=
  match papers with
  | [] => []
  | paper :: rest =>
      let text := match extracted_text ext h (pdf_url paper) with
                  | Ret text => text
                  | Raise _ => ""
                  end in
      let h1 := (h ++ [EvHttpGet (pdf_url paper)])%list in
      let questions := PyStr.join nl Analysis.ANALYTICAL_QUESTIONS in
      let reply := analysis_llm ext h1 (sent_text text) questions in
      if PyStr.truthy text
      then match reply with
           | Ret result => Some (assembled paper text result)
           | Raise _ => None
           end
           :: analysis_results ext (h1 ++ [EvAnalysisCall (sent_text text) questions reply])%list
                rest
      else None :: analysis_results ext h1 rest
  end.

(** The values the fetchers give to [source]. *)
Definition SOURCE_TAGS : list string := ["arXiv"; "Biorxiv"; "Medrxiv"; "chemRxiv"].

(** A candidate with a document link that is not empty and a source tag
    of one of the fetchers. *)
Definition fetchable (c : PaperCandidate) : Prop :=
  PyStr.truthy (pdf_url c) = true /\ source c ∈ SOURCE_TAGS.

(** The candidate made of a chemRxiv item that has a document link, an
    id, a title and an abstract. *)
Definition chem_candidate (pdf id_ title_ abstract_ : string) (item : ChemItem)
    : PaperCandidate := {|
  paper_id := id_;
  url := "https://chemrxiv.org/engage/chemrxiv/article-details/" ++ id_;
  pdf_url := pdf;
  title := title_;
  abstract := abstract_;
  authors := Fetcher.chem_author_name <$> item_authors item;
  source := "chemRxiv"
|}.

(** A computation that leaves the cache file and the report files as it
    found them, whatever it returns or raises. *)
Definition keeps_files {A} (m : Py A) : Prop :=
  forall w, cache_file (m w).2 = cache_file w /\ reports (m w).2 = reports w.

(** The address of the chemRxiv API. *)
Definition CHEMRXIV_API : string :=
  "https://chemrxiv.org/engage/chemrxiv/public-api/v1/items".

(** What the chemRxiv API serves to a page loop that starts after the
    history [h] with the page [page] and asks for the items from [date]
    on: the hits of the pages up to the first page without hits, or the
    exception of the first request that fails.  [None] when the first
    [pages] pages all held hits: the loop is then still running. *)
Fixpoint pages_served (ext : External) (pages : nat) (h : list Event) (page : Z)
    (date : string) : option (Outcome (list ChemItem)) :=
  match pages with
  | O => None
  | S pages' =>
      match read_response
              (chemrxiv_response ext h Fetcher.page_size (page * Fetcher.page_size) date) with
      | Raise e => Some (Raise e)
      | Ret [] => Some (Ret [])
      | Ret hits =>
          match pages_served ext pages' (h ++ [EvHttpGet CHEMRXIV_API])%list (page + 1) date with
          | Some (Ret more) => Some (Ret (hits ++ more)%list)
          | other => other
          end
      end
  end.

(** The page loop of the chemRxiv fetcher ends within the page budget,
    whenever and for whatever date it is started. *)
Definition pages_end (ext : External) : Prop :=
  forall h date, pages_served ext (page_budget ext) h 0 date <> None.



(** Collaborators for which no document yields any text: each request
    for a document fails, or the text extracted from it is empty. *)
Definition no_text (ext : External) : Prop :=
  forall h url,
    match extracted_text ext h url with
    | Ret text => PyStr.truthy text = false
    | Raise _ => True
    end.

(** A computation that leaves the report files as it found them. *)
Definition keeps_reports {A} (m : Py A) : Prop :=
  forall w, reports (m w).2 = reports w.

(** What the graph raises at the node "synthesize_report". *)
Definition NO_STATE_UPDATE : PyExn :=
  InvalidUpdateError "Expected dict, got <coroutine object synthesize_report_node>".

(** *** Data for the examples *)

Module Sample.

Definition quiet : External := {|
  now_utc := fun _ => 1704240000000000;
  now_local := fun _ => 1704240000000000;
  strftime_ymd := fun _ => "2024-01-03";
  arxiv_results := fun _ _ => Ret [];
  rxiv_response := fun _ _ => Response 200 "" (Ret []);
  chemrxiv_response := fun _ _ _ _ => Response 200 "" (Ret []);
  pdf_response := fun _ _ => Response 200 "" (Ret "%PDF-1.7");
  pdf_pages_text := fun _ => Ret "Code: https://github.com/test/repo.";
  relevance_llm := fun _ _ _ => Ret {| is_relevant_flag := true; reason := "on topic" |};
  analysis_llm := fun _ _ _ =>
    Ret {| ar_analysis_qa := [{| question := "Q1"; answer := "A1" |}];
           ar_keywords := ["kw1"]; ar_summary := "summary" |};
  cache_write_fault := fun _ => None;
  set_order := fun _ => [];
  make_llm_client := fun _ => Ret tt;
  page_budget := 4;
  report_write_fault := fun _ => None
|}.

Definition fresh : World :=
  {| cache_file := Missing; reports := ∅; trace := []; log := [] |}.

Definition candidate : PaperCandidate := {|
  paper_id := "test001";
  url := "http://example.com/test001";
  pdf_url := "http://example.com/test001.pdf";
  title := "A Test Paper";
  abstract := "This paper tests things.";
  authors := ["Tester"];
  source := "Test"
|}.

Definition initial_state : Graph.GraphState := {|
  Graph.paper_candidates := [];
  Graph.relevant_papers := [];
  Graph.analyzed_papers := [];
  Graph.markdown_report := "";
  Graph.error := None;
  Graph.report_filename := None
|}.

Definition failed_state : Graph.GraphState :=
  Graph.with_error initial_state (Some "Failed to fetch papers.").

Definition relevant_state : Graph.GraphState :=
  Graph.with_relevant_papers initial_state [candidate].

(** The identifiers of the self-test at the end of cache.py. *)
Definition first_ids : gset string := {[ "id1"; "id2" ]}.
Definition more_ids : gset string := {[ "id2"; "id3"; "id4" ]}.

(** Collaborators whose PDF parser finds only whitespace. *)
Definition blank_pdf : External := {|
  now_utc := now_utc quiet;
  now_local := now_local quiet;
  strftime_ymd := strftime_ymd quiet;
  arxiv_results := arxiv_results quiet;
  rxiv_response := rxiv_response quiet;
  chemrxiv_response := chemrxiv_response quiet;
  pdf_response := pdf_response quiet;
  pdf_pages_text := fun _ => Ret ("  " ++ nl ++ " ");
  relevance_llm := relevance_llm quiet;
  analysis_llm := analysis_llm quiet;
  cache_write_fault := cache_write_fault quiet;
  set_order := set_order quiet;
  make_llm_client := make_llm_client quiet;
  page_budget := page_budget quiet;
  report_write_fault := report_write_fault quiet
|}.

(** 2024-01-03 18:00 UTC; the two records below were posted on
    2024-01-02 at 09:00 UTC, thirty-three hours before. *)
Definition evening : Z := 1704304800000000.

Definition old_preprint : RxivPaper := {|
  doi := Some "10.1101/2024.01.01.123456";
  version := "1";
  rx_title := Some "Test BioRxiv Paper";
  rx_abstract := Some "An abstract from bioRxiv.";
  rx_authors := [AuthorDict (Some "Bio Tester")];
  rx_date := 1704186000000000
|}.

Definition old_item : ChemItem := {|
  asset_url := Some "https://chemrxiv.org/asset/60c72b2f.pdf";
  item_id := Some "60c72b2f9b0e9b001f3e4a5b";
  item_title := Some "Test ChemRxiv Paper";
  item_abstract := Some "A chemRxiv abstract.";
  item_authors := [{| firstName := Some "Chem"; lastName := Some "Tester" |}];
  publishedDate := 1704186000000000
|}.

Definition stale : External := {|
  now_utc := fun _ => evening;
  now_local := fun _ => evening;
  strftime_ymd := fun t => if t <? 1704240000000000 then "2024-01-02" else "2024-01-03";
  arxiv_results := fun _ _ => Ret [];
  rxiv_response := fun _ _ => Response 200 "" (Ret [old_preprint]);
  chemrxiv_response := fun _ _ skip _ =>
    Response 200 "" (Ret (if skip =? 0 then [old_item] else []));
  pdf_response := fun _ _ => NoResponse "unreachable";
  pdf_pages_text := fun _ => Ret "";
  relevance_llm := fun _ _ _ => Raise (OtherError "no model");
  analysis_llm := fun _ _ _ => Raise (OtherError "no model");
  cache_write_fault := fun _ => None;
  set_order := fun _ => [];
  make_llm_client := fun _ => Ret tt;
  page_budget := 4;
  report_write_fault := fun _ => None
|}.

(** Collaborators under which [list(s)] walks a set first in one order
    and, once something has happened, in another. *)
Definition reordering : External := {|
  now_utc := now_utc quiet;
  now_local := now_local quiet;
  strftime_ymd := strftime_ymd quiet;
  arxiv_results := arxiv_results quiet;
  rxiv_response := rxiv_response quiet;
  chemrxiv_response := chemrxiv_response quiet;
  pdf_response := pdf_response quiet;
  pdf_pages_text := pdf_pages_text quiet;
  relevance_llm := relevance_llm quiet;
  analysis_llm := analysis_llm quiet;
  cache_write_fault := cache_write_fault quiet;
  set_order := fun h => match h with
                        | [] => [KStr "id1"; KStr "id2"]
                        | _ :: _ => [KStr "id2"; KStr "id1"]
                        end;
  make_llm_client := make_llm_client quiet;
  page_budget := page_budget quiet;
  report_write_fault := report_write_fault quiet
|}.

(** A cache file that already knows the sample candidate. *)
Definition known_cache : World :=
  world_with (Document (JObj [("processed_ids", JArr [JStr "test001"])])).

Definition candidates_state : Graph.GraphState :=
  Graph.with_paper_candidates initial_state [candidate].

(** Collaborators under which the cache file cannot be opened for
    writing. *)
Definition read_only : External := {|
  now_utc := now_utc quiet;
  now_local := now_local quiet;
  strftime_ymd := strftime_ymd quiet;
  arxiv_results := arxiv_results quiet;
  rxiv_response := rxiv_response quiet;
  chemrxiv_response := chemrxiv_response quiet;
  pdf_response := pdf_response quiet;
  pdf_pages_text := pdf_pages_text quiet;
  relevance_llm := relevance_llm quiet;
  analysis_llm := analysis_llm quiet;
  cache_write_fault := fun _ => Some (OpenFails "Permission denied");
  set_order := fun _ => [];
  make_llm_client := make_llm_client quiet;
  page_budget := page_budget quiet;
  report_write_fault := report_write_fault quiet
|}.

(** Collaborators whose language model fails at every analysis. *)
Definition no_analysis : External := {|
  now_utc := now_utc quiet;
  now_local := now_local quiet;
  strftime_ymd := strftime_ymd quiet;
  arxiv_results := arxiv_results quiet;
  rxiv_response := rxiv_response quiet;
  chemrxiv_response := chemrxiv_response quiet;
  pdf_response := pdf_response quiet;
  pdf_pages_text := pdf_pages_text quiet;
  relevance_llm := relevance_llm quiet;
  analysis_llm := fun _ _ _ => Raise (OtherError "LLM API Error");
  cache_write_fault := cache_write_fault quiet;
  set_order := set_order quiet;
  make_llm_client := make_llm_client quiet;
  page_budget := page_budget quiet;
  report_write_fault := report_write_fault quiet
|}.

(** Collaborators whose chemRxiv API serves one page of hits and then
    stops answering. *)
Definition flaky_chemrxiv : External := {|
  now_utc := now_utc stale;
  now_local := now_local stale;
  strftime_ymd := strftime_ymd stale;
  arxiv_results := arxiv_results stale;
  rxiv_response := rxiv_response stale;
  chemrxiv_response := fun _ _ skip _ =>
    if skip =? 0 then Response 200 "" (Ret [old_item]) else NoResponse "timed out";
  pdf_response := pdf_response stale;
  pdf_pages_text := pdf_pages_text stale;
  relevance_llm := relevance_llm stale;
  analysis_llm := analysis_llm stale;
  cache_write_fault := cache_write_fault stale;
  set_order := set_order stale;
  make_llm_client := make_llm_client stale;
  page_budget := page_budget stale;
  report_write_fault := report_write_fault stale
|}.

End Sample.

(** * Theorems *)

(** ** The monad *)

Lemma logging_logged lvl msg w : logging lvl msg w = (Ret tt, logged lvl msg w).
Proof. reflexivity. Qed.

Lemma trace_logged lvl msg w : trace (logged lvl msg w) = trace w.
Proof. reflexivity. Qed.

Lemma cache_file_logged lvl msg w : cache_file (logged lvl msg w) = cache_file w.
Proof. reflexivity. Qed.

Lemma reports_logged lvl msg w : reports (logged lvl msg w) = reports w.
Proof. reflexivity. Qed.

Lemma same_but_log_refl w : same_but_log w w.
Proof. by repeat split. Qed.

Lemma same_but_log_trans w1 w2 w3 :
  same_but_log w1 w2 -> same_but_log w2 w3 -> same_but_log w1 w3.
Proof.
  intros (Hc & Hr & Ht) (Hc' & Hr' & Ht'). repeat split; congruence.
Qed.

Lemma same_but_log_logged lvl msg w : same_but_log w (logged lvl msg w).
Proof. by repeat split. Qed.

Lemma passthrough_quiet state w entry r :
  passthrough state w entry r ->
  r.1 = Ret state /\ same_but_log w r.2 /\ log r.2 = (log w ++ [(INFO, entry)])%list.
Proof. intros ->. by repeat split. Qed.

(** ** graph.py: the short circuits *)

Lemma filter_node_passthrough ext state w :
  Graph.error_set state = true ->
  Graph.filter_papers_node ext state w
  = (Ret state, logged INFO "--- Running Filter Papers Node ---" w).
Proof.
  intros Herr. unfold Graph.filter_papers_node, bind.
  by rewrite logging_logged, Herr.
Qed.

Lemma analyze_node_passthrough ext state w :
  Graph.error_set state = true \/ Graph.relevant_papers state = [] ->
  Graph.analyze_papers_node ext state w
  = (Ret state, logged INFO "--- Running Analyze Papers Node ---" w).
Proof.
  intros H. unfold Graph.analyze_papers_node, bind. rewrite logging_logged.
  destruct H as [-> | ->]; [done |]. by rewrite orb_true_r.
Qed.

Lemma synthesize_node_passthrough ext state synthesizer w :
  Graph.error_set state = true ->
  Graph.synthesize_report_node ext state synthesizer w
  = (Ret state, logged INFO "--- Running Synthesize Report Node ---" w).
Proof.
  intros Herr. unfold Graph.synthesize_report_node, bind.
  by rewrite logging_logged, Herr.
Qed.

(** C1. Once the error marker of the state is set (a reason that is not
    the empty string), each of [filter_papers_node], [analyze_papers_node]
    and [synthesize_report_node] returns the very state it was given; the
    cache file, the report files and the record of exchanges with the
    outside (language model, network, file reads and writes) stay as they
    were, and the node only writes its entry line to the log. *)
Theorem error_marker_short_circuits
    (ext : External) (synthesizer : MarkdownSynthesizer)
    (state : Graph.GraphState) (w : World) :
  Graph.error_set state = true ->
  passthrough state w "--- Running Filter Papers Node ---"
    (Graph.filter_papers_node ext state w)
  /\ passthrough state w "--- Running Analyze Papers Node ---"
    (Graph.analyze_papers_node ext state w)
  /\ passthrough state w "--- Running Synthesize Report Node ---"
    (Graph.synthesize_report_node ext state synthesizer w).
Proof.
  intros Herr. unfold passthrough.
  split; [by apply filter_node_passthrough |].
  split; [apply analyze_node_passthrough; by left |].
  by apply synthesize_node_passthrough.
Qed.

Lemma error_marker_short_circuits_witness :
  Graph.error_set Sample.failed_state = true
  /\ passthrough Sample.failed_state Sample.fresh "--- Running Filter Papers Node ---"
       (Graph.filter_papers_node Sample.quiet Sample.failed_state Sample.fresh)
  /\ passthrough Sample.failed_state Sample.fresh "--- Running Analyze Papers Node ---"
       (Graph.analyze_papers_node Sample.quiet Sample.failed_state Sample.fresh)
  /\ passthrough Sample.failed_state Sample.fresh "--- Running Synthesize Report Node ---"
       (Graph.synthesize_report_node Sample.quiet Sample.failed_state
          (Synthesizer.markdown Sample.quiet "2024-01-03") Sample.fresh).
Proof.
  split; [reflexivity |].
  apply (error_marker_short_circuits Sample.quiet
           (Synthesizer.markdown Sample.quiet "2024-01-03")
           Sample.failed_state Sample.fresh).
  reflexivity.
Defined.

(** C9. A state without error marker and with no relevant paper goes
    through [analyze_papers_node] unchanged: [analyzed_papers] is as it
    was, no analysis is started (no download, no call to the language
    model) and the cache file is neither read nor written. *)
Theorem analyze_node_skips_empty
    (ext : External) (state : Graph.GraphState) (w : World) :
  Graph.error_set state = false ->
  Graph.relevant_papers state = [] ->
  passthrough state w "--- Running Analyze Papers Node ---"
    (Graph.analyze_papers_node ext state w).
Proof.
  intros _ Hrel. unfold passthrough. apply analyze_node_passthrough. by right.
Qed.

Lemma analyze_node_skips_empty_witness :
  passthrough Sample.initial_state Sample.fresh "--- Running Analyze Papers Node ---"
    (Graph.analyze_papers_node Sample.quiet Sample.initial_state Sample.fresh).
Proof.
  apply (analyze_node_skips_empty Sample.quiet Sample.initial_state Sample.fresh);
    reflexivity.
Defined.

(** ** filter.py *)

Lemma is_relevant_run ext paper w :
  let reply := relevance_llm ext (trace w) (title paper) (abstract paper) in
  exists w',
    Filter.is_relevant ext paper w = (Ret (said_true reply), w')
    /\ trace w' = (trace w ++ [relevance_event paper reply])%list
    /\ cache_file w' = cache_file w /\ reports w' = reports w.
Proof.
  cbn. unfold Filter.is_relevant, try_except, bind, call.
  destruct (relevance_llm ext (trace w) (title paper) (abstract paper)) as [response|e];
    cbn; eexists; (split; [reflexivity |]); by cbn.
Qed.

Lemma run_all_is_relevant ext papers : forall w,
  let replies := relevance_replies ext (trace w) papers in
  exists w',
    run_all (Filter.is_relevant ext <$> papers) w = (Ret <$> (said_true <$> replies), w')
    /\ trace w' = (trace w ++ zip_with relevance_event papers replies)%list
    /\ cache_file w' = cache_file w /\ reports w' = reports w.
Proof.
  induction papers as [|paper rest IH]; intros w; cbn.
  - exists w. by rewrite app_nil_r.
  - destruct (is_relevant_run ext paper w) as (w1 & Hrun & Ht & Hc & Hr).
    rewrite Hrun.
    destruct (IH w1) as (w2 & Hrest & Ht2 & Hc2 & Hr2).
    rewrite Ht in Hrest, Ht2. rewrite Hrest.
    exists w2. split; [reflexivity |].
    split; [by rewrite Ht2, <- app_assoc | split; congruence].
Qed.

Lemma all_returned_Ret {A} (l : list A) : all_returned (Ret <$> l) = Ret l.
Proof. induction l as [|a l IH]; cbn; [done | by rewrite IH]. Qed.

Lemma relevance_replies_length ext papers : forall h,
  length (relevance_replies ext h papers) = length papers.
Proof. induction papers as [|p rest IH]; intros h; cbn; [done | by rewrite IH]. Qed.

Lemma keep_relevant_sublist papers results :
  Filter.keep_relevant papers results `sublist_of` papers.
Proof.
  unfold Filter.keep_relevant.
  trans ((zip papers results).*1).
  - apply fmap_sublist, sublist_filter.
  - revert results. induction papers as [|p ps IH]; intros [|r rs]; cbn;
      try constructor; [apply sublist_nil_l | apply IH].
Qed.

Lemma keep_relevant_elem papers results p :
  p ∈ Filter.keep_relevant papers results <->
  exists i, papers !! i = Some p /\ results !! i = Some true.
Proof.
  unfold Filter.keep_relevant. rewrite list_elem_of_fmap. split.
  - intros ([p' r] & -> & Hin). apply list_elem_of_filter in Hin as [Hr Hin].
    cbn in Hr. subst r. apply list_elem_of_lookup in Hin as [i Hi].
    exists i. apply lookup_zip_with_Some in Hi as (x & y & Heq & Hx & Hy).
    by inversion Heq; subst.
  - intros (i & Hp & Hr). exists (p, true). split; [done |].
    apply list_elem_of_filter. split; [done |].
    apply list_elem_of_lookup. exists i.
    apply lookup_zip_with_Some. by exists p, true.
Qed.

(** C2. For every list of candidates [filter_papers] makes one relevance
    call per candidate, in the order of the list, and returns the
    candidates whose call answered "relevant", a call that raised counting
    as "not relevant": the result is a sublist of the input (same order),
    and a candidate is in it exactly when it stands at a position whose
    call returned true. *)
Theorem filter_papers_keeps_relevant
    (ext : External) (papers : list PaperCandidate) (w : World) :
  let replies := relevance_replies ext (trace w) papers in
  let kept := (filter (fun pr => said_true pr.2 = true) (zip papers replies)).*1 in
  let r := Filter.filter_papers ext papers w in
  r.1 = Ret kept
  /\ length replies = length papers
  /\ trace r.2 = (trace w ++ zip_with relevance_event papers replies)%list
  /\ kept `sublist_of` papers
  /\ forall p, p ∈ kept <->
       exists i reply, papers !! i = Some p /\ replies !! i = Some reply
                       /\ said_true reply = true.
Proof.
  intros replies kept r.
  assert (Hkept : kept = Filter.keep_relevant papers (said_true <$> replies)).
  { unfold kept, Filter.keep_relevant. clear.
    generalize replies. clear replies.
    induction papers as [|p ps IH]; intros [|reply replies]; cbn; try done.
    destruct (decide (said_true reply = true)); cbn; by rewrite IH. }
  destruct (run_all_is_relevant ext papers (logged INFO
    ("Starting relevance filtering for " ++ pretty (length papers) ++ " papers.") w))
    as (w1 & Hrun & Ht & _).
  cbn in Hrun, Ht. fold replies in Hrun, Ht.
  assert (Hr : r = (Ret kept, logged INFO
    ("Found " ++ pretty (length kept) ++ " relevant papers.") w1)).
  { unfold r, Filter.filter_papers, bind, gather. rewrite logging_logged, Hrun.
    rewrite all_returned_Ret, <- Hkept. reflexivity. }
  rewrite Hr. cbn.
  split; [done |].
  split; [apply relevance_replies_length |].
  split; [done |].
  rewrite Hkept.
  split; [apply keep_relevant_sublist |].
  intros p. rewrite keep_relevant_elem. split.
  - intros (i & Hp & Hres). apply list_lookup_fmap_Some in Hres as (reply & Hreply & Hs).
    by exists i, reply.
  - intros (i & reply & Hp & Hreply & Hs). exists i. split; [done |].
    rewrite list_lookup_fmap, Hreply. cbn. by rewrite Hs.
Qed.

(** ** cache.py *)

Lemma load_processed_ids_run w :
  exists w',
    Cache.load_processed_ids w = (loaded (cache_file w), w')
    /\ cache_file w' = cache_file w /\ reports w' = reports w.
Proof.
  unfold loaded, Cache.load_processed_ids, bind, read_cache_file, try_except, lift, emit,
    ret, logging.
  cbn. destruct (cache_file w) as [|msg|msg|msg|doc] eqn:Hf; cbn;
    try (eexists; split; [reflexivity |]; by cbn).
  destruct (PyJson.get doc "processed_ids" (JArr [])) as [ids|e]; cbn.
  - destruct (PyJson.to_set ids) as [s|e]; cbn;
      [eexists; split; [reflexivity |]; by cbn |].
    destruct (Cache.json_or_io_error e); cbn; eexists; (split; [reflexivity |]); by cbn.
  - destruct (Cache.json_or_io_error e); cbn; eexists; (split; [reflexivity |]); by cbn.
Qed.

Lemma set_of_items_keys (l : list pykey) :
  PyJson.set_of_items (PyJson.of_key <$> l) = Ret (list_to_set l).
Proof.
  induction l as [|k l IH]; cbn; [done |].
  rewrite IH. by destruct k.
Qed.

Lemma elem_of_list_of_set order (s : gset pykey) k : k ∈ list_of_set order s <-> k ∈ s.
Proof.
  unfold list_of_set.
  rewrite elem_of_app, !list_elem_of_filter, elem_of_remove_dups, elem_of_elements.
  split; [by intros [[Hs _] | [_ Hs]] |].
  intros Hs. destruct (decide (k ∈ order)); [by left | by right].
Qed.

Lemma NoDup_list_of_set order (s : gset pykey) : NoDup (list_of_set order s).
Proof.
  unfold list_of_set. apply NoDup_app. split; [| split].
  - apply NoDup_filter, NoDup_remove_dups.
  - intros k Hin Hin'. apply list_elem_of_filter in Hin as [_ Hin].
    apply list_elem_of_filter in Hin' as [Hnot _].
    by apply Hnot, elem_of_remove_dups.
  - apply NoDup_filter, NoDup_elements.
Qed.

Lemma list_to_set_list_of_set order (s : gset pykey) :
  list_to_set (list_of_set order s) = s.
Proof.
  apply set_eq. intros k. by rewrite elem_of_list_to_set, elem_of_list_of_set.
Qed.

Lemma list_of_set_Permutation order order' (s : gset pykey) :
  list_of_set order s ≡ₚ list_of_set order' s.
Proof.
  apply NoDup_Permutation; [apply NoDup_list_of_set | apply NoDup_list_of_set |].
  intros k. by rewrite !elem_of_list_of_set.
Qed.

Lemma loaded_document (ids : list pykey) :
  loaded (Document (Cache.cache_document ids)) = Ret (list_to_set ids).
Proof.
  unfold loaded, Cache.load_processed_ids, bind, read_cache_file, try_except, lift, emit.
  cbn. by rewrite set_of_items_keys.
Qed.

Lemma loaded_cache_document order (X : gset pykey) :
  loaded (Document (Cache.cache_document (list_of_set order X))) = Ret X.
Proof. by rewrite loaded_document, list_to_set_list_of_set. Qed.

Lemma save_processed_ids_run ext (A : gset string) w :
  cache_writable ext ->
  let r := Cache.save_processed_ids ext A w in
  match loaded (cache_file w) with
  | Ret ids =>
      r.1 = Ret tt
      /\ cache_file r.2
         = Document (Cache.cache_document
                       (list_of_set (set_order ext (trace (Cache.load_processed_ids w).2))
                          (ids ∪ set_map KStr A)))
  | Raise e => r.1 = Raise e /\ cache_file r.2 = cache_file w
  end.
Proof.
  intros Hw. cbv zeta. unfold Cache.save_processed_ids, bind.
  destruct (load_processed_ids_run w) as (w1 & -> & Hc & _). cbn [fst snd].
  destruct (loaded (cache_file w)) as [ids|e]; [| done].
  unfold try_except, ask. rewrite Hw. by cbn.
Qed.

Lemma save_processed_ids_outcome ext (A : gset string) w :
  (Cache.save_processed_ids ext A w).1
  = match loaded (cache_file w) with
    | Ret _ => Ret tt
    | Raise e => Raise e
    end.
Proof.
  unfold Cache.save_processed_ids, bind.
  destruct (load_processed_ids_run w) as (w1 & -> & _).
  destruct (loaded (cache_file w)) as [ids|e]; [| done].
  unfold try_except, ask.
  by destruct (cache_write_fault ext (trace w1)) as [[msg|msg partial]|].
Qed.

Lemma stored_ids_cache_document (ids : list pykey) :
  stored_ids (Document (Cache.cache_document ids)) = PyJson.of_key <$> ids.
Proof. reflexivity. Qed.

(** C4 (counterexample). With an interpreter that lists the set
    ["id1", "id2"] first in one order and later in the other, saving the
    set once leaves one document in the file and saving it again leaves
    another: the stored content is not the same. *)
Lemma cache_save_can_reorder_the_file :
  let once := (Cache.save_processed_ids Sample.reordering Sample.first_ids Sample.fresh).2 in
  let twice := (Cache.save_processed_ids Sample.reordering Sample.first_ids once).2 in
  cache_writable Sample.reordering
  /\ cache_file once = Document (JObj [("processed_ids", JArr [JStr "id1"; JStr "id2"])])
  /\ cache_file twice = Document (JObj [("processed_ids", JArr [JStr "id2"; JStr "id1"])])
  /\ cache_file twice <> cache_file once.
Proof.
  cbv zeta.
  assert (H1 : cache_file
                 (Cache.save_processed_ids Sample.reordering Sample.first_ids Sample.fresh).2
               = Document (JObj [("processed_ids", JArr [JStr "id1"; JStr "id2"])]))
    by reflexivity.
  assert (H2 : cache_file
                 (Cache.save_processed_ids Sample.reordering Sample.first_ids
                    (Cache.save_processed_ids Sample.reordering Sample.first_ids
                       Sample.fresh).2).2
               = Document (JObj [("processed_ids", JArr [JStr "id2"; JStr "id1"])]))
    by reflexivity.
  split; [intros h; reflexivity |]. split; [exact H1 |]. split; [exact H2 |].
  rewrite H1, H2. discriminate.
Qed.

(** C4 (amended). When writing the cache file does not fail: starting
    from a cache that loads as the empty set, saving [A], then saving [B],
    then loading gives exactly the identifiers of [A ∪ B]; and saving the
    same set a second time leaves a file that loads as the same set of
    identifiers and lists the same identifiers, each as often, as the
    file the first save left, from whatever cache file one starts.  The
    order of the list in the file is not kept. *)
Theorem cache_save_accumulates
    (ext : External) (A B : gset string) (w : World) :
  cache_writable ext ->
  (Cache.load_processed_ids w).1 = Ret ∅ ->
  let w1 := (Cache.save_processed_ids ext A w).2 in
  let w2 := (Cache.save_processed_ids ext B w1).2 in
  (Cache.load_processed_ids w2).1 = Ret (set_map KStr (A ∪ B))
  /\ forall w0 : World,
       let once := (Cache.save_processed_ids ext A w0).2 in
       let twice := (Cache.save_processed_ids ext A once).2 in
       loaded (cache_file twice) = loaded (cache_file once)
       /\ stored_ids (cache_file twice) ≡ₚ stored_ids (cache_file once).
Proof.
  intros Hw Hempty w1 w2. split.
  - destruct (load_processed_ids_run w) as (w' & Hload & _).
    rewrite Hload in Hempty. cbn in Hempty.
    pose proof (save_processed_ids_run ext A w Hw) as H1. cbn in H1.
    rewrite Hempty in H1. destruct H1 as [_ H1]. fold w1 in H1.
    pose proof (save_processed_ids_run ext B w1 Hw) as H2. cbn in H2.
    rewrite H1, loaded_cache_document in H2. destruct H2 as [_ H2]. fold w2 in H2.
    destruct (load_processed_ids_run w2) as (w'' & -> & _). cbn.
    rewrite H2, loaded_cache_document. f_equal.
    by rewrite set_map_union_L, (left_id_L ∅ (∪)).
  - intros w0 once twice.
    pose proof (save_processed_ids_run ext A w0 Hw) as H1. cbn in H1. fold once in H1.
    pose proof (save_processed_ids_run ext A once Hw) as H2. cbn in H2. fold twice in H2.
    destruct (loaded (cache_file w0)) as [ids|e] eqn:Hl.
    + destruct H1 as [_ H1]. rewrite H1, loaded_cache_document in H2.
      destruct H2 as [_ H2]. rewrite H2, H1.
      rewrite <- (assoc_L (∪)), (idemp_L (∪)).
      split; [by rewrite !loaded_cache_document |].
      rewrite !stored_ids_cache_document. apply fmap_Permutation, list_of_set_Permutation.
    + destruct H1 as [_ H1]. rewrite H1, Hl in H2. destruct H2 as [_ H2].
      rewrite H2, H1. split; reflexivity.
Qed.

Lemma cache_save_accumulates_witness :
  cache_writable Sample.quiet
  /\ (Cache.load_processed_ids Sample.fresh).1 = Ret ∅
  /\ (Cache.load_processed_ids
        (Cache.save_processed_ids Sample.quiet Sample.more_ids
           (Cache.save_processed_ids Sample.quiet Sample.first_ids Sample.fresh).2).2).1
     = Ret (set_map KStr (Sample.first_ids ∪ Sample.more_ids)).
Proof.
  split; [intros h; reflexivity |]. split; [reflexivity |].
  apply (cache_save_accumulates Sample.quiet Sample.first_ids Sample.more_ids Sample.fresh).
  - intros h. reflexivity.
  - reflexivity.
Defined.

(** What [load_processed_ids] does handle: a missing file, a file that
    cannot be opened and a file that is not JSON all load as the empty
    set. *)
Lemma load_empty_on_handled_faults (w : World) :
  match cache_file w with
  | Missing | Unreadable _ | NotJson _ => (Cache.load_processed_ids w).1 = Ret ∅
  | _ => True
  end.
Proof.
  destruct (load_processed_ids_run w) as (w' & -> & _). cbn.
  by destruct (cache_file w).
Qed.

(** C5 (what the code does instead). [load_processed_ids] raises on two
    kinds of corrupt record: a file whose bytes are not UTF-8 (the
    UnicodeDecodeError is not among the exceptions caught) and a file that
    holds well-formed JSON of another shape, here the array [[]] (the
    AttributeError of [data.get] is not caught either). *)
Theorem load_raises_on_corrupt_record :
  (Cache.load_processed_ids (world_with (NotUtf8 "invalid start byte"))).1
    = Raise (UnicodeDecodeError "invalid start byte")
  /\ (Cache.load_processed_ids (world_with (Document (JArr [])))).1
    = Raise (AttributeError "'list' object has no attribute 'get'").
Proof. split; reflexivity. Qed.

(** ** analysis.py: the resource links *)

Lemma findall_from_head r s :
  head (Re.findall_from r O s) = Re.search r s.
Proof.
  induction s as [|c s IH]; cbn.
  - by destruct (Re.match_at r "").
  - destruct (Re.match_at r (String c s)); [done | apply IH].
Qed.

Lemma findall_first r s :
  match Re.findall r s with
  | m :: _ => Re.search r s = Some m
  | [] => Re.search r s = None
  end.
Proof.
  unfold Re.findall. rewrite <- findall_from_head.
  by destruct (Re.findall_from r 0 s).
Qed.

Lemma extract_resource_links_run text w :
  exists links w',
    Analysis._extract_resource_links text w = (Ret links, w')
    /\ same_but_log w w'
    /\ dom links = LINK_KEYS
    /\ links !! "github" = Some (default "" (Re.search Analysis.github_pattern text))
    /\ links !! "huggingface" = Some (default "" (Re.search Analysis.huggingface_pattern text))
    /\ links !! "project_page" = Some "".
Proof.
  unfold Analysis._extract_resource_links, bind, ret.
  pose proof (findall_first Analysis.github_pattern text) as Hg.
  pose proof (findall_first Analysis.huggingface_pattern text) as Hh.
  destruct (Re.findall Analysis.github_pattern text) as [|g gs];
    destruct (Re.findall Analysis.huggingface_pattern text) as [|h hs];
    rewrite Hg, Hh; cbn; eexists _, _; (split; [reflexivity |]);
    (split; [by repeat split |]);
    (split; [| by simplify_map_eq]);
    rewrite !dom_insert_L, dom_empty_L; unfold LINK_KEYS;
    apply set_eq; intros k; rewrite !elem_of_union, !elem_of_singleton, elem_of_empty;
    tauto.
Qed.

(** C7 (what the code does). For every text [_extract_resource_links]
    returns, without raising, a mapping with exactly the keys github,
    huggingface and project_page; github and huggingface hold the leftmost
    match of their pattern, or the empty string; project_page holds the
    empty string whatever the text is, no pattern being tried for it: so
    also on a text that shows a project page. *)
Theorem extract_resource_links_no_project_page :
  (forall (text : string) (w : World),
     exists links w',
       Analysis._extract_resource_links text w = (Ret links, w')
       /\ same_but_log w w'
       /\ dom links = LINK_KEYS
       /\ links !! "github"
          = Some (default "" (Re.search Analysis.github_pattern text))
       /\ links !! "huggingface"
          = Some (default "" (Re.search Analysis.huggingface_pattern text))
       /\ links !! "project_page" = Some "")
  /\ (Analysis._extract_resource_links
        "Project page: https://alphafold.ebi.ac.uk Code: https://github.com/test/repo."
        Sample.fresh).1
     = Ret (<["github" := "https://github.com/test/repo"]>
              (<["huggingface" := ""]> (<["project_page" := ""]> ∅))).
Proof.
  split; [apply extract_resource_links_run | reflexivity].
Qed.

(** ** analysis.py: one paper *)

Lemma download_and_parse_pdf_run ext url w :
  exists w',
    Analysis._download_and_parse_pdf ext url w
      = (Ret (match extracted_text ext (trace w) url with
              | Ret text => text
              | Raise _ => ""
              end), w')
    /\ trace w' = (trace w ++ [EvHttpGet url])%list
    /\ cache_file w' = cache_file w /\ reports w' = reports w.
Proof.
  unfold Analysis._download_and_parse_pdf, extracted_text, bind, try_except,
    http_get, call, lift.
  rewrite logging_logged. cbn.
  destruct (read_response (pdf_response ext (trace w) url)) as [content|e]; cbn.
  - destruct (Analysis.parse_text ext content) as [text|e]; cbn.
    + eexists. split; [reflexivity |]. by cbn.
    + destruct (Analysis.request_error e); cbn; eexists; (split; [reflexivity |]); by cbn.
  - destruct (Analysis.request_error e); cbn; eexists; (split; [reflexivity |]); by cbn.
Qed.

(** A paper whose document gives no text is dropped before the language
    model is asked. *)
Lemma analyze_paper_without_text ext paper w :
  (Analysis._download_and_parse_pdf ext (pdf_url paper) w).1 = Ret "" ->
  let r := Analysis.analyze_paper ext paper w in
  r.1 = Ret None
  /\ trace r.2 = (trace w ++ [EvHttpGet (pdf_url paper)])%list
  /\ cache_file r.2 = cache_file w /\ reports r.2 = reports w.
Proof.
  intros Hd r. subst r. unfold Analysis.analyze_paper, bind. rewrite logging_logged.
  destruct (download_and_parse_pdf_run ext (pdf_url paper)
              (logged INFO ("Starting analysis for paper: " ++ title paper) w))
    as (w1 & Hrun & Ht & Hc & Hr).
  destruct (download_and_parse_pdf_run ext (pdf_url paper) w) as (w1' & Hrun' & _).
  rewrite Hrun' in Hd. cbn in Hd. injection Hd as Hd.
  rewrite trace_logged in Hrun, Ht. rewrite Hrun, Hd. by cbn.
Qed.

(** C10. When the document of a candidate downloads (a response with a
    success status whose body can be read) and parses, and the text left
    after collapsing whitespace and stripping is empty, then
    [_download_and_parse_pdf] returns the empty string, the value it also
    returns when the request fails, and [analyze_paper] returns [None]
    with the download as its only exchange with the outside: the language
    model is not called.  Return value, exchanges and files are those of
    the same call with the network down. *)
Theorem empty_extraction_is_dropped
    (ext : External) (paper : PaperCandidate) (w : World)
    (status : Z) (body content raw : string) :
  pdf_response ext (trace w) (pdf_url paper) = Response status body (Ret content) ->
  is_success status = true ->
  pdf_pages_text ext content = Ret raw ->
  PyStr.strip (PyStr.sub_spaces false raw) = "" ->
  let r := Analysis.analyze_paper ext paper w in
  (Analysis._download_and_parse_pdf ext (pdf_url paper) w).1 = Ret ""
  /\ r.1 = Ret None
  /\ trace r.2 = (trace w ++ [EvHttpGet (pdf_url paper)])%list
  /\ cache_file r.2 = cache_file w /\ reports r.2 = reports w
  /\ forall msg,
       let down := network_down ext msg in
       let r' := Analysis.analyze_paper down paper w in
       (Analysis._download_and_parse_pdf down (pdf_url paper) w).1 = Ret ""
       /\ r'.1 = r.1 /\ trace r'.2 = trace r.2
       /\ cache_file r'.2 = cache_file r.2 /\ reports r'.2 = reports r.2.
Proof.
  intros Hresp Hok Hpages Hempty r.
  assert (Hd : (Analysis._download_and_parse_pdf ext (pdf_url paper) w).1 = Ret "").
  { destruct (download_and_parse_pdf_run ext (pdf_url paper) w) as (w1 & -> & _).
    cbn. unfold extracted_text, Analysis.parse_text.
    rewrite Hresp. cbn. rewrite Hok, Hpages. by rewrite Hempty. }
  destruct (analyze_paper_without_text ext paper w Hd) as (H1 & H2 & H3 & H4).
  fold r in H1, H2, H3, H4.
  do 5 (split; [done |]).
  intros msg down r'.
  assert (Hd' : (Analysis._download_and_parse_pdf down (pdf_url paper) w).1 = Ret "").
  { by destruct (download_and_parse_pdf_run down (pdf_url paper) w) as (w1 & -> & _). }
  destruct (analyze_paper_without_text down paper w Hd') as (H1' & H2' & H3' & H4').
  fold r' in H1', H2', H3', H4'.
  repeat split; congruence.
Qed.

Lemma empty_extraction_is_dropped_witness :
  (Analysis.analyze_paper Sample.blank_pdf Sample.candidate Sample.fresh).1 = Ret None
  /\ trace (Analysis.analyze_paper Sample.blank_pdf Sample.candidate Sample.fresh).2
     = [EvHttpGet "http://example.com/test001.pdf"].
Proof.
  destruct (empty_extraction_is_dropped Sample.blank_pdf Sample.candidate Sample.fresh
              200 "" "%PDF-1.7" ("  " ++ nl ++ " ")
              eq_refl eq_refl eq_refl eq_refl) as (_ & H1 & H2 & _).
  split; [exact H1 | exact H2].
Defined.

(** ** graph.py: the batch analysis *)

Lemma analyze_paper_run ext paper w :
  exists o w',
    Analysis.analyze_paper ext paper w = (Ret o, w')
    /\ (forall analyzed, o = Some analyzed -> metadata analyzed = paper)
    /\ cache_file w' = cache_file w /\ reports w' = reports w.
Proof.
  unfold Analysis.analyze_paper.
  unfold bind at 1. rewrite logging_logged. cbv beta iota.
  unfold bind at 1.
  destruct (download_and_parse_pdf_run ext (pdf_url paper)
              (logged INFO ("Starting analysis for paper: " ++ title paper) w))
    as (w1 & -> & _ & Hc1 & Hr1).
  rewrite cache_file_logged in Hc1. rewrite reports_logged in Hr1.
  cbv beta iota.
  generalize (match extracted_text ext (trace (logged INFO
                ("Starting analysis for paper: " ++ title paper) w)) (pdf_url paper) with
              | Ret text => text
              | Raise _ => ""
              end).
  intros text.
  destruct (PyStr.truthy text); cbv [negb].
  2:{ eexists _, _. split; [reflexivity |]. by split. }
  unfold bind at 1.
  destruct (extract_resource_links_run text w1) as (links & w2 & -> & (Hc2 & Hr2 & _) & _).
  cbv beta iota.
  unfold bind at 1.
  assert (exists text' w3,
    (if PyStr.len text >? Analysis.max_text_length
     then
       logging WARNING ("Paper text is too long (" ++ pretty (PyStr.len text)
                        ++ " chars). Truncating to " ++ pretty Analysis.max_text_length ++ ".") ;;
       ret (PyStr.take (Z.to_nat Analysis.max_text_length) text)
     else ret text) w2 = (Ret text', w3)
    /\ cache_file w3 = cache_file w2 /\ reports w3 = reports w2)
    as (text' & w3 & -> & Hc3 & Hr3).
  { destruct (PyStr.len text >? Analysis.max_text_length).
    - unfold bind. rewrite logging_logged. by eexists _, _.
    - by eexists _, _. }
  cbv beta iota.
  unfold try_except. unfold bind at 1. rewrite logging_logged. cbv beta iota.
  unfold bind at 1, call.
  destruct (analysis_llm ext _ text' _) as [result|e]; cbv beta iota zeta.
  - unfold bind. rewrite logging_logged. cbv beta iota.
    eexists _, _. split; [reflexivity |].
    split; [by intros analyzed [= <-] |].
    split; cbn; congruence.
  - unfold handle, any_exception, bind. rewrite logging_logged. cbv beta iota.
    eexists _, _. split; [reflexivity |].
    split; [done |]. split; cbn; congruence.
Qed.

Lemma run_all_analyze_paper ext papers : forall w,
  exists (results : list (option AnalyzedPaper)) w',
    run_all (Analysis.analyze_paper ext <$> papers) w = (Ret <$> results, w')
    /\ Forall2 (fun paper o => forall analyzed, o = Some analyzed -> metadata analyzed = paper)
         papers results
    /\ cache_file w' = cache_file w /\ reports w' = reports w.
Proof.
  induction papers as [|paper rest IH]; intros w.
  - exists [], w. by repeat split.
  - cbn [fmap list_fmap run_all].
    destruct (analyze_paper_run ext paper w) as (o & w1 & -> & Ho & Hc1 & Hr1).
    destruct (IH w1) as (results & w2 & -> & Hall & Hc2 & Hr2).
    exists (o :: results), w2. split; [reflexivity |].
    split; [by constructor |]. split; congruence.
Qed.

Lemma analyzed_of_Ret (results : list (option AnalyzedPaper)) :
  Graph.analyzed_of (Ret <$> results) = omap id results.
Proof.
  induction results as [|[analyzed|] results IH]; cbn; [done | f_equal; exact IH | exact IH].
Qed.

Lemma errors_of_Ret {A} (results : list A) : Graph.errors_of (Ret <$> results) = [].
Proof. induction results as [|a results IH]; cbn; done. Qed.

Lemma omap_id_length {A} (l : list (option A)) : (length (omap id l) <= length l)%nat.
Proof. induction l as [|[a|] l IH]; cbn; lia. Qed.

Lemma omap_id_metadata papers (results : list (option AnalyzedPaper)) :
  Forall2 (fun paper o => forall analyzed, o = Some analyzed -> metadata analyzed = paper)
    papers results ->
  (metadata <$> omap id results) `sublist_of` papers.
Proof.
  induction 1 as [|paper o papers results Ho _ IH]; cbn; [constructor |].
  destruct o as [analyzed|]; cbn.
  - rewrite (Ho analyzed eq_refl). by constructor.
  - by constructor.
Qed.

(** C3. When [analyze_papers_node] runs its batch (no error marker, some
    relevant paper), it returns a state.  Either the node itself failed,
    which happens only when making the client raised or when the cache
    file cannot be loaded for the update, and the error marker is set; or
    [analyzed_papers] holds the papers among the results of the tasks and
    nothing else (a task that returned [None] leaves no entry, and no task
    raises): it is no longer than [relevant_papers], the candidates of its
    entries form a sublist of [relevant_papers], and so the id of every
    entry is the id of a relevant paper. *)
Theorem analyze_node_collects_papers
    (ext : External) (state : Graph.GraphState) (w : World) :
  Graph.error_set state = false ->
  Graph.relevant_papers state <> [] ->
  let r := Graph.analyze_papers_node ext state w in
  exists state',
    r.1 = Ret state'
    /\ ((state' = Graph.with_error state (Some "Failed during paper analysis.")
         /\ exists e, make_llm_client ext (trace w) = Raise e
                      \/ loaded (cache_file w) = Raise e)
        \/ exists results : list (option AnalyzedPaper),
             state' = Graph.with_analyzed_papers state (omap id results)
             /\ length results = length (Graph.relevant_papers state)
             /\ (length (Graph.analyzed_papers state') <= length (Graph.relevant_papers state))%nat
             /\ (metadata <$> Graph.analyzed_papers state')
                  `sublist_of` Graph.relevant_papers state
             /\ Forall (fun analyzed =>
                          exists paper, paper ∈ Graph.relevant_papers state
                                        /\ paper_id (metadata analyzed) = paper_id paper)
                  (Graph.analyzed_papers state')).
Proof.
  intros Herr Hrel r. subst r. unfold Graph.analyze_papers_node.
  unfold bind at 1. rewrite logging_logged. cbv beta iota.
  rewrite Herr. destruct (Graph.relevant_papers state) as [|p0 ps0] eqn:Hps; [done |].
  cbn [Graph.nonempty negb orb]. rewrite <- Hps. clear p0 ps0 Hps Hrel.
  unfold try_except. unfold bind at 1, new_llm_client. rewrite trace_logged.
  destruct (make_llm_client ext (trace w)) as [[]|e] eqn:Hclient; cbv beta iota.
  2:{ unfold handle, any_exception, bind. rewrite logging_logged. cbv beta iota.
      eexists. split; [reflexivity |]. left. split; [done |]. exists e. by left. }
  unfold bind at 1, gather_return_exceptions.
  destruct (run_all_analyze_paper ext (Graph.relevant_papers state)
     (logged INFO "--- Running Analyze Papers Node ---" w))
    as (results & w1 & -> & Hall & Hc & Hr).
  rewrite cache_file_logged in Hc.
  cbv beta iota. rewrite errors_of_Ret, analyzed_of_Ret.
  cbn [Graph.nonempty]. unfold bind at 1. unfold ret at 1. cbv beta iota.
  unfold bind at 1.
  assert (Hupdate : forall (b : bool) (ids : gset string),
    ((if b then Cache.save_processed_ids ext ids else ret tt) w1).1 = Ret tt
    \/ exists e, ((if b then Cache.save_processed_ids ext ids else ret tt) w1).1 = Raise e
                 /\ loaded (cache_file w) = Raise e).
  { intros [] ids; [| by left].
    rewrite save_processed_ids_outcome, Hc.
    destruct (loaded (cache_file w)) as [known|e]; [by left | right; by exists e]. }
  match goal with
  | |- context [ (if ?b then Cache.save_processed_ids ext ?ids else ret tt) w1 ] =>
      specialize (Hupdate b ids);
      destruct ((if b then Cache.save_processed_ids ext ids else ret tt) w1)
        as [[[]|e] w2]
  end; cbv beta iota.
  - eexists. split; [reflexivity |]. right. exists results.
    split; [done |]. split; [symmetry; by eapply Forall2_length |].
    cbn [Graph.analyzed_papers Graph.with_analyzed_papers Graph.relevant_papers].
    split; [etrans; [apply omap_id_length | by rewrite <- (Forall2_length _ _ _ Hall)] |].
    pose proof (omap_id_metadata _ _ Hall) as Hsub.
    split; [done |].
    apply Forall_forall. intros analyzed Hin. exists (metadata analyzed).
    split; [| done].
    eapply elem_of_sublist; [| exact Hsub]. apply list_elem_of_fmap. by exists analyzed.
  - unfold handle, any_exception, bind. rewrite logging_logged. cbv beta iota.
    eexists. split; [reflexivity |]. left. split; [done |].
    destruct Hupdate as [Hu | (e' & Hu & Hl)]; [discriminate |].
    cbn in Hu. injection Hu as <-. exists e. by right.
Qed.

Lemma analyze_node_collects_papers_witness :
  Graph.error_set Sample.relevant_state = false
  /\ Graph.relevant_papers Sample.relevant_state <> []
  /\ exists state',
       (Graph.analyze_papers_node Sample.quiet Sample.relevant_state Sample.fresh).1
       = Ret state'
       /\ ((state' = Graph.with_error Sample.relevant_state
                       (Some "Failed during paper analysis.")
            /\ exists e, make_llm_client Sample.quiet (trace Sample.fresh) = Raise e
                         \/ loaded (cache_file Sample.fresh) = Raise e)
           \/ exists results : list (option AnalyzedPaper),
                state' = Graph.with_analyzed_papers Sample.relevant_state (omap id results)
                /\ length results = length (Graph.relevant_papers Sample.relevant_state)
                /\ (length (Graph.analyzed_papers state')
                    <= length (Graph.relevant_papers Sample.relevant_state))%nat
                /\ (metadata <$> Graph.analyzed_papers state')
                     `sublist_of` Graph.relevant_papers Sample.relevant_state
                /\ Forall (fun analyzed =>
                             exists paper,
                               paper ∈ Graph.relevant_papers Sample.relevant_state
                               /\ paper_id (metadata analyzed) = paper_id paper)
                     (Graph.analyzed_papers state')).
Proof.
  split; [reflexivity |]. split; [discriminate |].
  apply (analyze_node_collects_papers Sample.quiet Sample.relevant_state Sample.fresh);
    [reflexivity | discriminate].
Defined.

(** ** fetcher.py: the 24-hour window *)




Lemma scrape_chemrxiv_run (item : ChemItem) (w : World) :
  let r := Fetcher._scrape_and_create_chemrxiv_candidate item w in
  r.1 = Ret (match asset_url item, item_id item, item_title item, item_abstract item with
             | Some pdf, Some id_, Some title_, Some abstract_ =>
                 if PyStr.truthy pdf
                 then Some (chem_candidate pdf id_ title_ abstract_ item)
                 else None
             | _, _, _, _ => None
             end)
  /\ same_but_log w r.2.
Proof.
  unfold Fetcher._scrape_and_create_chemrxiv_candidate, try_except, bind, Fetcher.subscript.
  destruct (asset_url item) as [pdf|]; cbn.
  - destruct (PyStr.truthy pdf); cbn.
    + destruct (item_id item) as [id_|]; cbn; [| by repeat split].
      destruct (item_title item) as [title_|]; cbn; [| by repeat split].
      destruct (item_abstract item) as [abstract_|]; cbn; by repeat split.
    + destruct (item_id item), (item_title item), (item_abstract item); by repeat split.
  - by repeat split.
Qed.









(** ** synthesizer.py *)

Lemma string_app_assoc (a b c : string) : (a ++ b) ++ c = a ++ (b ++ c).
Proof.
  induction a as [|x a IH]; [reflexivity |].
  change (String x ((a ++ b) ++ c) = String x (a ++ (b ++ c))). by rewrite IH.
Qed.

Lemma string_app_empty_r (a : string) : a ++ "" = a.
Proof.
  induction a as [|x a IH]; [reflexivity |].
  change (String x (a ++ "") = String x a). by rewrite IH.
Qed.

Lemma occurs_in_self s : occurs_in s s.
Proof. exists "", "". change ("" ++ s ++ "") with (s ++ ""). by rewrite string_app_empty_r. Qed.

Lemma occurs_in_app_l needle a b : occurs_in needle a -> occurs_in needle (a ++ b).
Proof.
  intros (before & after & ->). exists before, (after ++ b).
  by rewrite !string_app_assoc.
Qed.

Lemma occurs_in_app_r needle a b : occurs_in needle b -> occurs_in needle (a ++ b).
Proof.
  intros (before & after & ->). exists (a ++ before), after.
  by rewrite !string_app_assoc.
Qed.

Lemma occurs_in_join needle section sections :
  section ∈ sections -> occurs_in needle section ->
  occurs_in needle (PyStr.join "" sections).
Proof.
  intros Hin Hocc. induction sections as [|x rest IH]; [by apply elem_of_nil in Hin |].
  apply elem_of_cons in Hin as [->|Hin].
  - destruct rest; [done |]. by apply occurs_in_app_l.
  - destruct rest as [|y rest]; [by apply elem_of_nil in Hin |].
    change (PyStr.join "" (x :: y :: rest)) with (x ++ "" ++ PyStr.join "" (y :: rest)).
    apply occurs_in_app_r. change ("" ++ PyStr.join "" (y :: rest)) with (PyStr.join "" (y :: rest)).
    by apply IH.
Qed.

Lemma format_papers_sections papers : forall first,
  Forall2 (fun numbered section =>
             exists body, section
                          = Synthesizer.section_heading numbered.1 numbered.2 ++ nl ++ body)
    (zip (seq first (length papers)) papers)
    (Synthesizer.format_papers first papers).
Proof.
  induction papers as [|paper rest IH]; intros first; cbn; constructor.
  - by eexists.
  - apply IH.
Qed.

(** C8. [synthesize] of no paper is the fixed empty-state document: it
    holds the sentence "No relevant papers found today" and is not the
    empty string.  [synthesize] of a list that is not empty is the header
    followed by the sections of the papers, one per paper and in the order
    of the list: section number i+1 begins with the heading "## i+1. "
    and the title of the paper at position i, so each of these headings
    occurs in the document. *)
Theorem synthesize_one_section_per_paper (date : string) :
  Synthesizer.synthesize_markdown date [] = Synthesizer.empty_report
  /\ occurs_in Synthesizer.NO_PAPERS_MESSAGE (Synthesizer.synthesize_markdown date [])
  /\ Synthesizer.synthesize_markdown date [] <> ""
  /\ forall paper rest,
       let papers := paper :: rest in
       let numbered := zip (seq 1 (length papers)) papers in
       exists sections,
         Synthesizer.synthesize_markdown date papers
           = Synthesizer.report_header date ++ PyStr.join "" sections
         /\ length sections = length papers
         /\ Forall2 (fun np section =>
                       exists body, section
                                    = Synthesizer.section_heading np.1 np.2 ++ nl ++ body)
              numbered sections
         /\ Forall (fun np => occurs_in (Synthesizer.section_heading np.1 np.2)
                                (Synthesizer.synthesize_markdown date papers))
              numbered.
Proof.
  split; [reflexivity |].
  split; [by exists ("# AI4Science Daily Paper Report" ++ nl ++ nl), ("." ++ nl) |].
  split; [discriminate |].
  intros paper rest papers numbered.
  exists (Synthesizer.format_papers 1 papers).
  pose proof (format_papers_sections papers 1%nat) as Hsec. fold numbered in Hsec.
  split; [reflexivity |].
  split; [rewrite <- (Forall2_length _ _ _ Hsec); unfold numbered;
          by rewrite length_zip_with, length_seq, Nat.min_id |].
  split; [done |].
  apply Forall_forall. intros np Hnp.
  apply list_elem_of_lookup in Hnp as [i Hi].
  destruct (Forall2_lookup_l _ _ _ _ _ Hsec Hi) as (section & Hs & body & ->).
  change (Synthesizer.synthesize_markdown date papers)
    with (Synthesizer.report_header date
          ++ PyStr.join "" (Synthesizer.format_papers 1 papers)).
  apply occurs_in_app_r.
  eapply occurs_in_join; [by eapply list_elem_of_lookup_2 |].
  apply occurs_in_app_l, occurs_in_self.
Qed.

(** ** Further facts *)

(** The leftmost match is the first place, in source order, where the
    pattern matches. *)
Lemma search_first_match r s :
  Re.search r s = head (omap (Re.match_at r) (suffixes s)).
Proof.
  induction s as [|c s IH]; cbn.
  - by destruct (Re.match_at r "").
  - destruct (Re.match_at r (String c s)); [done | apply IH].
Qed.

(** What the test of analysis.py feeds to [_extract_resource_links]. *)
Example extract_resource_links_test_text :
  (Analysis._extract_resource_links
     "Code: https://github.com/test/repo. Model: https://huggingface.co/test/model."
     Sample.fresh).1
  = Ret (<["github" := "https://github.com/test/repo"]>
           (<["huggingface" := "https://huggingface.co/test"]>
              (<["project_page" := ""]> ∅))).
Proof. reflexivity. Qed.

(** The collapsed and stripped text is empty exactly for a text of
    whitespace only. *)
Lemma lstrip_space c s : PyStr.is_space c = true -> PyStr.lstrip (String c s) = PyStr.lstrip s.
Proof. intros H. cbn. by rewrite H. Qed.

Lemma rstrip_nonspace c s :
  PyStr.is_space c = false -> PyStr.rstrip (String c s) = String c (PyStr.rstrip s).
Proof. intros H. cbn. by rewrite H. Qed.

Lemma strip_sub_spaces_blank s : forall in_run,
  PyStr.strip (PyStr.sub_spaces in_run s) = "" <-> blank s = true.
Proof.
  induction s as [|c s IH]; intros in_run; [done |].
  cbn [PyStr.sub_spaces blank]. destruct (PyStr.is_space c) eqn:Hc; cbn [andb].
  - rewrite <- (IH true). destruct in_run; [done |].
    unfold PyStr.strip. by rewrite lstrip_space.
  - unfold PyStr.strip. cbn [PyStr.lstrip]. rewrite Hc, rstrip_nonspace by done.
    split; discriminate.
Qed.

(** No node raises: whatever happens inside is caught at its boundary. *)
Lemma never_raises_handler {A} (lvl : Level) (msg : string) (a : A) :
  never_raises (logging lvl msg ;; ret a).
Proof. intros w. unfold bind. rewrite logging_logged. by eexists _, _. Qed.

Lemma never_raises_try_except {A} (body : Py A) (handler : PyExn -> Py A) :
  (forall e, never_raises (handler e)) ->
  never_raises (try_except body [(any_exception, handler)]).
Proof.
  intros Hh w. unfold try_except.
  destruct (body w) as [[a|e] w1]; [by eexists _, _ |].
  cbn. apply Hh.
Qed.

Lemma never_raises_after_log {A} (lvl : Level) (msg : string) (m : Py A) :
  never_raises m -> never_raises (logging lvl msg ;; m).
Proof. intros Hm w. unfold bind. rewrite logging_logged. apply Hm. Qed.

Lemma never_raises_ret {A} (a : A) : never_raises (ret a).
Proof. intros w. by eexists _, _. Qed.

Theorem nodes_never_raise (ext : External) (synthesizer : MarkdownSynthesizer)
    (state : Graph.GraphState) :
  never_raises (Graph.fetch_papers_node ext state)
  /\ never_raises (Graph.filter_papers_node ext state)
  /\ never_raises (Graph.analyze_papers_node ext state)
  /\ never_raises (Graph.synthesize_report_node ext state synthesizer).
Proof.
  unfold Graph.fetch_papers_node, Graph.filter_papers_node, Graph.analyze_papers_node,
    Graph.synthesize_report_node.
  repeat split; apply never_raises_after_log;
    repeat match goal with
           | |- never_raises (if ?b then _ else _) => destruct b
           | |- never_raises (ret _) => apply never_raises_ret
           | |- never_raises (try_except _ _) =>
               apply never_raises_try_except; intros e; apply never_raises_handler
           end.
Qed.

(** A node leaves the error marker as it was or writes a reason that is
    not empty: the empty string never becomes a marker. *)
Lemma returns_only_bind {A B} (m : Py A) (k : A -> Py B) (P : B -> Prop) :
  (forall a, returns_only (k a) P) -> returns_only (bind m k) P.
Proof.
  intros Hk w b w'. unfold bind.
  destruct (m w) as [[a|e] w1]; [apply Hk | discriminate].
Qed.

Lemma returns_only_ret {A} (a : A) (P : A -> Prop) : P a -> returns_only (ret a) P.
Proof. intros Ha w b w' [= <- _]. exact Ha. Qed.

Lemma returns_only_try_except {A} (body : Py A) (handler : PyExn -> Py A)
    (P : A -> Prop) :
  returns_only body P -> (forall e, returns_only (handler e) P) ->
  returns_only (try_except body [(any_exception, handler)]) P.
Proof.
  intros Hb Hh w a w'. unfold try_except.
  destruct (body w) as [[a1|e] w1] eqn:Hbody.
  - intros [= <- <-]. eapply Hb, Hbody.
  - cbn. apply Hh.
Qed.

Ltac returns_only :=
  repeat match goal with
         | |- returns_only (if ?b then _ else _) _ => destruct b
         | |- returns_only (try_except _ _) _ => apply returns_only_try_except
         | |- forall _, _ => intro
         | |- returns_only (bind _ _) _ => apply returns_only_bind
         | |- returns_only (ret _) _ => apply returns_only_ret
         end.

Theorem nodes_keep_marker_ok (ext : External) (synthesizer : MarkdownSynthesizer)
    (state : Graph.GraphState) :
  marker_ok state ->
  returns_only (Graph.fetch_papers_node ext state) marker_ok
  /\ returns_only (Graph.filter_papers_node ext state) marker_ok
  /\ returns_only (Graph.analyze_papers_node ext state) marker_ok
  /\ returns_only (Graph.synthesize_report_node ext state synthesizer) marker_ok.
Proof.
  intros Hok.
  unfold Graph.fetch_papers_node, Graph.filter_papers_node, Graph.analyze_papers_node,
    Graph.synthesize_report_node.
  repeat split; returns_only; try exact Hok; by unfold marker_ok.
Qed.

(** A corrupt cache record stops the pipeline at the filter node: the
    exception of [load_processed_ids] becomes the error marker. *)
Example corrupt_cache_fails_filter_node :
  (Graph.filter_papers_node Sample.quiet Sample.initial_state
     (world_with (Document (JArr [])))).1
  = Ret (Graph.with_error Sample.initial_state
           (Some "Failed to filter papers for relevance.")).
Proof. reflexivity. Qed.

(** When every analysis of the batch comes back empty the cache file is
    not touched. *)
Example failed_analysis_leaves_cache :
  let r := Graph.analyze_papers_node (network_down Sample.quiet "timed out")
             Sample.relevant_state Sample.fresh in
  r.1 = Ret (Graph.with_analyzed_papers Sample.relevant_state [])
  /\ cache_file r.2 = Missing
  /\ trace r.2 = [EvHttpGet "http://example.com/test001.pdf"].
Proof. by vm_compute. Qed.

(** The batch on the sample: the one relevant paper is analyzed and its
    identifier goes into the cache file. *)
Example analyze_node_sample_run :
  let r := Graph.analyze_papers_node Sample.quiet Sample.relevant_state Sample.fresh in
  match r.1 with
  | Ret state => metadata <$> Graph.analyzed_papers state
  | Raise _ => []
  end = [Sample.candidate]
  /\ cache_file r.2 = Document (JObj [("processed_ids", JArr [JStr "test001"])]).
Proof. by vm_compute. Qed.

(** * More of the code *)

(** ** cache.py: what a save keeps, and what it survives *)

(** X1. When writing the cache file does not fail and the file loads as
    the set [known], [save_processed_ids] leaves a file that loads as
    [known] together with the new identifiers: nothing that was recorded
    is lost by a save. *)
Theorem cache_save_is_append_only
    (ext : External) (A : gset string) (w : World) (known : gset pykey) :
  cache_writable ext ->
  loaded (cache_file w) = Ret known ->
  let r := Cache.save_processed_ids ext A w in
  r.1 = Ret tt
  /\ (Cache.load_processed_ids r.2).1 = Ret (known ∪ set_map KStr A).
Proof.
  intros Hw Hknown r.
  pose proof (save_processed_ids_run ext A w Hw) as Hrun. cbn in Hrun.
  rewrite Hknown in Hrun. destruct Hrun as [Hret Hfile]. fold r in Hret, Hfile.
  split; [done |].
  destruct (load_processed_ids_run r.2) as (w' & -> & _). cbn.
  by rewrite Hfile, loaded_cache_document.
Qed.

Lemma cache_save_is_append_only_witness :
  cache_writable Sample.quiet
  /\ loaded (cache_file Sample.fresh) = Ret ∅
  /\ (Cache.load_processed_ids
        (Cache.save_processed_ids Sample.quiet Sample.first_ids Sample.fresh).2).1
     = Ret (∅ ∪ set_map KStr Sample.first_ids).
Proof.
  split; [intros h; reflexivity |]. split; [reflexivity |].
  apply (cache_save_is_append_only Sample.quiet Sample.first_ids Sample.fresh).
  - intros h. reflexivity.
  - reflexivity.
Defined.

(** X2. When the cache file cannot be opened for writing,
    [save_processed_ids] still returns normally: the IOError is caught,
    one ERROR line is logged, the file stays as it was and no write is
    recorded. *)
Theorem cache_save_survives_unwritable_file
    (ext : External) (A : gset string) (w : World) (known : gset pykey) (msg : string) :
  loaded (cache_file w) = Ret known ->
  (forall h, cache_write_fault ext h = Some (OpenFails msg)) ->
  let r := Cache.save_processed_ids ext A w in
  r.1 = Ret tt
  /\ cache_file r.2 = cache_file w
  /\ trace r.2 = trace (Cache.load_processed_ids w).2
  /\ last (log r.2)
     = Some (ERROR, "Failed to save cache file at processed_papers_cache.json: " ++ msg).
Proof.
  intros Hknown Hfault r. subst r. unfold Cache.save_processed_ids, bind.
  destruct (load_processed_ids_run w) as (w1 & Hload & Hc & _).
  rewrite Hload, Hknown. cbn [fst snd].
  unfold try_except, ask. rewrite Hfault. cbn.
  split; [done |]. split; [done |]. split; [done |].
  by rewrite last_snoc.
Qed.

Lemma cache_save_survives_unwritable_file_witness :
  loaded (cache_file Sample.fresh) = Ret ∅
  /\ (Cache.save_processed_ids Sample.read_only Sample.first_ids Sample.fresh).1 = Ret tt
  /\ cache_file (Cache.save_processed_ids Sample.read_only Sample.first_ids Sample.fresh).2
     = cache_file Sample.fresh.
Proof.
  split; [reflexivity |].
  destruct (cache_save_survives_unwritable_file Sample.read_only Sample.first_ids
              Sample.fresh ∅ "Permission denied")
    as (H1 & H2 & _).
  - reflexivity.
  - intros h. reflexivity.
  - split; [exact H1 | exact H2].
Defined.

(** X3. [save_processed_ids] loads before it writes, outside its own
    [try]: when the cache file is one that [load_processed_ids] raises on,
    the save raises the same exception, and the file and the record of
    exchanges are as the failed load left them: nothing is written. *)
Theorem cache_save_raises_with_load
    (ext : External) (A : gset string) (w : World) (e : PyExn) :
  loaded (cache_file w) = Raise e ->
  let r := Cache.save_processed_ids ext A w in
  r.1 = Raise e
  /\ cache_file r.2 = cache_file w
  /\ trace r.2 = trace (Cache.load_processed_ids w).2.
Proof.
  intros Hraise r. subst r. unfold Cache.save_processed_ids, bind.
  destruct (load_processed_ids_run w) as (w1 & Hload & Hc & _).
  rewrite Hload, Hraise. by cbn.
Qed.

Lemma cache_save_raises_with_load_witness :
  loaded (cache_file (world_with (Document (JArr []))))
  = Raise (AttributeError "'list' object has no attribute 'get'")
  /\ (Cache.save_processed_ids Sample.quiet Sample.first_ids
        (world_with (Document (JArr [])))).1
     = Raise (AttributeError "'list' object has no attribute 'get'").
Proof.
  split; [reflexivity |].
  apply (cache_save_raises_with_load Sample.quiet Sample.first_ids
           (world_with (Document (JArr [])))).
  reflexivity.
Defined.

(** ** analysis.py: what [analyze_paper] sends and returns *)

Lemma extract_resource_links_value text w :
  exists w',
    Analysis._extract_resource_links text w = (Ret (extracted_links text), w')
    /\ same_but_log w w'.
Proof.
  unfold extracted_links, Analysis._extract_resource_links, bind, ret.
  destruct (Re.findall Analysis.github_pattern text) as [|g gs];
    destruct (Re.findall Analysis.huggingface_pattern text) as [|h hs];
    cbn; eexists; (split; [reflexivity |]); by repeat split.
Qed.

Lemma take_length n s : (String.length (PyStr.take n s) <= n)%nat.
Proof.
  revert s. induction n as [|n IH]; intros [|c s]; cbn; try lia.
  specialize (IH s). lia.
Qed.

Lemma sent_text_bounded text : PyStr.len (sent_text text) <= Analysis.max_text_length.
Proof.
  unfold sent_text. destruct (PyStr.len text >? Analysis.max_text_length) eqn:Hlen.
  - unfold PyStr.len. pose proof (take_length (Z.to_nat Analysis.max_text_length) text).
    unfold Analysis.max_text_length in *. lia.
  - lia.
Qed.

(** The analyzed paper built from a candidate, the text of its document
    and the result of the language model. *)
Lemma analyze_paper_cases ext paper w :
  let text := match extracted_text ext (trace w) (pdf_url paper) with
              | Ret text => text
              | Raise _ => ""
              end in
  let h1 := (trace w ++ [EvHttpGet (pdf_url paper)])%list in
  let questions := PyStr.join nl Analysis.ANALYTICAL_QUESTIONS in
  let reply := analysis_llm ext h1 (sent_text text) questions in
  exists w',
    Analysis.analyze_paper ext paper w
    = (Ret (if PyStr.truthy text
            then match reply with
                 | Ret result => Some (assembled paper text result)
                 | Raise _ => None
                 end
            else None), w')
    /\ trace w' = (h1 ++ if PyStr.truthy text
                         then [EvAnalysisCall (sent_text text) questions reply]
                         else [])%list
    /\ cache_file w' = cache_file w /\ reports w' = reports w.
Proof.
  intros text h1 questions reply. unfold Analysis.analyze_paper.
  unfold bind at 1. rewrite logging_logged. cbv beta iota.
  unfold bind at 1.
  destruct (download_and_parse_pdf_run ext (pdf_url paper)
              (logged INFO ("Starting analysis for paper: " ++ title paper) w))
    as (w1 & -> & Ht1 & Hc1 & Hr1).
  rewrite trace_logged in Ht1. rewrite cache_file_logged in Hc1.
  rewrite reports_logged in Hr1. rewrite trace_logged. fold text.
  cbv beta iota.
  destruct (PyStr.truthy text) eqn:Htruthy; cbv [negb].
  2:{ eexists. split; [reflexivity |]. by rewrite app_nil_r. }
  unfold bind at 1.
  destruct (extract_resource_links_value text w1) as (w2 & -> & Hc2 & Hr2 & Ht2).
  cbv beta iota. unfold bind at 1.
  assert (exists w3,
    (if PyStr.len text >? Analysis.max_text_length
     then
       logging WARNING ("Paper text is too long (" ++ pretty (PyStr.len text)
                        ++ " chars). Truncating to " ++ pretty Analysis.max_text_length ++ ".") ;;
       ret (PyStr.take (Z.to_nat Analysis.max_text_length) text)
     else ret text) w2 = (Ret (sent_text text), w3)
    /\ same_but_log w2 w3) as (w3 & -> & Hc3 & Hr3 & Ht3).
  { unfold sent_text. destruct (PyStr.len text >? Analysis.max_text_length).
    - unfold bind. rewrite logging_logged. eexists. split; [reflexivity |].
      apply same_but_log_logged.
    - eexists. split; [reflexivity |]. apply same_but_log_refl. }
  cbv beta iota.
  unfold try_except. unfold bind at 1. rewrite logging_logged. cbv beta iota.
  unfold bind at 1, call. rewrite trace_logged.
  fold questions. rewrite Ht3, Ht2, Ht1. fold h1. fold reply.
  destruct reply as [result|e]; cbv beta iota zeta.
  - unfold bind. rewrite logging_logged. cbv beta iota.
    eexists. split; [reflexivity |]. cbn. repeat split; congruence.
  - unfold handle, any_exception, bind. rewrite logging_logged. cbv beta iota.
    eexists. split; [reflexivity |]. cbn. repeat split; congruence.
Qed.

Lemma string_app_cons c (a b : string) : String c a ++ b = String c (a ++ b).
Proof. reflexivity. Qed.

Lemma take_prefix n s : exists rest, s = PyStr.take n s ++ rest.
Proof.
  revert s. induction n as [|n IH]; intros [|c s]; cbn [PyStr.take];
    try (by eexists).
  destruct (IH s) as (rest & Hrest). exists rest.
  by rewrite string_app_cons, <- Hrest.
Qed.

(** X4. Whatever the document is, the text [analyze_paper] sends to the
    language model has at most 30000 characters and is a prefix of the
    text extracted from the document; [analyze_paper] makes at most one
    such call, after the download. *)
Theorem analysis_prompt_is_bounded
    (ext : External) (paper : PaperCandidate) (w : World) :
  let text := match extracted_text ext (trace w) (pdf_url paper) with
              | Ret text => text
              | Raise _ => ""
              end in
  let r := Analysis.analyze_paper ext paper w in
  exists calls,
    trace r.2 = (trace w ++ EvHttpGet (pdf_url paper) :: calls)%list
    /\ (length calls <= 1)%nat
    /\ Forall (fun ev => exists sent questions reply rest,
                 ev = EvAnalysisCall sent questions reply
                 /\ PyStr.len sent <= 30000
                 /\ text = sent ++ rest)
         calls.
Proof.
  intros text r. subst r.
  destruct (analyze_paper_cases ext paper w) as (w' & -> & Ht & _).
  fold text in Ht. cbn [snd]. rewrite Ht, <- app_assoc. cbn [app].
  eexists. split; [reflexivity |].
  destruct (PyStr.truthy text); [| split; [cbn; lia | constructor]].
  split; [cbn; lia |]. constructor; [| constructor].
  assert (exists rest, text = sent_text text ++ rest) as (rest & Hrest).
  { unfold sent_text. destruct (PyStr.len text >? Analysis.max_text_length).
    - apply take_prefix.
    - exists "". by rewrite string_app_empty_r. }
  eexists _, _, _, rest. split; [reflexivity |].
  split; [apply sent_text_bounded | exact Hrest].
Qed.

(** X5. When the document gives a text that is not empty and the language
    model returns a result, [analyze_paper] returns the paper assembled
    from the candidate itself, the keywords and the summary of the result,
    the question/answer pairs of the result folded into a dict, and the
    resource links found in the whole text, also when the text sent to the
    model was cut. *)
Theorem analyze_paper_assembles_result
    (ext : External) (paper : PaperCandidate) (w : World)
    (text : string) (result : AnalysisResult) :
  extracted_text ext (trace w) (pdf_url paper) = Ret text ->
  PyStr.truthy text = true ->
  analysis_llm ext (trace w ++ [EvHttpGet (pdf_url paper)]) (sent_text text)
    (PyStr.join nl Analysis.ANALYTICAL_QUESTIONS) = Ret result ->
  let r := Analysis.analyze_paper ext paper w in
  r.1 = Ret (Some {| metadata := paper;
                     keywords := ar_keywords result;
                     analysis_qa := Analysis.qa_dict (ar_analysis_qa result);
                     resource_links := extracted_links text;
                     summary := ar_summary result |})
  /\ cache_file r.2 = cache_file w.
Proof.
  intros Htext Htruthy Hreply r. subst r.
  destruct (analyze_paper_cases ext paper w) as (w' & -> & _ & Hc & _).
  rewrite Htext, Htruthy, Hreply. by cbn.
Qed.

Lemma analyze_paper_assembles_result_witness :
  exists analyzed,
    (Analysis.analyze_paper Sample.quiet Sample.candidate Sample.fresh).1
    = Ret (Some analyzed)
    /\ metadata analyzed = Sample.candidate
    /\ keywords analyzed = ["kw1"]
    /\ analysis_qa analyzed = [("Q1", "A1")].
Proof.
  destruct (analyze_paper_assembles_result Sample.quiet Sample.candidate Sample.fresh
              "Code: https://github.com/test/repo."
              {| ar_analysis_qa := [{| question := "Q1"; answer := "A1" |}];
                 ar_keywords := ["kw1"]; ar_summary := "summary" |}
              eq_refl eq_refl eq_refl) as [H _].
  eexists. split; [exact H |]. repeat split; reflexivity.
Defined.

(** X6. When the call to the language model fails, [analyze_paper] does
    not raise: it returns [None], so the paper is dropped, and the cache
    file is not touched. *)
Theorem analyze_paper_drops_on_llm_failure
    (ext : External) (paper : PaperCandidate) (w : World) (text : string) (e : PyExn) :
  extracted_text ext (trace w) (pdf_url paper) = Ret text ->
  analysis_llm ext (trace w ++ [EvHttpGet (pdf_url paper)]) (sent_text text)
    (PyStr.join nl Analysis.ANALYTICAL_QUESTIONS) = Raise e ->
  let r := Analysis.analyze_paper ext paper w in
  r.1 = Ret None /\ cache_file r.2 = cache_file w.
Proof.
  intros Htext Hreply r. subst r.
  destruct (analyze_paper_cases ext paper w) as (w' & -> & _ & Hc & _).
  rewrite Htext, Hreply. cbn. by destruct (PyStr.truthy text).
Qed.

Lemma analyze_paper_drops_on_llm_failure_witness :
  (Analysis.analyze_paper Sample.no_analysis Sample.candidate Sample.fresh).1 = Ret None.
Proof.
  apply (analyze_paper_drops_on_llm_failure Sample.no_analysis Sample.candidate
           Sample.fresh "Code: https://github.com/test/repo."
           (OtherError "LLM API Error")); reflexivity.
Defined.

(** ** analysis.py: the links and the text *)

Lemma string_length_app (a b : string) :
  String.length (a ++ b) = (String.length a + String.length b)%nat.
Proof.
  induction a as [|c a IH]; [reflexivity |].
  rewrite string_app_cons. cbn. by rewrite IH.
Qed.

Lemma take_app_length (a b : string) : PyStr.take (String.length a) (a ++ b) = a.
Proof.
  induction a as [|c a IH]; [by destruct b |].
  rewrite string_app_cons. cbn. by rewrite IH.
Qed.

Lemma lit_consumes p : forall s rest, Re.lit p s = Some rest -> s = p ++ rest.
Proof.
  induction p as [|a p IH]; intros s rest; cbn.
  - by intros [= ->].
  - destruct s as [|b s]; [done |].
    destruct (Ascii.eqb a b) eqn:Hab; [| done].
    apply Ascii.eqb_eq in Hab as ->. intros H%IH.
    by rewrite string_app_cons, <- H.
Qed.

Lemma star_consumes cls k : forall s res,
  Re.star cls s k = Some res -> exists pre mid, s = pre ++ mid /\ k mid = Some res.
Proof.
  induction s as [|c s IH]; intros res; cbn.
  - intros H. by exists "", "".
  - destruct (cls c).
    + destruct (Re.star cls s k) as [rest|] eqn:Hstar.
      * intros [= ->]. destruct (IH res eq_refl) as (pre & mid & -> & Hk).
        by exists (String c pre), mid.
      * intros H. by exists "", (String c s).
    + intros H. by exists "", (String c s).
Qed.

Lemma rx_match_consumes r : forall s k res,
  Re.rx_match r s k = Some res -> exists pre mid, s = pre ++ mid /\ k mid = Some res.
Proof.
  induction r as [p|r IH|cls|r1 IH1 r2 IH2]; intros s k res; cbn.
  - destruct (Re.lit p s) as [rest|] eqn:Hlit; [| done].
    apply lit_consumes in Hlit as ->. intros H. by exists p, rest.
  - destruct (Re.rx_match r s k) as [rest|] eqn:Hm.
    + intros [= ->]. by apply IH.
    + intros H. by exists "", s.
  - destruct s as [|c s]; [done |]. destruct (cls c); [| done].
    intros (pre & mid & -> & Hk)%star_consumes. by exists (String c pre), mid.
  - intros (pre1 & mid1 & -> & (pre2 & mid2 & -> & Hk)%IH2)%IH1.
    exists (pre1 ++ pre2), mid2. by rewrite string_app_assoc.
Qed.

Lemma match_at_prefix r s m : Re.match_at r s = Some m -> exists rest, s = m ++ rest.
Proof.
  unfold Re.match_at.
  destruct (Re.rx_match r s Some) as [rest|] eqn:Hm; [| done].
  apply rx_match_consumes in Hm as (pre & mid & -> & [= ->]).
  intros [= <-]. exists rest.
  rewrite string_length_app, Nat.add_sub. by rewrite take_app_length.
Qed.

Lemma search_occurs r s m : Re.search r s = Some m -> occurs_in m s.
Proof.
  induction s as [|c s IH]; cbn.
  - destruct (Re.match_at r "") as [m'|] eqn:Hm; [| done].
    intros [= ->]. apply match_at_prefix in Hm as (rest & ->).
    apply occurs_in_app_l, occurs_in_self.
  - destruct (Re.match_at r (String c s)) as [m'|] eqn:Hm.
    + intros [= ->]. apply match_at_prefix in Hm as (rest & ->).
      apply occurs_in_app_l, occurs_in_self.
    + intros H%IH. by apply (occurs_in_app_r m (String c "") s).
Qed.

(** X7. Every link that [_extract_resource_links] binds to a key is the
    empty string or a piece of the text it was given: the function never
    makes up a link. *)
Theorem resource_links_come_from_the_text (text : string) (w : World) :
  match (Analysis._extract_resource_links text w).1 with
  | Ret links =>
      map_Forall (fun key link => link = "" \/ occurs_in link text) links
  | Raise _ => False
  end.
Proof.
  destruct (extract_resource_links_run text w)
    as (links & w' & -> & _ & Hdom & Hg & Hh & Hp).
  cbn. intros key link Hkey.
  assert (Hin : key ∈ dom links) by (apply elem_of_dom; eauto).
  rewrite Hdom in Hin. unfold LINK_KEYS in Hin.
  apply elem_of_union in Hin as [Hin%elem_of_union | ->%elem_of_singleton].
  - destruct Hin as [->%elem_of_singleton | ->%elem_of_singleton].
    + rewrite Hg in Hkey. injection Hkey as <-.
      destruct (Re.search Analysis.github_pattern text) as [m|] eqn:Hs; [| by left].
      right. by eapply search_occurs.
    + rewrite Hh in Hkey. injection Hkey as <-.
      destruct (Re.search Analysis.huggingface_pattern text) as [m|] eqn:Hs; [| by left].
      right. by eapply search_occurs.
  - rewrite Hp in Hkey. injection Hkey as <-. by left.
Qed.

Lemma tidy_weaken s : tidy true s = true -> tidy false s = true.
Proof.
  destruct s as [|c s]; [done |]. cbn.
  destruct (PyStr.is_space c); [| done]. by rewrite andb_false_r.
Qed.

Lemma sub_spaces_tidy s : forall in_run, tidy in_run (PyStr.sub_spaces in_run s) = true.
Proof.
  induction s as [|c s IH]; intros in_run; [done |].
  cbn [PyStr.sub_spaces]. destruct (PyStr.is_space c) eqn:Hc.
  - destruct in_run; [apply IH |]. cbn. by rewrite IH.
  - cbn [tidy]. rewrite Hc. apply IH.
Qed.

Lemma tidy_sub_spaces s : forall b, tidy b s = true -> PyStr.sub_spaces b s = s.
Proof.
  induction s as [|c s IH]; intros b; [done |].
  cbn [tidy PyStr.sub_spaces]. destruct (PyStr.is_space c) eqn:Hc.
  - intros [[Heq Hb]%andb_true_iff Ht]%andb_true_iff.
    apply Ascii.eqb_eq in Heq as ->. apply negb_true_iff in Hb as ->.
    by rewrite (IH true Ht).
  - intros Ht. by rewrite (IH false Ht).
Qed.

Lemma tidy_lstrip s : tidy true s = true -> PyStr.lstrip s = s.
Proof.
  destruct s as [|c s]; [done |]. cbn.
  destruct (PyStr.is_space c); [| done]. by rewrite andb_false_r.
Qed.

Lemma lstrip_tidy s : forall b, tidy b s = true -> tidy true (PyStr.lstrip s) = true.
Proof.
  induction s as [|c s IH]; intros b; [done |].
  cbn [tidy PyStr.lstrip]. destruct (PyStr.is_space c) eqn:Hc.
  - intros [_ Ht]%andb_true_iff. by eapply IH.
  - intros Ht. cbn [tidy]. by rewrite Hc.
Qed.

Lemma rstrip_tidy s : forall b, tidy b s = true -> tidy b (PyStr.rstrip s) = true.
Proof.
  induction s as [|c s IH]; intros b; [done |].
  cbn [tidy PyStr.rstrip]. destruct (PyStr.is_space c) eqn:Hc.
  - intros [Hhead Ht]%andb_true_iff.
    destruct (PyStr.truthy (PyStr.rstrip s)); cbn [andb negb tidy]; [| done].
    rewrite Hc, Hhead. by apply IH.
  - intros Ht. cbn [andb tidy]. rewrite Hc. by apply IH.
Qed.

Lemma rstrip_idemp s : PyStr.rstrip (PyStr.rstrip s) = PyStr.rstrip s.
Proof.
  induction s as [|c s IH]; [done |].
  cbn [PyStr.rstrip].
  destruct (PyStr.is_space c && negb (PyStr.truthy (PyStr.rstrip s))) eqn:Hcond; [done |].
  cbn [PyStr.rstrip]. by rewrite IH, Hcond.
Qed.

(** X8. The text [parse_text] returns is in normal form: its only
    whitespace is single spaces between other characters, none at either
    end, so collapsing and stripping it again changes nothing. *)
Theorem parse_text_is_normalised (ext : External) (content : string) :
  match Analysis.parse_text ext content with
  | Ret text =>
      tidy true text = true
      /\ PyStr.rstrip text = text
      /\ PyStr.strip (PyStr.sub_spaces false text) = text
  | Raise _ => True
  end.
Proof.
  unfold Analysis.parse_text.
  destruct (pdf_pages_text ext content) as [raw|e]; [| done].
  set (text := PyStr.strip (PyStr.sub_spaces false raw)).
  assert (Htidy : tidy true text = true).
  { unfold text, PyStr.strip. apply rstrip_tidy. eapply lstrip_tidy, sub_spaces_tidy. }
  assert (Hr : PyStr.rstrip text = text).
  { unfold text, PyStr.strip. apply rstrip_idemp. }
  split; [done |]. split; [done |].
  rewrite (tidy_sub_spaces text false (tidy_weaken _ Htidy)).
  unfold PyStr.strip. by rewrite (tidy_lstrip _ Htidy).
Qed.

(** ** fetcher.py: what a candidate is made of *)

Lemma split_nonempty sep s : PyStr.split sep s <> [].
Proof.
  destruct s as [|c s]; cbn; [done |].
  destruct (Ascii.eqb c sep); [done |]. by destruct (PyStr.split sep s).
Qed.

Lemma split_join sep s : PyStr.join (String sep "") (PyStr.split sep s) = s.
Proof.
  induction s as [|c s IH]; [done |]. cbn [PyStr.split].
  pose proof (split_nonempty sep s) as Hne.
  destruct (Ascii.eqb c sep) eqn:Hc.
  - apply Ascii.eqb_eq in Hc as ->.
    destruct (PyStr.split sep s) as [|w ws]; [done |].
    change (PyStr.join (String sep "") ("" :: w :: ws))
      with ("" ++ String sep "" ++ PyStr.join (String sep "") (w :: ws)).
    by rewrite IH.
  - destruct (PyStr.split sep s) as [|w ws]; [done |].
    destruct ws as [|w' ws].
    + cbn in IH. cbn. by rewrite IH.
    + change (PyStr.join (String sep "") (String c w :: w' :: ws))
        with (String c (w ++ String sep "" ++ PyStr.join (String sep "") (w' :: ws))).
      by rewrite <- IH.
Qed.

Lemma split_pieces sep s : Forall (fun piece => has_char sep piece = false) (PyStr.split sep s).
Proof.
  induction s as [|c s IH]; cbn [PyStr.split]; [by constructor |].
  destruct (Ascii.eqb c sep) eqn:Hc; [by constructor |].
  destruct (PyStr.split sep s) as [|w ws]; [by constructor; [cbn; rewrite Hc |] |].
  inversion IH as [|? ? Hw Hws]; subst. constructor; [| done].
  cbn. by rewrite Hc, Hw.
Qed.

Lemma join_ends_with_last sep l :
  l <> [] -> exists pre, PyStr.join sep l = pre ++ List.last l "".
Proof.
  induction l as [|x l IH]; [done |]. intros _.
  destruct l as [|y l]; [by exists "" |].
  destruct IH as (pre & Hpre); [done |].
  exists (x ++ sep ++ pre).
  change (PyStr.join sep (x :: y :: l)) with (x ++ sep ++ PyStr.join sep (y :: l)).
  change (List.last (x :: y :: l) "") with (List.last (y :: l) "").
  by rewrite Hpre, !string_app_assoc.
Qed.

Lemma last_in {A} (l : list A) d : l <> [] -> List.last l d ∈ l.
Proof.
  induction l as [|x l IH]; [done |]. intros _.
  destruct l as [|y l]; [by left |]. right. by apply IH.
Qed.

Lemma join_last_segment sep l :
  l <> [] ->
  PyStr.join sep l = List.last l ""
  \/ exists pre, PyStr.join sep l = pre ++ sep ++ List.last l "".
Proof.
  induction l as [|x l IH]; [done |]. intros _.
  destruct l as [|y l]; [by left |]. right.
  change (PyStr.join sep (x :: y :: l)) with (x ++ sep ++ PyStr.join sep (y :: l)).
  change (List.last (x :: y :: l) "") with (List.last (y :: l) "").
  destruct IH as [-> | (pre & ->)]; [done | by exists x |].
  exists (x ++ sep ++ pre). by rewrite !string_app_assoc.
Qed.

(** X9. The identifier of an arXiv candidate is what follows the last
    slash of the entry address: it holds no slash, and the entry address
    is the identifier itself (an address without a slash) or ends with a
    slash followed by the identifier.  The entry address itself is kept
    as [url]. *)
Theorem arxiv_id_is_last_segment (result : ArxivResult) (pdf : string) :
  let c := Fetcher.arxiv_candidate result pdf in
  has_char "/" (paper_id c) = false
  /\ (entry_id result = paper_id c
      \/ exists pre, entry_id result = pre ++ "/" ++ paper_id c)
  /\ url c = entry_id result
  /\ source c = "arXiv".
Proof.
  cbn. pose proof (split_nonempty "/" (entry_id result)) as Hne.
  split; [| split; [| done]].
  - pose proof (split_pieces "/" (entry_id result)) as Hall.
    rewrite Forall_forall in Hall. apply Hall. by apply last_in.
  - pose proof (join_last_segment "/" _ Hne) as Hlast.
    change (PyStr.join "/" (PyStr.split "/" (entry_id result)))
      with (PyStr.join (String "/" "") (PyStr.split "/" (entry_id result))) in Hlast.
    by rewrite split_join in Hlast.
Qed.

(** X10. A bioRxiv record becomes a candidate exactly when its DOI is not
    empty.  The candidate carries the DOI as its identifier, its document
    link is its page address followed by "v", the version and
    ".full.pdf", and its authors are the pieces between semicolons of the
    author strings put together: joined again with ";" they give that
    text back, and the list is never empty (a record without author data
    gets one empty name). *)
Theorem rxiv_candidate_of_record (server : Fetcher.RxivServer) (paper : RxivPaper) :
  match Fetcher.rxiv_candidate server paper with
  | Some c =>
      Fetcher.truthy_opt (doi paper) = true
      /\ doi paper = Some (paper_id c)
      /\ pdf_url c = url c ++ "v" ++ version paper ++ ".full.pdf"
      /\ authors c <> []
      /\ PyStr.join ";" (authors c)
         = PyStr.join "" (Fetcher.rxiv_author_names (rx_authors paper))
      /\ Forall (fun name => has_char ";" name = false) (authors c)
  | None => Fetcher.truthy_opt (doi paper) = false
  end.
Proof.
  unfold Fetcher.rxiv_candidate.
  destruct (doi paper) as [d|] eqn:Hdoi; cbn; [| done].
  destruct (PyStr.truthy d) eqn:Hd; cbn; [| done].
  split; [done |]. split; [done |].
  split; [by rewrite !string_app_assoc |].
  split; [apply split_nonempty |].
  split; [apply split_join | apply split_pieces].
Qed.

(** X11. [_scrape_and_create_chemrxiv_candidate] never raises.  It
    returns a candidate exactly for an item that has a document link that
    is not empty, an id, a title and an abstract; an item that lacks one
    of them gives [None] (a missing key or a failed validation is caught
    and logged), and nothing but the log changes. *)
Theorem chemrxiv_item_to_candidate (item : ChemItem) (w : World) :
  let r := Fetcher._scrape_and_create_chemrxiv_candidate item w in
  r.1 = Ret (match asset_url item, item_id item, item_title item, item_abstract item with
             | Some pdf, Some id_, Some title_, Some abstract_ =>
                 if PyStr.truthy pdf
                 then Some (chem_candidate pdf id_ title_ abstract_ item)
                 else None
             | _, _, _, _ => None
             end)
  /\ same_but_log w r.2.
Proof. apply scrape_chemrxiv_run. Qed.

(** ** Reasoning about what a computation returns and what it leaves *)

Lemma returns_only_bind_with {A B} (m : Py A) (k : A -> Py B)
    (Q : A -> Prop) (P : B -> Prop) :
  returns_only m Q -> (forall a, Q a -> returns_only (k a) P) ->
  returns_only (bind m k) P.
Proof.
  intros Hm Hk w b w'. unfold bind.
  destruct (m w) as [[a|e] w1] eqn:Hmw; [| discriminate].
  apply Hk. eapply Hm, Hmw.
Qed.

Lemma returns_only_try {A} (body : Py A)
    (clauses : list ((PyExn -> bool) * (PyExn -> Py A))) (P : A -> Prop) :
  returns_only body P ->
  Forall (fun clause => forall e, returns_only (clause.2 e) P) clauses ->
  returns_only (try_except body clauses) P.
Proof.
  intros Hb Hc w a w'. unfold try_except.
  destruct (body w) as [[a1|e] w1] eqn:Hbody.
  - intros [= <- <-]. eapply Hb, Hbody.
  - clear Hbody. induction Hc as [|[catches handler] rest Hh _ IH]; cbn; [discriminate |].
    destruct (catches e); [apply Hh | apply IH].
Qed.

Lemma returns_only_weaken {A} (m : Py A) (P Q : A -> Prop) :
  (forall a, P a -> Q a) -> returns_only m P -> returns_only m Q.
Proof. intros HPQ Hm w a w' H. eapply HPQ, Hm, H. Qed.

Lemma run_all_returns {A} (tasks : list (Py A)) (Q : A -> Prop) :
  Forall (fun task => returns_only task Q) tasks ->
  forall w, Forall (fun o => forall a, o = Ret a -> Q a) (run_all tasks w).1.
Proof.
  induction 1 as [|task tasks Ht _ IH]; intros w; cbn; [constructor |].
  destruct (task w) as [o w1] eqn:Htask.
  specialize (IH w1). destruct (run_all tasks w1) as [os w2]. cbn in *.
  constructor; [| done]. intros a ->. eapply Ht, Htask.
Qed.

Lemma keeps_files_ret {A} (a : A) : keeps_files (ret a).
Proof. by intros w. Qed.

Lemma keeps_files_raise {A} (e : PyExn) : keeps_files (@raise A e).
Proof. by intros w. Qed.

Lemma keeps_files_lift {A} (o : Outcome A) : keeps_files (lift o).
Proof. by intros w. Qed.

Lemma keeps_files_logging lvl msg : keeps_files (logging lvl msg).
Proof. by intros w. Qed.

Lemma keeps_files_emit ev : keeps_files (emit ev).
Proof. by intros w. Qed.

Lemma keeps_files_ask {A} (oracle : list Event -> A) : keeps_files (ask oracle).
Proof. by intros w. Qed.

Lemma keeps_files_call {A} (oracle : list Event -> Outcome A) record :
  keeps_files (call oracle record).
Proof. by intros w. Qed.

Lemma keeps_files_http_get {A} (oracle : list Event -> HttpReply A) url :
  keeps_files (http_get oracle url).
Proof. by intros w. Qed.

Lemma keeps_files_new_llm_client ext : keeps_files (new_llm_client ext).
Proof. by intros w. Qed.

Lemma keeps_files_read_cache_file : keeps_files read_cache_file.
Proof. by intros w. Qed.

Lemma keeps_files_bind {A B} (m : Py A) (k : A -> Py B) :
  keeps_files m -> (forall a, keeps_files (k a)) -> keeps_files (bind m k).
Proof.
  intros Hm Hk w. unfold bind. destruct (Hm w) as [Hc0 Hr0].
  destruct (m w) as [[a|e] w1]; cbn in *; [| done].
  destruct (Hk a w1) as [Hc Hr]. split; congruence.
Qed.

Lemma keeps_files_try {A} (body : Py A)
    (clauses : list ((PyExn -> bool) * (PyExn -> Py A))) :
  keeps_files body ->
  Forall (fun clause => forall e, keeps_files (clause.2 e)) clauses ->
  keeps_files (try_except body clauses).
Proof.
  intros Hb Hc w. unfold try_except. destruct (Hb w) as [Hc0 Hr0].
  destruct (body w) as [[a|e] w1]; cbn in *; [done |].
  assert (Hh : keeps_files (handle clauses e)).
  { clear Hc0 Hr0. induction Hc as [|[catches handler] rest Hh _ IH]; cbn; [by intros w0 |].
    destruct (catches e); [apply Hh | apply IH]. }
  destruct (Hh w1) as [Hc' Hr']. split; congruence.
Qed.

Lemma keeps_files_run_all {A} (tasks : list (Py A)) :
  Forall keeps_files tasks ->
  forall w, cache_file (run_all tasks w).2 = cache_file w
            /\ reports (run_all tasks w).2 = reports w.
Proof.
  induction 1 as [|task tasks Ht _ IH]; intros w; cbn; [done |].
  destruct (Ht w) as [Hc0 Hr0]. destruct (task w) as [o w1].
  destruct (IH w1) as [Hc1 Hr1]. destruct (run_all tasks w1) as [os w2]. cbn in *.
  split; congruence.
Qed.

Lemma keeps_files_gather {A} (tasks : list (Py A)) :
  Forall keeps_files tasks -> keeps_files (gather tasks).
Proof.
  intros H w. unfold gather. pose proof (keeps_files_run_all tasks H w) as Hrun.
  by destruct (run_all tasks w).
Qed.

Lemma keeps_files_gather_return_exceptions {A} (tasks : list (Py A)) :
  Forall keeps_files tasks -> keeps_files (gather_return_exceptions tasks).
Proof.
  intros H w. unfold gather_return_exceptions.
  pose proof (keeps_files_run_all tasks H w) as Hrun.
  by destruct (run_all tasks w).
Qed.

Ltac keeps_files :=
  repeat match goal with
         | |- forall _, _ => intro
         | |- keeps_files (bind _ _) => apply keeps_files_bind
         | |- keeps_files (try_except _ _) => apply keeps_files_try
         | |- Forall _ (_ :: _) => constructor
         | |- Forall _ [] => constructor
         | |- keeps_files (ret _) => apply keeps_files_ret
         | |- keeps_files (raise _) => apply keeps_files_raise
         | |- keeps_files (lift _) => apply keeps_files_lift
         | |- keeps_files (logging _ _) => apply keeps_files_logging
         | |- keeps_files (emit _) => apply keeps_files_emit
         | |- keeps_files (ask _) => apply keeps_files_ask
         | |- keeps_files (call _ _) => apply keeps_files_call
         | |- keeps_files (http_get _ _) => apply keeps_files_http_get
         | |- keeps_files (new_llm_client _) => apply keeps_files_new_llm_client
         | |- keeps_files read_cache_file => apply keeps_files_read_cache_file
         | |- keeps_files (if ?b then _ else _) => destruct b
         | |- keeps_files (match ?x with _ => _ end) => destruct x
         | |- _ => progress cbn [snd]
         end.

Lemma keeps_files_load_processed_ids : keeps_files Cache.load_processed_ids.
Proof. unfold Cache.load_processed_ids. keeps_files. Qed.

Lemma keeps_files_is_relevant ext paper : keeps_files (Filter.is_relevant ext paper).
Proof. unfold Filter.is_relevant. keeps_files. Qed.

Lemma keeps_files_filter_papers ext papers : keeps_files (Filter.filter_papers ext papers).
Proof.
  unfold Filter.filter_papers. keeps_files.
  apply keeps_files_gather, Forall_fmap, Forall_forall.
  intros paper _. apply keeps_files_is_relevant.
Qed.

(** ** fetcher.py: what [fetch_papers] returns *)

Lemma arxiv_loop_fetchable yesterday results :
  returns_only (Fetcher.arxiv_loop yesterday results) (Forall fetchable).
Proof.
  induction results as [|result rest IH]; cbn [Fetcher.arxiv_loop].
  - by apply returns_only_ret.
  - destruct (published result >? yesterday); [| done].
    destruct (Fetcher.arxiv_pdf_url result) as [pdf|] eqn:Hpdf; cbn.
    + destruct (PyStr.truthy pdf) eqn:Htruthy; cbn.
      * eapply returns_only_bind_with; [exact IH |].
        intros candidates Hall. apply returns_only_ret. constructor; [| done].
        split; [done |]. by left.
      * by apply returns_only_bind.
    + by apply returns_only_bind.
Qed.

Lemma keeps_files_arxiv_loop yesterday results :
  keeps_files (Fetcher.arxiv_loop yesterday results).
Proof.
  induction results as [|result rest IH]; cbn [Fetcher.arxiv_loop]; keeps_files; done.
Qed.

Lemma fetch_from_arxiv_fetchable ext :
  returns_only (Fetcher._fetch_from_arxiv ext) (Forall fetchable).
Proof.
  unfold Fetcher._fetch_from_arxiv, Fetcher.search_arxiv.
  apply returns_only_bind; intros _. apply returns_only_try.
  - eapply returns_only_bind_with.
    + do 3 (apply returns_only_bind; intro). apply arxiv_loop_fetchable.
    + intros candidates Hall. apply returns_only_bind; intros _.
      by apply returns_only_ret.
  - constructor; [| constructor]. intros e. apply returns_only_bind; intros _.
    by apply returns_only_ret.
Qed.

Lemma keeps_files_fetch_from_arxiv ext : keeps_files (Fetcher._fetch_from_arxiv ext).
Proof.
  unfold Fetcher._fetch_from_arxiv, Fetcher.search_arxiv. keeps_files.
  apply keeps_files_arxiv_loop.
Qed.

Lemma rxiv_candidate_fetchable server paper c :
  Fetcher.rxiv_candidate server paper = Some c -> fetchable c.
Proof.
  unfold Fetcher.rxiv_candidate.
  destruct (negb (Fetcher.truthy_opt (doi paper))); [done |].
  intros [= <-]. split; [reflexivity |].
  unfold SOURCE_TAGS. destruct server; cbn; set_solver.
Qed.

Lemma fetch_from_rxiv_fetchable ext server from_date :
  returns_only (Fetcher._fetch_from_rxiv ext server from_date) (Forall fetchable).
Proof.
  unfold Fetcher._fetch_from_rxiv.
  do 2 (apply returns_only_bind; intro). apply returns_only_try.
  - apply returns_only_bind; intros collection. apply returns_only_bind; intros _.
    apply returns_only_ret. apply Forall_forall. intros c Hc.
    apply list_elem_of_omap in Hc as (paper & _ & Hc).
    by eapply rxiv_candidate_fetchable.
  - constructor; [| constructor]. intros e. apply returns_only_bind; intros _.
    by apply returns_only_ret.
Qed.

Lemma keeps_files_fetch_from_rxiv ext server from_date :
  keeps_files (Fetcher._fetch_from_rxiv ext server from_date).
Proof. unfold Fetcher._fetch_from_rxiv. keeps_files. Qed.

Lemma scrape_chemrxiv_fetchable item :
  returns_only (Fetcher._scrape_and_create_chemrxiv_candidate item)
    (fun o => forall c, o = Some c -> fetchable c).
Proof.
  intros w o w' Hrun c ->.
  destruct (scrape_chemrxiv_run item w) as [Hret _]. rewrite Hrun in Hret. cbn in Hret.
  destruct (asset_url item) as [pdf|]; [| done].
  destruct (item_id item) as [id_|]; [| done].
  destruct (item_title item) as [title_|]; [| done].
  destruct (item_abstract item) as [abstract_|]; [| done].
  destruct (PyStr.truthy pdf) eqn:Hpdf; [| done].
  injection Hret as ->. split; [done |]. unfold SOURCE_TAGS. cbn. set_solver.
Qed.

Lemma keeps_files_scrape_chemrxiv item :
  keeps_files (Fetcher._scrape_and_create_chemrxiv_candidate item).
Proof.
  intros w. by destruct (scrape_chemrxiv_run item w) as [_ (Hc & Hr & _)].
Qed.

Lemma only_candidates_fetchable results :
  Forall (fun o => forall a, o = Ret a -> forall c, a = Some c -> fetchable c) results ->
  Forall fetchable (Fetcher.only_candidates results).
Proof.
  intros Hall. apply Forall_forall. intros c Hc.
  apply list_elem_of_omap in Hc as (res & Hin & Hres).
  rewrite Forall_forall in Hall. specialize (Hall res Hin).
  destruct res as [[c'|]|e]; try done. injection Hres as ->. by eapply Hall.
Qed.

Lemma keeps_files_chemrxiv_pages ext pages : forall page date items,
  keeps_files (Fetcher.chemrxiv_pages ext pages page date items).
Proof.
  induction pages as [|pages IH]; intros page date items; cbn [Fetcher.chemrxiv_pages];
    keeps_files. apply IH.
Qed.

Lemma fetch_from_chemrxiv_fetchable ext :
  returns_only (Fetcher._fetch_from_chemrxiv ext) (Forall fetchable).
Proof.
  unfold Fetcher._fetch_from_chemrxiv.
  do 2 (apply returns_only_bind; intro). apply returns_only_try.
  - apply returns_only_bind; intros all_items.
    apply (returns_only_bind_with _ _
             (Forall (fun o => forall a, o = Ret a ->
                                forall c, a = Some c -> fetchable c))).
    + intros w results w'. unfold gather_return_exceptions.
      pose proof (run_all_returns
        (Fetcher._scrape_and_create_chemrxiv_candidate <$> all_items)
        (fun o => forall c, o = Some c -> fetchable c)) as Hrun.
      specialize (Hrun ltac:(apply Forall_fmap, Forall_forall; intros item _;
                             apply scrape_chemrxiv_fetchable) w).
      destruct (run_all _ w) as [os w1]. intros [= <- _]. exact Hrun.
    + intros results Hall. apply returns_only_bind; intros _.
      apply returns_only_ret. by apply only_candidates_fetchable.
  - repeat constructor; intros e; apply returns_only_bind; intros _;
      by apply returns_only_ret.
Qed.

Lemma keeps_files_fetch_from_chemrxiv ext : keeps_files (Fetcher._fetch_from_chemrxiv ext).
Proof.
  unfold Fetcher._fetch_from_chemrxiv. keeps_files.
  - apply keeps_files_chemrxiv_pages.
  - apply keeps_files_gather_return_exceptions, Forall_fmap, Forall_forall.
    intros item _. apply keeps_files_scrape_chemrxiv.
Qed.

Lemma collect_run results : forall acc w,
  exists l w',
    Fetcher.collect results acc w = (Ret l, w')
    /\ same_but_log w w'
    /\ (Forall fetchable acc ->
        Forall (fun o => forall a, o = Ret a -> Forall fetchable a) results ->
        Forall fetchable l).
Proof.
  induction results as [|[l0|e] rest IH]; intros acc w; cbn [Fetcher.collect].
  - exists acc, w. split; [done |]. split; [apply same_but_log_refl | done].
  - destruct (IH (acc ++ l0)%list w) as (l & w' & -> & Hs & Hall).
    exists l, w'. split; [done |]. split; [done |].
    intros Hacc Hres. inversion Hres as [|? ? Hl0 Hrest]; subst.
    apply Hall; [| done]. apply Forall_app. split; [done | by apply Hl0].
  - unfold bind. rewrite logging_logged.
    destruct (IH acc (logged ERROR
      ("An error occurred in a fetcher task: " ++ exn_str e) w))
      as (l & w' & -> & Hs & Hall).
    exists l, w'. split; [done |].
    split; [eapply same_but_log_trans; [apply same_but_log_logged | done] |].
    intros Hacc Hres. inversion Hres; subst. by apply Hall.
Qed.

Lemma fetch_tasks_behave ext (sources : list string) date :
  let tasks :=
    ((if bool_decide ("arXiv" ∈ sources) then [Fetcher._fetch_from_arxiv ext] else [])
     ++ (if bool_decide ("bioRxiv" ∈ sources)
         then (fun server => Fetcher._fetch_from_rxiv ext server date)
                <$> Fetcher.biorxiv_servers
         else [])
     ++ (if bool_decide ("chemRxiv" ∈ sources)
         then [Fetcher._fetch_from_chemrxiv ext] else []))%list in
  Forall (fun task => returns_only task (Forall fetchable)) tasks
  /\ Forall keeps_files tasks.
Proof.
  cbn. split; repeat (apply Forall_app; split);
    repeat case_bool_decide; cbn;
    repeat (apply Forall_cons; split); try apply Forall_nil;
    auto using fetch_from_arxiv_fetchable, fetch_from_rxiv_fetchable,
      fetch_from_chemrxiv_fetchable, keeps_files_fetch_from_arxiv,
      keeps_files_fetch_from_rxiv, keeps_files_fetch_from_chemrxiv.
Qed.

Lemma fetch_papers_run ext sources w :
  exists candidates w',
    Fetcher.fetch_papers ext sources w = (Ret candidates, w')
    /\ Forall fetchable candidates
    /\ cache_file w' = cache_file w /\ reports w' = reports w.
Proof.
  unfold Fetcher.fetch_papers. unfold bind at 1, ask at 1. cbv beta iota zeta.
  destruct (fetch_tasks_behave ext sources
              (strftime_ymd ext (now_utc ext (trace w) - Fetcher.one_day)))
    as [Hret Hkeep].
  cbv zeta in Hret, Hkeep.
  unfold bind at 1, gather_return_exceptions.
  pose proof (run_all_returns _ _ Hret w) as Hres.
  pose proof (keeps_files_run_all _ Hkeep w) as [Hc Hr].
  destruct (run_all _ w) as [results w1]. cbn [fst snd] in *. cbv beta iota.
  unfold bind at 1.
  destruct (collect_run results [] w1) as (l & w2 & -> & (Hc2 & Hr2 & _) & Hall).
  cbv beta iota. unfold bind. rewrite logging_logged. cbv beta iota.
  eexists _, _. split; [reflexivity |].
  split; [by apply Hall |]. cbn. split; congruence.
Qed.

(** X12. When the page loop of the chemRxiv fetcher ends within the
    page budget, [fetch_papers] returns a list, whatever else the sources
    answer or raise.  Every candidate of the list has a document link
    that is not empty (a paper without one is dropped) and carries the
    tag of one of the fetchers; the cache file and the report files are
    not touched. *)
Theorem fetch_papers_returns_fetchable
    (ext : External) (sources : list string) (w : World) :
  pages_end ext ->
  exists candidates w',
    Fetcher.fetch_papers ext sources w = (Ret candidates, w')
    /\ Forall (fun c => PyStr.truthy (pdf_url c) = true
                        /\ source c ∈ ["arXiv"; "Biorxiv"; "Medrxiv"; "chemRxiv"])
         candidates
    /\ cache_file w' = cache_file w /\ reports w' = reports w.
Proof. intros _. apply fetch_papers_run. Qed.

Lemma fetch_papers_returns_fetchable_witness :
  exists candidates w',
    Fetcher.fetch_papers Sample.stale Fetcher.default_sources Sample.fresh
    = (Ret candidates, w')
    /\ Forall (fun c => PyStr.truthy (pdf_url c) = true
                        /\ source c ∈ ["arXiv"; "Biorxiv"; "Medrxiv"; "chemRxiv"])
         candidates
    /\ cache_file w' = cache_file Sample.fresh /\ reports w' = reports Sample.fresh.
Proof.
  apply (fetch_papers_returns_fetchable Sample.stale Fetcher.default_sources Sample.fresh).
  intros h date. discriminate.
Defined.

(** X13. The page loop of [_fetch_from_chemrxiv] sits inside one [try]:
    when the first page brought hits and the request for the second page
    fails, the fetcher returns the empty list, so the hits already read
    are lost with it. *)
Theorem chemrxiv_failure_discards_read_pages
    (ext : External) (w : World) (hits : list ChemItem) (e : PyExn) :
  let date := strftime_ymd ext (now_utc ext (trace w) - Fetcher.one_day) in
  (2 <= page_budget ext)%nat ->
  hits <> [] ->
  read_response (chemrxiv_response ext (trace w) 50 0 date) = Ret hits ->
  read_response (chemrxiv_response ext (trace w ++ [EvHttpGet CHEMRXIV_API]) 50 50 date)
  = Raise e ->
  let r := Fetcher._fetch_from_chemrxiv ext w in
  r.1 = Ret []
  /\ trace r.2 = (trace w ++ [EvHttpGet CHEMRXIV_API; EvHttpGet CHEMRXIV_API])%list.
Proof.
  intros date Hbudget Hhits Hfirst Hsecond r. subst r.
  enough (exists w', Fetcher._fetch_from_chemrxiv ext w = (Ret [], w')
            /\ trace w' = (trace w ++ [EvHttpGet CHEMRXIV_API; EvHttpGet CHEMRXIV_API])%list)
    as (w' & -> & Ht) by done.
  unfold Fetcher._fetch_from_chemrxiv.
  unfold bind at 1. rewrite logging_logged. cbv beta iota.
  unfold bind at 1, ask at 1. cbv beta iota zeta. rewrite trace_logged. fold date.
  destruct (page_budget ext) as [|[|budget]]; [lia | lia |]. clear Hbudget.
  unfold try_except. unfold bind at 1. cbn [Fetcher.chemrxiv_pages].
  unfold bind at 1, http_get at 1, call. rewrite trace_logged.
  change (0 * Fetcher.page_size) with 0. change Fetcher.page_size with 50.
  rewrite Hfirst. cbv beta iota zeta.
  destruct hits as [|hit hits]; [done |].
  unfold bind at 1, http_get at 1, call. cbn [trace].
  change ((0 + 1) * 50) with 50. fold CHEMRXIV_API. rewrite Hsecond. cbv beta iota zeta.
  cbn [handle]. destruct (Fetcher.http_status_error e); cbn [any_exception];
    unfold bind; rewrite logging_logged; (eexists; split; [reflexivity |]);
    cbn; by rewrite <- app_assoc.
Qed.

Lemma chemrxiv_failure_discards_read_pages_witness :
  (Fetcher._fetch_from_chemrxiv Sample.flaky_chemrxiv Sample.fresh).1 = Ret []
  /\ trace (Fetcher._fetch_from_chemrxiv Sample.flaky_chemrxiv Sample.fresh).2
     = [EvHttpGet CHEMRXIV_API; EvHttpGet CHEMRXIV_API].
Proof.
  apply (chemrxiv_failure_discards_read_pages Sample.flaky_chemrxiv Sample.fresh
           [Sample.old_item] (RequestError "timed out")).
  - cbn. lia.
  - discriminate.
  - reflexivity.
  - reflexivity.
Defined.

(** ** graph.py: the nodes at work *)

(** X14. When the page loop of the chemRxiv fetcher ends within the page
    budget, [fetch_papers_node] takes its success branch: every failure
    of a source is contained inside [fetch_papers].  It returns the state
    with the fetched candidates and the error marker cleared, also when
    the state came with a marker; the other fields, the cache file and
    the report files stay as they were. *)
Theorem fetch_node_clears_the_marker
    (ext : External) (state : Graph.GraphState) (w : World) :
  pages_end ext ->
  exists candidates w',
    Graph.fetch_papers_node ext state w
    = (Ret {| Graph.paper_candidates := candidates;
              Graph.relevant_papers := Graph.relevant_papers state;
              Graph.analyzed_papers := Graph.analyzed_papers state;
              Graph.markdown_report := Graph.markdown_report state;
              Graph.error := None;
              Graph.report_filename := Graph.report_filename state |}, w')
    /\ cache_file w' = cache_file w /\ reports w' = reports w.
Proof.
  intros _.
  unfold Graph.fetch_papers_node. unfold bind at 1. rewrite logging_logged.
  cbv beta iota. unfold try_except, bind.
  destruct (fetch_papers_run ext Fetcher.default_sources
              (logged INFO "--- Running Fetch Papers Node ---" w))
    as (candidates & w' & -> & _ & Hc & Hr).
  eexists _, _. by split.
Qed.

Lemma fetch_node_clears_the_marker_witness :
  exists candidates w',
    Graph.fetch_papers_node Sample.stale Sample.failed_state Sample.fresh
    = (Ret {| Graph.paper_candidates := candidates;
              Graph.relevant_papers := [];
              Graph.analyzed_papers := [];
              Graph.markdown_report := "";
              Graph.error := None;
              Graph.report_filename := None |}, w')
    /\ cache_file w' = cache_file Sample.fresh /\ reports w' = reports Sample.fresh.
Proof.
  apply (fetch_node_clears_the_marker Sample.stale Sample.failed_state Sample.fresh).
  intros h date. discriminate.
Defined.

Lemma filter_papers_run ext papers w :
  exists w',
    Filter.filter_papers ext papers w
    = (Ret (Filter.keep_relevant papers
              (said_true <$> relevance_replies ext (trace w) papers)), w')
    /\ cache_file w' = cache_file w /\ reports w' = reports w.
Proof.
  destruct (run_all_is_relevant ext papers (logged INFO
    ("Starting relevance filtering for " ++ pretty (length papers) ++ " papers.") w))
    as (w1 & Hrun & _ & Hc & Hr).
  cbn in Hrun.
  unfold Filter.filter_papers, bind, gather. rewrite logging_logged, Hrun.
  rewrite all_returned_Ret. eexists. split; [reflexivity |]. by cbn.
Qed.

Lemma not_processed_empty papers : Graph.not_processed ∅ papers = papers.
Proof.
  unfold Graph.not_processed. induction papers as [|paper papers IH]; [done |].
  rewrite filter_cons_True by apply not_elem_of_empty. by rewrite IH.
Qed.

Lemma filter_node_run ext state w ids :
  Graph.error_set state = false ->
  make_llm_client ext (trace w) = Ret tt ->
  loaded (cache_file w) = Ret ids ->
  exists w',
    Graph.filter_papers_node ext state w
    = (Ret (Graph.with_relevant_papers state
              (Graph.not_processed ids
                 (Filter.keep_relevant (Graph.paper_candidates state)
                    (said_true <$> relevance_replies ext (trace w)
                                     (Graph.paper_candidates state))))), w')
    /\ cache_file w' = cache_file w /\ reports w' = reports w.
Proof.
  intros Herr Hclient Hload. unfold Graph.filter_papers_node.
  unfold bind at 1. rewrite logging_logged. cbv beta iota. rewrite Herr.
  unfold try_except. unfold bind at 1, new_llm_client. rewrite trace_logged, Hclient.
  cbv beta iota. unfold bind at 1.
  destruct (filter_papers_run ext (Graph.paper_candidates state)
              (logged INFO "--- Running Filter Papers Node ---" w))
    as (w1 & -> & Hc1 & Hr1).
  rewrite trace_logged. rewrite cache_file_logged in Hc1. rewrite reports_logged in Hr1.
  cbv beta iota. unfold bind at 1.
  destruct (load_processed_ids_run w1) as (w2 & -> & Hc2 & Hr2).
  rewrite Hc1, Hload. cbv beta iota.
  case_bool_decide as Hids.
  - unfold bind at 1. unfold bind at 1. rewrite logging_logged. cbv beta iota.
    unfold bind at 1.
    match goal with |- context [if ?b then logging _ _ else ret tt] => destruct b end;
      [rewrite logging_logged | unfold ret at 1]; cbv beta iota;
      (eexists; split; [reflexivity |]); cbn; split; congruence.
  - subst ids. rewrite not_processed_empty.
    unfold bind at 1. unfold bind at 1. rewrite logging_logged. cbv beta iota.
    eexists. split; [reflexivity |]. cbn. split; congruence.
Qed.

Lemma not_processed_fresh ids papers :
  Forall (fun paper => KStr (paper_id paper) ∉ ids) (Graph.not_processed ids papers).
Proof.
  apply Forall_forall. intros paper Hin.
  by apply list_elem_of_filter in Hin as [Hfresh _].
Qed.

(** X15. With no error marker, a client that can be made and a cache file
    that loads, [filter_papers_node] stores in [relevant_papers] the
    candidates the relevance calls kept, less those whose id is in the
    cache: the stored list is a sublist of [paper_candidates], none of its
    ids is cached, and the node writes neither the cache file nor a
    report. *)
Theorem filter_node_drops_cached
    (ext : External) (state : Graph.GraphState) (w : World) (ids : gset pykey) :
  Graph.error_set state = false ->
  make_llm_client ext (trace w) = Ret tt ->
  loaded (cache_file w) = Ret ids ->
  let relevant :=
    Filter.keep_relevant (Graph.paper_candidates state)
      (said_true <$> relevance_replies ext (trace w) (Graph.paper_candidates state)) in
  let fresh := filter (fun paper => KStr (paper_id paper) ∉ ids) relevant in
  let r := Graph.filter_papers_node ext state w in
  r.1 = Ret (Graph.with_relevant_papers state fresh)
  /\ fresh `sublist_of` Graph.paper_candidates state
  /\ Forall (fun paper => KStr (paper_id paper) ∉ ids) fresh
  /\ cache_file r.2 = cache_file w /\ reports r.2 = reports w.
Proof.
  intros Herr Hclient Hload relevant fresh r.
  destruct (filter_node_run ext state w ids Herr Hclient Hload) as (w' & Hrun & Hc & Hr).
  subst r. rewrite Hrun. cbn [fst snd].
  split; [done |].
  split; [trans relevant; [apply sublist_filter | apply keep_relevant_sublist] |].
  split; [apply not_processed_fresh | done].
Qed.

Lemma filter_node_drops_cached_witness :
  (Graph.filter_papers_node Sample.quiet Sample.candidates_state Sample.known_cache).1
  = Ret (Graph.with_relevant_papers Sample.candidates_state [])
  /\ cache_file (Graph.filter_papers_node Sample.quiet Sample.candidates_state
                   Sample.known_cache).2
     = cache_file Sample.known_cache.
Proof.
  destruct (filter_node_drops_cached Sample.quiet Sample.candidates_state
              Sample.known_cache {[KStr "test001"]})
    as (Hrun & _ & _ & Hc & _); [reflexivity | reflexivity | reflexivity |].
  split; [exact Hrun | exact Hc].
Defined.

(** The batch of [analyze_papers_node], given what its tasks returned:
    the cache update is the only step that can fail. *)
Lemma analyze_node_batch ext state w (results : list (option AnalyzedPaper)) w1 :
  Graph.error_set state = false ->
  Graph.relevant_papers state <> [] ->
  make_llm_client ext (trace w) = Ret tt ->
  run_all (Analysis.analyze_paper ext <$> Graph.relevant_papers state)
    (logged INFO "--- Running Analyze Papers Node ---" w) = (Ret <$> results, w1) ->
  let analyzed := omap id results in
  let ids : gset string :=
    list_to_set ((fun paper => paper_id (metadata paper)) <$> analyzed) in
  let update :=
    (if bool_decide (ids ≠ ∅) then Cache.save_processed_ids ext ids else ret tt) w1 in
  Graph.analyze_papers_node ext state w
  = match update.1 with
    | Ret _ => (Ret (Graph.with_analyzed_papers state analyzed), update.2)
    | Raise e =>
        (Ret (Graph.with_error state (Some "Failed during paper analysis.")),
         logged ERROR ("Error in analyze_papers_node: " ++ exn_str e) update.2)
    end.
Proof.
  intros Herr Hrel Hclient Hrun analyzed ids update.
  unfold Graph.analyze_papers_node.
  unfold bind at 1. rewrite logging_logged. cbv beta iota.
  rewrite Herr. destruct (Graph.relevant_papers state) as [|p0 ps0] eqn:Hps; [done |].
  cbn [Graph.nonempty negb orb]. rewrite <- Hps in *. clear p0 ps0 Hps Hrel.
  unfold try_except. unfold bind at 1, new_llm_client. rewrite trace_logged, Hclient.
  cbv beta iota. unfold bind at 1, gather_return_exceptions. rewrite Hrun.
  cbv beta iota. rewrite errors_of_Ret, analyzed_of_Ret.
  cbn [Graph.nonempty]. unfold bind at 1. unfold ret at 1. cbv beta iota.
  unfold bind at 1. fold analyzed. fold ids. fold update.
  destruct update as [[[]|e] w2]; cbn [fst snd]; cbv beta iota; [done |].
  unfold handle, any_exception, bind. by rewrite logging_logged.
Qed.

Lemma run_all_analysis ext papers : forall w,
  exists w',
    run_all (Analysis.analyze_paper ext <$> papers) w
    = (Ret <$> analysis_results ext (trace w) papers, w')
    /\ cache_file w' = cache_file w /\ reports w' = reports w.
Proof.
  induction papers as [|paper rest IH]; intros w.
  - by exists w.
  - cbn [fmap list_fmap run_all analysis_results].
    destruct (analyze_paper_cases ext paper w) as (w1 & -> & Ht1 & Hc1 & Hr1).
    cbv zeta in Ht1 |- *.
    destruct (IH w1) as (w2 & -> & Hc2 & Hr2). rewrite Ht1.
    exists w2. split; [| split; congruence].
    destruct (PyStr.truthy _); [done |]. by rewrite app_nil_r.
Qed.

Lemma analysis_results_metadata ext papers : forall h,
  (metadata <$> omap id (analysis_results ext h papers)) `sublist_of` papers.
Proof.
  induction papers as [|paper rest IH]; intros h; cbn [analysis_results]; [done |].
  cbv zeta. destruct (PyStr.truthy _).
  - destruct (analysis_llm _ _ _ _); cbn; [apply sublist_skip || constructor | constructor];
      apply IH.
  - cbn. constructor. apply IH.
Qed.

(** X16. When the batch of [analyze_papers_node] runs with a client, a
    cache file that loads and can be written, the node stores in
    [analyzed_papers] exactly what the analyses of the relevant papers
    gave, in their order, leaving out the papers whose analysis gave
    nothing; and the cache read back afterwards holds exactly the ids it
    held before together with the ids of the papers stored.  The id of a
    paper whose analysis was dropped is not added. *)
Theorem analyze_node_records_analyzed_ids
    (ext : External) (state : Graph.GraphState) (w : World) (known : gset pykey) :
  Graph.error_set state = false ->
  Graph.relevant_papers state <> [] ->
  make_llm_client ext (trace w) = Ret tt ->
  cache_writable ext ->
  loaded (cache_file w) = Ret known ->
  let analyzed :=
    omap id (analysis_results ext (trace w) (Graph.relevant_papers state)) in
  exists w' : World,
    Graph.analyze_papers_node ext state w
    = (Ret (Graph.with_analyzed_papers state analyzed), w')
    /\ (metadata <$> analyzed) `sublist_of` Graph.relevant_papers state
    /\ loaded (cache_file w')
       = Ret (known ∪ list_to_set
                        ((fun paper => KStr (paper_id (metadata paper))) <$> analyzed)).
Proof.
  intros Herr Hrel Hclient Hwritable Hknown analyzed.
  destruct (run_all_analysis ext (Graph.relevant_papers state)
              (logged INFO "--- Running Analyze Papers Node ---" w))
    as (w1 & Hrun & Hc & _).
  rewrite cache_file_logged in Hc. rewrite trace_logged in Hrun.
  rewrite (analyze_node_batch ext state w _ w1 Herr Hrel Hclient Hrun).
  cbv zeta. fold analyzed.
  set (ids := list_to_set ((fun paper => paper_id (metadata paper)) <$> analyzed) : gset string).
  assert (Hids : set_map (C := gset string) (D := gset pykey) KStr ids
                 = list_to_set ((fun paper => KStr (paper_id (metadata paper))) <$> analyzed)).
  { unfold ids. apply set_eq. intros key. rewrite elem_of_map, elem_of_list_to_set.
    setoid_rewrite elem_of_list_to_set. rewrite list_elem_of_fmap.
    setoid_rewrite list_elem_of_fmap. split.
    - intros (id_ & -> & paper & -> & Hin). by exists paper.
    - intros (paper & -> & Hin). exists (paper_id (metadata paper)).
      split; [done |]. by exists paper. }
  case_bool_decide as Hne.
  - pose proof (save_processed_ids_run ext ids w1 Hwritable) as Hsave. cbn in Hsave.
    rewrite Hc, Hknown in Hsave. destruct Hsave as [Hret Hfile].
    destruct (Cache.save_processed_ids ext ids w1) as [o w2]. cbn in Hret, Hfile. subst o.
    cbn [fst snd]. exists w2. split; [done |].
    split; [apply analysis_results_metadata |].
    by rewrite Hfile, loaded_cache_document, Hids.
  - unfold ret. cbn [fst snd]. exists w1. split; [done |].
    split; [apply analysis_results_metadata |].
    rewrite Hc, Hknown, <- Hids, Hne, set_map_empty. by rewrite (right_id_L ∅ (∪)).
Qed.

Lemma analyze_node_records_analyzed_ids_witness :
  exists w' : World,
    Graph.analyze_papers_node Sample.quiet Sample.relevant_state Sample.fresh
    = (Ret (Graph.with_analyzed_papers Sample.relevant_state
              (omap id (analysis_results Sample.quiet []
                          (Graph.relevant_papers Sample.relevant_state)))), w')
    /\ (metadata <$> omap id (analysis_results Sample.quiet []
                                (Graph.relevant_papers Sample.relevant_state)))
         `sublist_of` Graph.relevant_papers Sample.relevant_state
    /\ loaded (cache_file w')
       = Ret (∅ ∪ list_to_set
                    ((fun paper => KStr (paper_id (metadata paper)))
                       <$> omap id (analysis_results Sample.quiet []
                                      (Graph.relevant_papers Sample.relevant_state)))).
Proof.
  apply (analyze_node_records_analyzed_ids Sample.quiet Sample.relevant_state
           Sample.fresh ∅).
  - reflexivity.
  - discriminate.
  - reflexivity.
  - intros h. reflexivity.
  - reflexivity.
Defined.

Lemma run_all_analyze_without_text ext papers : no_text ext -> forall w,
  exists w',
    run_all (Analysis.analyze_paper ext <$> papers) w
    = (Ret <$> ((fun _ => None) <$> papers), w')
    /\ trace w' = (trace w ++ ((fun paper => EvHttpGet (pdf_url paper)) <$> papers))%list
    /\ cache_file w' = cache_file w /\ reports w' = reports w.
Proof.
  intros Hno. induction papers as [|paper rest IH]; intros w.
  - exists w. by rewrite app_nil_r.
  - cbn [fmap list_fmap run_all].
    destruct (analyze_paper_cases ext paper w) as (w1 & -> & Ht1 & Hc1 & Hr1).
    assert (Hempty : PyStr.truthy
                       match extracted_text ext (trace w) (pdf_url paper) with
                       | Ret text => text
                       | Raise _ => ""
                       end = false).
    { specialize (Hno (trace w) (pdf_url paper)).
      by destruct (extracted_text ext (trace w) (pdf_url paper)). }
    rewrite Hempty in *. rewrite app_nil_r in Ht1.
    destruct (IH w1) as (w2 & -> & Ht2 & Hc2 & Hr2).
    exists w2. split; [reflexivity |].
    split; [by rewrite Ht2, Ht1, <- app_assoc | split; congruence].
Qed.

(** X17. When no document of the batch yields any text,
    [analyze_papers_node] still succeeds: it returns an empty
    [analyzed_papers], asked for each document once, in the order of
    [relevant_papers], made no call to the language model, and left the
    cache file and the reports alone. *)
Theorem analyze_node_without_any_text
    (ext : External) (state : Graph.GraphState) (w : World) :
  Graph.error_set state = false ->
  Graph.relevant_papers state <> [] ->
  make_llm_client ext (trace w) = Ret tt ->
  no_text ext ->
  let r := Graph.analyze_papers_node ext state w in
  r.1 = Ret (Graph.with_analyzed_papers state [])
  /\ trace r.2 = (trace w ++ ((fun paper => EvHttpGet (pdf_url paper))
                              <$> Graph.relevant_papers state))%list
  /\ cache_file r.2 = cache_file w /\ reports r.2 = reports w.
Proof.
  intros Herr Hrel Hclient Hno r. subst r.
  destruct (run_all_analyze_without_text ext (Graph.relevant_papers state) Hno
              (logged INFO "--- Running Analyze Papers Node ---" w))
    as (w1 & Hrun & Ht & Hc & Hr).
  rewrite (analyze_node_batch ext state w _ w1 Herr Hrel Hclient Hrun).
  assert (Hnone : omap id ((fun _ : PaperCandidate => @None AnalyzedPaper)
                           <$> Graph.relevant_papers state) = []).
  { clear. induction (Graph.relevant_papers state); cbn; done. }
  cbv zeta. rewrite Hnone. cbn [fmap list_fmap list_to_set foldr].
  rewrite bool_decide_eq_false_2 by (intros Hne; by apply Hne).
  by cbn.
Qed.

Lemma analyze_node_without_any_text_witness :
  (Graph.analyze_papers_node (network_down Sample.quiet "timed out")
     Sample.relevant_state Sample.fresh).1
  = Ret (Graph.with_analyzed_papers Sample.relevant_state [])
  /\ trace (Graph.analyze_papers_node (network_down Sample.quiet "timed out")
              Sample.relevant_state Sample.fresh).2
     = [EvHttpGet "http://example.com/test001.pdf"].
Proof.
  destruct (analyze_node_without_any_text (network_down Sample.quiet "timed out")
              Sample.relevant_state Sample.fresh) as (Hrun & Ht & _).
  - reflexivity.
  - discriminate.
  - reflexivity.
  - intros h url. reflexivity.
  - split; [exact Hrun | exact Ht].
Defined.

(** ** graph.py: what the nodes hand on *)

Ltac never_raises :=
  apply never_raises_after_log;
  repeat match goal with
         | |- never_raises (if ?b then _ else _) => destruct b
         | |- never_raises (ret _) => apply never_raises_ret
         | |- never_raises (try_except _ _) =>
             apply never_raises_try_except; intros ?; apply never_raises_handler
         end.

Lemma returns_and_only {A} (m : Py A) (P : A -> Prop) :
  never_raises m -> returns_only m P ->
  forall w, exists a w', m w = (Ret a, w') /\ P a.
Proof.
  intros Hn Hr w. destruct (Hn w) as (a & w' & Hm).
  exists a, w'. split; [done |]. eapply Hr, Hm.
Qed.

Lemma filter_node_outcome ext state w :
  exists state' w',
    Graph.filter_papers_node ext state w = (Ret state', w')
    /\ (state' = state
        \/ state' = Graph.with_error state (Some "Failed to filter papers for relevance.")
        \/ exists papers, state' = Graph.with_relevant_papers state papers).
Proof.
  apply returns_and_only; unfold Graph.filter_papers_node; [never_raises |].
  returns_only; [by left | | by right; left].
  right. right. by eexists.
Qed.

Lemma analyze_node_outcome ext state w :
  exists state' w',
    Graph.analyze_papers_node ext state w = (Ret state', w')
    /\ (state' = state
        \/ state' = Graph.with_error state (Some "Failed during paper analysis.")
        \/ exists papers, state' = Graph.with_analyzed_papers state papers).
Proof.
  apply returns_and_only; unfold Graph.analyze_papers_node; [never_raises |].
  returns_only; [by left | | by right; left].
  right. right. by eexists.
Qed.



(** ** graph.py: the graph as [get_graph] wires it *)

Lemma keeps_reports_files {A} (m : Py A) : keeps_files m -> keeps_reports m.
Proof. intros H w. by destruct (H w). Qed.

Lemma keeps_reports_bind {A B} (m : Py A) (k : A -> Py B) :
  keeps_reports m -> (forall a, keeps_reports (k a)) -> keeps_reports (bind m k).
Proof.
  intros Hm Hk w. unfold bind. pose proof (Hm w) as H0.
  destruct (m w) as [[a|e] w1]; cbn in *; [| done].
  by rewrite (Hk a w1).
Qed.

Lemma keeps_reports_try {A} (body : Py A)
    (clauses : list ((PyExn -> bool) * (PyExn -> Py A))) :
  keeps_reports body ->
  Forall (fun clause => forall e, keeps_reports (clause.2 e)) clauses ->
  keeps_reports (try_except body clauses).
Proof.
  intros Hb Hc w. unfold try_except. pose proof (Hb w) as H0.
  destruct (body w) as [[a|e] w1]; cbn in *; [done |].
  assert (Hh : keeps_reports (handle clauses e)).
  { clear H0. induction Hc as [|[catches handler] rest Hh _ IH]; cbn; [by intros w0 |].
    destruct (catches e); [apply Hh | apply IH]. }
  by rewrite (Hh w1).
Qed.

Lemma keeps_reports_write_cache_file f : keeps_reports (write_cache_file f).
Proof. by intros w. Qed.

Ltac keeps_reports :=
  repeat match goal with
         | |- forall _, _ => intro
         | |- keeps_reports (bind _ _) => apply keeps_reports_bind
         | |- keeps_reports (try_except _ _) => apply keeps_reports_try
         | |- Forall _ (_ :: _) => constructor
         | |- Forall _ [] => constructor
         | |- keeps_reports (write_cache_file _) => apply keeps_reports_write_cache_file
         | |- keeps_reports (if ?b then _ else _) => destruct b
         | |- keeps_reports (match ?x with _ => _ end) => destruct x
         | |- keeps_reports _ =>
             apply keeps_reports_files;
             first [ apply keeps_files_ret | apply keeps_files_raise
                   | apply keeps_files_logging | apply keeps_files_emit
                   | apply keeps_files_ask | apply keeps_files_new_llm_client
                   | apply keeps_files_load_processed_ids ]
         | |- _ => progress cbn [snd]
         end.

Lemma keeps_reports_save_processed_ids ext new_ids :
  keeps_reports (Cache.save_processed_ids ext new_ids).
Proof. unfold Cache.save_processed_ids. keeps_reports. Qed.

Lemma keeps_files_analyze_paper ext paper : keeps_files (Analysis.analyze_paper ext paper).
Proof.
  intros w. by destruct (analyze_paper_cases ext paper w) as (w' & -> & _ & Hc & Hr).
Qed.

Lemma keeps_reports_log_errors errors : keeps_reports (Graph.log_errors errors).
Proof. induction errors as [|err rest IH]; cbn [Graph.log_errors]; keeps_reports; exact IH. Qed.

Lemma keeps_reports_analyze_node ext state :
  keeps_reports (Graph.analyze_papers_node ext state).
Proof.
  unfold Graph.analyze_papers_node. keeps_reports;
    auto using keeps_reports_log_errors, keeps_reports_save_processed_ids.
  apply keeps_reports_files, keeps_files_gather_return_exceptions, Forall_fmap, Forall_forall.
  intros paper _. apply keeps_files_analyze_paper.
Qed.

Lemma keeps_files_filter_node ext state : keeps_files (Graph.filter_papers_node ext state).
Proof.
  unfold Graph.filter_papers_node. keeps_files;
    auto using keeps_files_filter_papers, keeps_files_load_processed_ids.
Qed.

(** The chain after the entry node: the two awaited nodes return, and
    the graph raises at the third. *)
Lemma after_fetch_run ext synthesizer state w :
  exists after_filter w1 after_analysis w2,
    Graph.filter_papers_node ext state w = (Ret after_filter, w1)
    /\ Graph.analyze_papers_node ext after_filter w1 = (Ret after_analysis, w2)
    /\ Graph.after_fetch ext synthesizer state w = (Raise NO_STATE_UPDATE, w2).
Proof.
  destruct (filter_node_outcome ext state w) as (s1 & w1 & Hfilter & _).
  destruct (analyze_node_outcome ext s1 w1) as (s2 & w2 & Hanalyze & _).
  exists s1, w1, s2, w2. split; [done |]. split; [done |].
  unfold Graph.after_fetch, bind. by rewrite Hfilter, Hanalyze.
Qed.

(** X19. The graph that [get_graph] builds never gets to the report.  Its
    node "synthesize_report" is a plain lambda that returns the coroutine
    of [synthesize_report_node] without awaiting it, so whatever state
    comes out of the analysis, the graph raises [InvalidUpdateError]
    there: the chain after the entry node raises it in every world, a run
    of [ainvoke] never returns a final state, and no report file is
    written on the way. *)
Theorem graph_stops_before_the_report
    (ext : External) (synthesizer : MarkdownSynthesizer)
    (state : Graph.GraphState) (w : World) :
  (exists w',
     Graph.after_fetch ext synthesizer state w
     = (Raise (InvalidUpdateError
                 "Expected dict, got <coroutine object synthesize_report_node>"), w')
     /\ reports w' = reports w)
  /\ (forall final, (Graph.ainvoke ext synthesizer state w).1 <> Ret final)
  /\ reports (Graph.ainvoke ext synthesizer state w).2 = reports w.
Proof.
  assert (Hafter : forall s0 w0, exists w',
    Graph.after_fetch ext synthesizer s0 w0 = (Raise NO_STATE_UPDATE, w')
    /\ reports w' = reports w0).
  { intros s0 w0.
    destruct (after_fetch_run ext synthesizer s0 w0)
      as (s1 & w1 & s2 & w2 & Hfilter & Hanalyze & Hrun).
    exists w2. split; [done |].
    pose proof (keeps_files_filter_node ext s0 w0) as [_ Hr1].
    pose proof (keeps_reports_analyze_node ext s1 w1) as Hr2.
    rewrite Hfilter in Hr1. rewrite Hanalyze in Hr2. cbn in Hr1, Hr2. congruence. }
  split; [apply Hafter |].
  unfold Graph.ainvoke, bind.
  destruct (fetch_papers_run ext Fetcher.default_sources
              (logged INFO "--- Running Fetch Papers Node ---" w))
    as (candidates & w0 & Hfetch & _ & _ & Hr0).
  assert (Hnode : Graph.fetch_papers_node ext state w
                  = (Ret (Graph.with_error
                            (Graph.with_paper_candidates state candidates) None), w0)).
  { unfold Graph.fetch_papers_node. unfold bind at 1. rewrite logging_logged.
    cbv beta iota. unfold try_except, bind. by rewrite Hfetch. }
  rewrite Hnode.
  destruct (Hafter (Graph.with_error (Graph.with_paper_candidates state candidates) None) w0)
    as (w' & -> & Hr).
  cbn [fst snd]. split; [done |]. by rewrite Hr, Hr0.
Qed.

(** X25. After a failure no stage runs.  From a state whose error marker
    is set, [filter_papers_node] and [analyze_papers_node] hand the state
    on as it is, and the graph stops at the node "synthesize_report" like
    every run: the chain after the entry node raises, and the world it
    leaves differs from the one it found in its log only: no request, no
    call to the language model, no write. *)
Theorem failure_stops_the_pipeline
    (ext : External) (synthesizer : MarkdownSynthesizer)
    (state : Graph.GraphState) (w : World) :
  Graph.error_set state = true ->
  exists w',
    Graph.after_fetch ext synthesizer state w
    = (Raise (InvalidUpdateError
                "Expected dict, got <coroutine object synthesize_report_node>"), w')
    /\ same_but_log w w'.
Proof.
  intros Herr. unfold Graph.after_fetch, bind.
  rewrite filter_node_passthrough by done.
  rewrite analyze_node_passthrough by (by left).
  eexists. split; [reflexivity |]. by repeat split.
Qed.

Lemma failure_stops_the_pipeline_witness :
  exists w',
    Graph.after_fetch Sample.quiet (Synthesizer.markdown Sample.quiet "2024-01-03")
      Sample.failed_state Sample.fresh
    = (Raise (InvalidUpdateError
                "Expected dict, got <coroutine object synthesize_report_node>"), w')
    /\ same_but_log Sample.fresh w'.
Proof.
  apply (failure_stops_the_pipeline Sample.quiet
           (Synthesizer.markdown Sample.quiet "2024-01-03")
           Sample.failed_state Sample.fresh).
  reflexivity.
Defined.

(** ** cache.py: what loads *)


(** X21. A cache file whose ["processed_ids"] is a list of strings loads
    as the set of these strings: the order of the list does not matter
    and an id written twice counts once. *)
Theorem load_reads_the_list_of_ids (ids : list string) :
  loaded (Document (JObj [("processed_ids", JArr (JStr <$> ids))]))
  = Ret (list_to_set (KStr <$> ids)).
Proof.
  unfold loaded, Cache.load_processed_ids, bind, read_cache_file, try_except, lift, emit.
  cbn.
  replace (JStr <$> ids) with (PyJson.of_key <$> (KStr <$> ids))
    by (rewrite <- list_fmap_compose; by apply list_fmap_ext).
  by rewrite set_of_items_keys.
Qed.

(** ** analysis.py: the text of a document *)

(** X22. [_download_and_parse_pdf] returns a text in every world, after
    exactly one request for the document.  When the request or the parser
    fails the text is empty; otherwise it is the text of the pages with
    whitespace collapsed and stripped, which is empty exactly when the
    pages hold nothing but whitespace. *)
Theorem download_returns_text_or_empty (ext : External) (url : string) (w : World) :
  exists text w',
    Analysis._download_and_parse_pdf ext url w = (Ret text, w')
    /\ trace w' = (trace w ++ [EvHttpGet url])%list
    /\ match read_response (pdf_response ext (trace w) url) with
       | Ret content =>
           match pdf_pages_text ext content with
           | Ret raw =>
               text = PyStr.strip (PyStr.sub_spaces false raw)
               /\ (text = "" <-> blank raw = true)
           | Raise _ => text = ""
           end
       | Raise _ => text = ""
       end.
Proof.
  destruct (download_and_parse_pdf_run ext url w) as (w' & Hrun & Ht & _).
  eexists _, w'. split; [exact Hrun |]. split; [exact Ht |].
  unfold extracted_text, Analysis.parse_text.
  destruct (read_response (pdf_response ext (trace w) url)) as [content|e]; [| done].
  destruct (pdf_pages_text ext content) as [raw|e]; [| done].
  split; [done |]. apply strip_sub_spaces_blank.
Qed.

(** ** analysis.py: the answers of the language model *)

#[local] Set Warnings "-clear-no-such-hyp".

Lemma dict_set_keys k v d x :
  x ∈ (dict_set k v d).*1 <-> x = k \/ x ∈ d.*1.
Proof.
  induction d as [|[k' v'] d IH]; cbn.
  - rewrite elem_of_cons. naive_solver.
  - destruct (String.eqb_spec k' k) as [-> | Hne]; cbn; rewrite !elem_of_cons.
    + naive_solver.
    + rewrite IH. naive_solver.
Qed.

Lemma dict_set_NoDup k v d : NoDup d.*1 -> NoDup (dict_set k v d).*1.
Proof.
  induction d as [|[k' v'] d IH]; cbn; intros Hnd.
  - apply NoDup_singleton.
  - apply NoDup_cons in Hnd as [Hnotin Hnd].
    destruct (String.eqb_spec k' k) as [-> | Hne]; cbn; apply NoDup_cons.
    + done.
    + split; [| by apply IH]. rewrite dict_set_keys. naive_solver.
Qed.

Lemma elem_of_dict_set k v d q a :
  NoDup d.*1 ->
  (q, a) ∈ dict_set k v d <-> (q = k /\ a = v) \/ (q <> k /\ (q, a) ∈ d).
Proof.
  induction d as [|[k' v'] d IH]; cbn; intros Hnd.
  - rewrite elem_of_cons, elem_of_nil. naive_solver.
  - apply NoDup_cons in Hnd as [Hnotin Hnd].
    assert (Hkey : forall a', (k', a') ∈ d -> False).
    { intros a' Hin. apply Hnotin, list_elem_of_fmap. by exists (k', a'). }
    destruct (String.eqb_spec k' k) as [-> | Hne]; rewrite !elem_of_cons.
    + naive_solver.
    + rewrite IH by done. naive_solver.
Qed.

Lemma qa_dict_snoc items item :
  Analysis.qa_dict (items ++ [item])
  = dict_set (question item) (answer item) (Analysis.qa_dict items).
Proof. unfold Analysis.qa_dict. by rewrite foldl_app. Qed.

(** X23. The dict of answers that [analyze_paper] builds from the reply
    of the language model holds each question once, and a question asked
    in several items of the reply carries the answer of the last of
    them. *)
Theorem qa_dict_last_answer_wins (items : list QAResponse) :
  NoDup (Analysis.qa_dict items).*1
  /\ forall q a,
       (q, a) ∈ Analysis.qa_dict items
       <-> exists item,
             last (filter (fun item => question item = q) items) = Some item
             /\ answer item = a.
Proof.
  induction items as [|item items [IHnd IH]] using rev_ind.
  - split; [apply NoDup_nil_2 |]. intros q a. cbn. rewrite elem_of_nil. naive_solver.
  - rewrite qa_dict_snoc. split; [by apply dict_set_NoDup |].
    intros q a. rewrite elem_of_dict_set by done. rewrite filter_app.
    destruct (decide (question item = q)) as [Hq | Hq].
    + rewrite (filter_cons_True _ item []) by done. rewrite filter_nil, last_snoc.
      naive_solver.
    + rewrite (filter_cons_False _ item []) by done. rewrite filter_nil, app_nil_r.
      rewrite IH. naive_solver.
Qed.

(** ** fetcher.py: sources *)

(** X24. A fetcher whose sources name none of "arXiv", "bioRxiv" and
    "chemRxiv" (the names are compared as they are written, so "biorxiv"
    is none of them) returns no candidate and makes no request at all. *)
Theorem fetch_papers_ignores_unknown_sources
    (ext : External) (sources : list string) (w : World) :
  "arXiv" ∉ sources -> "bioRxiv" ∉ sources -> "chemRxiv" ∉ sources ->
  let r := Fetcher.fetch_papers ext sources w in
  r.1 = Ret [] /\ trace r.2 = trace w
  /\ cache_file r.2 = cache_file w /\ reports r.2 = reports w.
Proof.
  intros Ha Hb Hc. unfold Fetcher.fetch_papers.
  rewrite !bool_decide_eq_false_2 by done. by cbn.
Qed.

Lemma fetch_papers_ignores_unknown_sources_witness :
  (Fetcher.fetch_papers Sample.quiet ["biorxiv"; "PubMed"] Sample.fresh).1 = Ret []
  /\ trace (Fetcher.fetch_papers Sample.quiet ["biorxiv"; "PubMed"] Sample.fresh).2 = [].
Proof.
  destruct (fetch_papers_ignores_unknown_sources Sample.quiet ["biorxiv"; "PubMed"]
              Sample.fresh) as (Hrun & Ht & _).
  - apply (proj1 (bool_decide_eq_false _)). reflexivity.
  - apply (proj1 (bool_decide_eq_false _)). reflexivity.
  - apply (proj1 (bool_decide_eq_false _)). reflexivity.
  - split; [exact Hrun | exact Ht].
Defined.

(** ** graph.py: who writes *)

(** X26. [filter_papers_node] only reads: in every world, also when it
    fails, it leaves the cache file and the report files exactly as it
    found them. *)
Theorem filter_node_writes_no_file (ext : External) (state : Graph.GraphState) :
  keeps_files (Graph.filter_papers_node ext state).
Proof.
  unfold Graph.filter_papers_node. keeps_files;
    auto using keeps_files_filter_papers, keeps_files_load_processed_ids.
Qed.
